(** * CounterAnimator: number parsing, number formatting and the animation frame

    A shallow embedding of [src/counterAnimator.js].  JavaScript numbers are
    IEEE 754 binary64 values, modelled by the Standard Library's
    specification floats ([spec_float] at precision 53, [emax] 1024) with its
    arithmetic.  JavaScript strings are modelled as [string]: sequences of
    code units below 256, that is, texts of the Latin-1 range.
    The builtins of the language that the source calls ([parseFloat],
    [Number], [toFixed], [toString], [Math.round], ...) follow ECMA-262. *)

From Stdlib Require Import ZArith Lia Bool List String Ascii.
From Stdlib Require Import Floats.SpecFloat.
Import ListNotations.
Local Open Scope string_scope.
Local Open Scope Z_scope.

(** ** Errors raised by the modelled code *)

Inductive error := TypeError | RangeError.

Inductive result (A : Type) :=
| Ok (a : A)
| Throw (e : error).
Arguments Ok {A} a.
Arguments Throw {A} e.

Definition bind {A B} (r : result A) (k : A -> result B) : result B :=
  match r with
  | Ok a => k a
  | Throw e => Throw e
  end.

Notation "x <- r ;; k" := (bind r (fun x => k))
  (at level 61, r at next level, right associativity).

(** ** Numbers *)

Module JS.

Definition number := spec_float.

Definition prec : Z := 53.
Definition emax : Z := 1024.

Definition NaN : number := S754_nan.
Definition Infinity : number := S754_infinity false.

(** A number is well formed when it is a canonical binary64 value. *)
Definition valid (x : number) : Prop := valid_binary prec emax x = true.

Definition is_finite (x : number) : bool :=
  match x with
  | S754_zero _ | S754_finite _ _ _ => true
  | _ => false
  end.

(** *** Rounding a rational to the nearest binary64 value, ties to even *)

(** [round_half_even p q] is the integer nearest to [p / q] ([0 < q]). *)
Definition round_half_even (p q : Z) : Z :=
  let d := p / q in
  match (2 * (p mod q)) ?= q with
  | Lt => d
  | Eq => if Z.even d then d else d + 1
  | Gt => d + 1
  end.

(** Every finite binary64 value is a whole number of units of [2^-1074],
    the spacing of the subnormal numbers; rounding works in these units.

    [ratio_exponent p q] is the [k >= 0] with [2^52 <= p / (q * 2^k) < 2^53],
    and [0] when [p / q] is below [2^52]. *)
Definition ratio_exponent (p q : Z) : Z :=
  let k := Z.max 0 (Z.log2 p - Z.log2 q - 53) in
  if 2 ^ 53 * (q * 2 ^ k) <=? p then k + 1 else k.

Definition finite_or_inf (neg : bool) (m e : Z) : number :=
  if 971 <? e then S754_infinity neg
  else match m with
       | Zpos m' => S754_finite neg m' e
       | _ => S754_zero neg
       end.

(** [of_ratio neg p q] is the binary64 value nearest to [p / q], ties to the
    even significand, negated when [neg] ([0 <= p], [0 < q]). *)
Definition of_ratio (neg : bool) (p q : Z) : number :=
  if p <=? 0 then S754_zero neg
  else
    let units := p * 2 ^ 1074 in
    let k := ratio_exponent units q in
    let m := round_half_even units (q * 2 ^ k) in
    if m =? 2 ^ 53 then finite_or_inf neg (2 ^ 52) (k + 1 - 1074)
    else finite_or_inf neg m (k - 1074).

(** [dec neg m e] is the number denoted by the decimal literal [m * 10^e]. *)
Definition dec (neg : bool) (m e : Z) : number :=
  if 0 <=? e then of_ratio neg (m * 10 ^ e) 1 else of_ratio neg m (10 ^ (- e)).

Definition of_Z (n : Z) : number := of_ratio (n <? 0) (Z.abs n) 1.

(** The exact value of a finite number, as a fraction of natural numbers. *)
Definition exact (m : positive) (e : Z) : Z * Z :=
  if 0 <=? e then (Zpos m * 2 ^ e, 1) else (Zpos m, 2 ^ (- e)).

(** *** Arithmetic and comparisons *)

Definition add : number -> number -> number := SFadd prec emax.
Definition sub : number -> number -> number := SFsub prec emax.
Definition mul : number -> number -> number := SFmul prec emax.
Definition div : number -> number -> number := SFdiv prec emax.
Definition neg : number -> number := SFopp.

Definition lt (x y : number) : bool := SFltb x y.
Definition le (x y : number) : bool := SFleb x y.
Definition ge (x y : number) : bool := SFleb y x.
Definition gt (x y : number) : bool := SFltb y x.
(** [x === y] on numbers. *)
Definition strict_eq (x y : number) : bool := SFeqb x y.

(** *** [Math] *)

Definition Math_abs (x : number) : number := SFabs x.

(** [Math.min(x, y)]: [NaN] when an argument is; [-0] is below [+0]. *)
Definition Math_min (x y : number) : number :=
  match SFcompare x y with
  | None => NaN
  | Some Lt => x
  | Some Gt => y
  | Some Eq =>
      match x with
      | S754_zero true => x
      | _ => y
      end
  end.

(** [Math.floor(x)]. *)
Definition Math_floor (x : number) : number :=
  match x with
  | S754_finite s m e =>
      if 0 <=? e then x
      else
        let n := (if s then - Zpos m else Zpos m) / 2 ^ (- e) in
        if n =? 0 then S754_zero s else of_Z n
  | _ => x
  end.

(** [Math.round(x)]: the nearest integer, ties towards [+Infinity]; the sign
    of a zero result is the sign of [x]. *)
Definition Math_round (x : number) : number :=
  match x with
  | S754_finite s m e =>
      if 0 <=? e then x
      else
        let n := (2 * (if s then - Zpos m else Zpos m) + 2 ^ (- e)) / 2 ^ (1 - e) in
        if n =? 0 then S754_zero s else of_Z n
  | _ => x
  end.

(** *** Strings *)

Definition len (s : string) : Z := Z.of_nat (String.length s).

Definition is_digit (c : ascii) : bool :=
  let n := Z.of_N (N_of_ascii c) in (48 <=? n) && (n <=? 57).

Definition digit_value (c : ascii) : Z := Z.of_N (N_of_ascii c) - 48.

Definition digit_char (d : Z) : ascii := ascii_of_N (Z.to_N (48 + d)).

(** White space and line terminators, which [trim] and the numeric parsers
    strip: among the code units below 256 these are TAB, LF, VT, FF, CR, the
    space and the no-break space U+00A0. *)
Definition is_space (c : ascii) : bool :=
  let n := Z.of_N (N_of_ascii c) in
  ((9 <=? n) && (n <=? 13)) || (n =? 32) || (n =? 160).

Fixpoint take (n : nat) (s : string) : string :=
  match n, s with
  | S n', String c s' => String c (take n' s')
  | _, _ => EmptyString
  end.

Fixpoint drop (n : nat) (s : string) : string :=
  match n, s with
  | S n', String _ s' => drop n' s'
  | _, _ => s
  end.

(** [s.substring(start, end)]: both indices are clamped to the string and
    swapped when out of order. *)
Definition substring (s : string) (start end_ : Z) : string :=
  let clamp i := Z.min (Z.max i 0) (len s) in
  let a := Z.min (clamp start) (clamp end_) in
  let b := Z.max (clamp start) (clamp end_) in
  take (Z.to_nat (b - a)) (drop (Z.to_nat a) s).

(** [s.substring(start)]. *)
Definition substring_from (s : string) (start : Z) : string :=
  substring s start (len s).

(** Does [s] start with the text [p]. *)
Fixpoint has_prefix (p s : string) : bool :=
  match p, s with
  | EmptyString, _ => true
  | String a p', String b s' => Ascii.eqb a b && has_prefix p' s'
  | String _ _, EmptyString => false
  end.

(** [s.slice(1)]. *)
Definition slice1 (s : string) : string := drop 1 s.

Definition startsWith (s : string) (c : ascii) : bool :=
  match s with
  | String a _ => Ascii.eqb a c
  | EmptyString => false
  end.

Fixpoint filter_chars (keep : ascii -> bool) (s : string) : string :=
  match s with
  | EmptyString => EmptyString
  | String c s' =>
      if keep c then String c (filter_chars keep s') else filter_chars keep s'
  end.

(** [s.replace(/c/g, '')] for a single character [c]. *)
Definition remove_char (c : ascii) (s : string) : string :=
  filter_chars (fun a => negb (Ascii.eqb a c)) s.

(** [(s.match(/c/g) || []).length]. *)
Fixpoint count_char (c : ascii) (s : string) : Z :=
  match s with
  | EmptyString => 0
  | String a s' => (if Ascii.eqb a c then 1 else 0) + count_char c s'
  end.

(** [/[cs]/.test(s)]: does a character satisfying [p] occur. *)
Fixpoint has_char (p : ascii -> bool) (s : string) : bool :=
  match s with
  | EmptyString => false
  | String a s' => p a || has_char p s'
  end.

(** [s.split(c)] for a single-character separator. *)
Fixpoint split (c : ascii) (s : string) : list string :=
  match s with
  | EmptyString => [EmptyString]
  | String a s' =>
      if Ascii.eqb a c then EmptyString :: split c s'
      else match split c s' with
           | p :: ps => String a p :: ps
           | [] => [String a EmptyString]
           end
  end.

Fixpoint lastIndexOf_from (c : ascii) (s : string) (i found : Z) : Z :=
  match s with
  | EmptyString => found
  | String a s' => lastIndexOf_from c s' (i + 1) (if Ascii.eqb a c then i else found)
  end.

(** [s.lastIndexOf(c)], [-1] when [c] does not occur. *)
Definition lastIndexOf (c : ascii) (s : string) : Z := lastIndexOf_from c s 0 (-1).

Fixpoint repeat_char (c : ascii) (n : nat) : string :=
  match n with
  | O => EmptyString
  | S n' => String c (repeat_char c n')
  end.

(** ['0'.repeat(n)]. *)
Definition repeat0 (n : Z) : result string :=
  if n <? 0 then Throw RangeError else Ok (repeat_char "0" (Z.to_nat n)).

(** [s.padEnd(n, '0')]. *)
Definition padEnd0 (s : string) (n : Z) : string :=
  s ++ repeat_char "0" (Z.to_nat (n - len s)).

Fixpoint trim_start (s : string) : string :=
  match s with
  | String c s' => if is_space c then trim_start s' else s
  | EmptyString => EmptyString
  end.

Fixpoint trim_end (s : string) : string :=
  match s with
  | EmptyString => EmptyString
  | String c s' =>
      match trim_end s' with
      | EmptyString => if is_space c then EmptyString else String c EmptyString
      | t => String c t
      end
  end.

Definition trim (s : string) : string := trim_end (trim_start s).

(** The capture of group [index], counted from 1; a group that took no part
    in the match gives the empty text. *)
Definition capture (captures : list (option string)) (index : Z) : string :=
  match nth_error captures (Z.to_nat (index - 1)) with
  | Some (Some text) => text
  | _ => EmptyString
  end.

(** [GetSubstitution(matched, str, position, captures, undefined, template)]:
    the text that [String.prototype.replace] puts in place of a match of a
    pattern without named groups, when the replacement is a string.  In the
    template [$$] is a dollar sign, [$&] the match, [$`] the text before the
    match, [$'] the text after it, and [$n] or [$nn] the capture of that
    number; two digits that exceed the number of groups are read as one digit
    and a literal digit, and any other [$] stands for itself. *)
Fixpoint GetSubstitution (matched str : string) (position : Z)
  (captures : list (option string)) (template : string) : string :=
  match template with
  | EmptyString => EmptyString
  | String c rest =>
      if negb (Ascii.eqb c "$") then
        String c (GetSubstitution matched str position captures rest)
      else
        match rest with
        | EmptyString => String "$" EmptyString
        | String d rest1 =>
            let captureLen := Z.of_nat (List.length captures) in
            let one_digit :=
              let index := digit_value d in
              (if (1 <=? index) && (index <=? captureLen) then capture captures index
               else String "$" (String d EmptyString))
                ++ GetSubstitution matched str position captures rest1 in
            if Ascii.eqb d "$" then
              String "$" (GetSubstitution matched str position captures rest1)
            else if Ascii.eqb d "`" then
              take (Z.to_nat position) str
                ++ GetSubstitution matched str position captures rest1
            else if Ascii.eqb d "&" then
              matched ++ GetSubstitution matched str position captures rest1
            else if Ascii.eqb d "'" then
              drop (Z.to_nat (Z.min (position + len matched) (len str))) str
                ++ GetSubstitution matched str position captures rest1
            else if is_digit d then
              match rest1 with
              | String d2 rest2 =>
                  if is_digit d2 then
                    let index := 10 * digit_value d + digit_value d2 in
                    if captureLen <? index then one_digit
                    else if 1 <=? index then
                      capture captures index
                        ++ GetSubstitution matched str position captures rest2
                    else
                      String "$" (String d (String d2 EmptyString))
                        ++ GetSubstitution matched str position captures rest2
                  else one_digit
              | EmptyString => one_digit
              end
            else String "$" (GetSubstitution matched str position captures rest)
        end
  end.

(** *** Decimal digits *)

Fixpoint digits_aux (fuel : nat) (n : Z) (acc : string) : string :=
  match fuel with
  | O => acc
  | S fuel' =>
      let acc' := String (digit_char (n mod 10)) acc in
      if n <? 10 then acc' else digits_aux fuel' (n / 10) acc'
  end.

(** The decimal representation of a natural number, without leading zeros. *)
Definition decimal_digits (n : Z) : string :=
  digits_aux (S (Z.to_nat (Z.log2 n))) n EmptyString.

Fixpoint digits_value (s : string) (acc : Z) : Z :=
  match s with
  | EmptyString => acc
  | String c s' => digits_value s' (10 * acc + digit_value c)
  end.

Fixpoint span_digits (s : string) : string * string :=
  match s with
  | String c s' =>
      if is_digit c then let '(d, r) := span_digits s' in (String c d, r)
      else (EmptyString, s)
  | EmptyString => (EmptyString, EmptyString)
  end.

(** *** [parseFloat] and [Number] on strings *)

(** An optional sign in front of [s]: whether it is a minus, and the rest. *)
Definition strip_sign (s : string) : bool * string :=
  match s with
  | String c r =>
      if Ascii.eqb c "-" then (true, r)
      else if Ascii.eqb c "+" then (false, r)
      else (false, s)
  | EmptyString => (false, s)
  end.

(** The text after a leading [c], if [s] starts with [c]. *)
Definition after_char (c : ascii) (s : string) : option string :=
  match s with
  | String a r => if Ascii.eqb a c then Some r else None
  | EmptyString => None
  end.

Definition truthy (s : string) : bool :=
  match s with
  | EmptyString => false
  | _ => true
  end.

(** The optional [ExponentPart]: [e] or [E], an optional sign and at least
    one digit; the text is left untouched when there is none. *)
Definition parse_exponent (s : string) : Z * string :=
  match s with
  | String c r =>
      if Ascii.eqb c "e" || Ascii.eqb c "E" then
        let '(minus, r1) := strip_sign r in
        let '(d, r2) := span_digits r1 in
        if truthy d then ((if minus then -1 else 1) * digits_value d 0, r2)
        else (0, s)
      else (0, s)
  | EmptyString => (0, s)
  end.

(** The longest prefix of [s1] that is a [StrUnsignedDecimalLiteral], as its
    value under the sign [sg] and the rest of the text. *)
Definition parse_unsigned (sg : bool) (s1 : string) : option (number * string) :=
  if has_prefix "Infinity" s1 then Some (S754_infinity sg, drop 8 s1)
  else
    let '(d1, r1) := span_digits s1 in
    let '(d2, r2) :=
      match after_char "." r1 with
      | Some r =>
          let '(d2, r2) := span_digits r in
          if truthy (d1 ++ d2) then (d2, r2) else (EmptyString, r1)
      | None => (EmptyString, r1)
      end in
    if truthy (d1 ++ d2) then
      let '(ex, r3) := parse_exponent r2 in
      Some (dec sg (digits_value (d1 ++ d2) 0) (ex - len d2), r3)
    else None.

(** The longest prefix that is a [StrDecimalLiteral]. *)
Definition parse_StrDecimalLiteral (s : string) : option (number * string) :=
  let '(sg, s1) := strip_sign s in parse_unsigned sg s1.

Definition parseFloat (s : string) : number :=
  match parse_StrDecimalLiteral (trim_start s) with
  | Some (v, _) => v
  | None => NaN
  end.

Definition radix_digit (base : Z) (c : ascii) : option Z :=
  let n := Z.of_N (N_of_ascii c) in
  let d := if (48 <=? n) && (n <=? 57) then n - 48
           else if (97 <=? n) && (n <=? 102) then n - 87
           else if (65 <=? n) && (n <=? 70) then n - 55
           else base in
  if d <? base then Some d else None.

Fixpoint radix_value (base : Z) (s : string) (acc : Z) : option Z :=
  match s with
  | EmptyString => Some acc
  | String c s' =>
      match radix_digit base c with
      | Some d => radix_value base s' (base * acc + d)
      | None => None
      end
  end.

(** [0x], [0o] and [0b] literals of [StringToNumber]. *)
Definition parse_NonDecimal (s : string) : option number :=
  match after_char "0" s with
  | Some (String c digits) =>
      let base := if Ascii.eqb c "x" || Ascii.eqb c "X" then 16
                  else if Ascii.eqb c "o" || Ascii.eqb c "O" then 8
                  else if Ascii.eqb c "b" || Ascii.eqb c "B" then 2
                  else 0 in
      if (base =? 0) || negb (truthy digits) then None
      else option_map of_Z (radix_value base digits 0)
  | _ => None
  end.

(** [Number(s)] for a string [s]. *)
Definition Number (s : string) : number :=
  match trim s with
  | EmptyString => S754_zero false
  | t =>
      match parse_NonDecimal t with
      | Some v => v
      | None =>
          match parse_StrDecimalLiteral t with
          | Some (v, EmptyString) => v
          | _ => NaN
          end
      end
  end.

(** *** [Number.prototype.toString] *)

Definition same (x y : number) : bool :=
  match x, y with
  | S754_zero a, S754_zero b => Bool.eqb a b
  | S754_infinity a, S754_infinity b => Bool.eqb a b
  | S754_nan, S754_nan => true
  | S754_finite a m e, S754_finite b m' e' =>
      Bool.eqb a b && Pos.eqb m m' && (e =? e')
  | _, _ => false
  end.

(** [floor_scaled num den t] is the integer part of [(num / den) / 10^t]. *)
Definition floor_scaled (num den t : Z) : Z :=
  if 0 <=? t then num / (den * 10 ^ t) else (num * 10 ^ (- t)) / den.

Fixpoint leading_zeros (fuel : nat) (num den j : Z) : Z :=
  match fuel with
  | O => j
  | S fuel' =>
      if den <=? num * 10 ^ j then j else leading_zeros fuel' num den (j + 1)
  end.

(** The [n] with [10^(n-1) <= num / den < 10^n]. *)
Definition decimal_exponent (num den : Z) : Z :=
  if den <=? num then len (decimal_digits (num / den))
  else 1 - leading_zeros 400 num den 1.

(** The decimal [s * 10^(n-k)] with [k] digits that denotes [x], if any: only
    the two [k]-digit decimals around the exact value can; of two that do,
    the closer one, and the even one when they are equally close. *)
Definition candidate (x : number) (num den n k : Z) : option (Z * Z) :=
  let t := n - k in
  let lo := floor_scaled num den t in
  let hi := lo + 1 in
  match same (dec false lo t) x, same (dec false hi t) x with
  | true, true =>
      let '(p, q) := if 0 <=? t then (2 * num, (lo + hi) * 10 ^ t * den)
                     else (2 * num * 10 ^ (- t), (lo + hi) * den) in
      match p ?= q with
      | Lt => Some (lo, t)
      | Gt => Some (hi, t)
      | Eq => Some (if Z.even lo then lo else hi, t)
      end
  | true, false => Some (lo, t)
  | false, true => Some (hi, t)
  | false, false => None
  end.

Fixpoint shortest (fuel : nat) (x : number) (num den n k : Z) : option (Z * Z) :=
  match fuel with
  | O => None
  | S fuel' =>
      match candidate x num den n k with
      | Some r => Some r
      | None => shortest fuel' x num den n (k + 1)
      end
  end.

Fixpoint strip_zeros (fuel : nat) (s t : Z) : Z * Z :=
  match fuel with
  | O => (s, t)
  | S fuel' =>
      if (s mod 10 =? 0) && negb (s =? 0) then strip_zeros fuel' (s / 10) (t + 1)
      else (s, t)
  end.

(** The digits [s] and the exponent [t] of the shortest decimal [s * 10^t]
    that denotes the positive number [m * 2^e].  Seventeen digits always
    suffice for a binary64 value; the exact decimal expansion closes the
    search. *)
Definition shortest_decimal (m : positive) (e : Z) : Z * Z :=
  let '(num, den) := exact m e in
  let '(s, t) :=
    match shortest 17 (S754_finite false m e) num den (decimal_exponent num den) 1 with
    | Some r => r
    | None => if 0 <=? e then (num, 0) else (num * 5 ^ (- e), e)
    end in
  strip_zeros (S (Z.to_nat (Z.log2 s))) s t.

Definition exponent_suffix (n : Z) : string :=
  String "e" ((if n - 1 <? 0 then "-" else "+") ++ decimal_digits (Z.abs (n - 1))).

(** The layout of the digits [s] with decimal exponent [t] (steps 7 to 11 of
    [Number::toString]). *)
Definition layout (s t : Z) : string :=
  let digits := decimal_digits s in
  let k := len digits in
  let n := k + t in
  if (k <=? n) && (n <=? 21) then digits ++ repeat_char "0" (Z.to_nat (n - k))
  else if (0 <? n) && (n <=? 21) then
    take (Z.to_nat n) digits ++ String "." (drop (Z.to_nat n) digits)
  else if (-6 <? n) && (n <=? 0) then
    String "0" (String "." (repeat_char "0" (Z.to_nat (- n)) ++ digits))
  else if k =? 1 then digits ++ exponent_suffix n
  else take 1 digits ++ String "." (drop 1 digits) ++ exponent_suffix n.

(** [x.toString()]. *)
Definition toString (x : number) : string :=
  match x with
  | S754_nan => "NaN"
  | S754_zero _ => "0"
  | S754_infinity s => if s then "-Infinity" else "Infinity"
  | S754_finite s m e =>
      let '(d, t) := shortest_decimal m e in
      (if s then "-" else EmptyString) ++ layout d t
  end.

(** *** [Number.prototype.toFixed] *)

(** The digits of [n / 10^f] with exactly [f] fraction digits. *)
Definition fixed_digits (n f : Z) : string :=
  let m := decimal_digits n in
  if f =? 0 then m
  else
    let m := repeat_char "0" (Z.to_nat (f + 1 - len m)) ++ m in
    let k := len m in
    take (Z.to_nat (k - f)) m ++ String "." (drop (Z.to_nat (k - f)) m).

(** [x.toFixed(f)]: the nearest multiple of [10^-f], the larger one of two
    equally near; values from [10^21] are printed by [toString]. *)
Definition toFixed (x : number) (f : Z) : result string :=
  if (f <? 0) || (100 <? f) then Throw RangeError
  else
    match x with
    | S754_finite s m e =>
        let '(num, den) := exact m e in
        let sign := if s then "-" else EmptyString in
        if 10 ^ 21 * den <=? num then Ok (sign ++ toString (S754_finite false m e))
        else Ok (sign ++ fixed_digits ((2 * num * 10 ^ f + den) / (2 * den)) f)
    | S754_zero _ => Ok (fixed_digits 0 f)
    | _ => Ok (toString x)
    end.

(** *** More of [String.prototype], and [parseInt] *)

(** The longest prefix of [s] whose characters satisfy [p], and the rest. *)
Fixpoint span (p : ascii -> bool) (s : string) : string * string :=
  match s with
  | String c s' =>
      if p c then let '(a, r) := span p s' in (String c a, r) else (EmptyString, s)
  | EmptyString => (EmptyString, EmptyString)
  end.

(** [s.replace(c, '')] for a single character [c]: the first occurrence
    only. *)
Fixpoint remove_first (c : ascii) (s : string) : string :=
  match s with
  | EmptyString => EmptyString
  | String a s' => if Ascii.eqb a c then s' else String a (remove_first c s')
  end.

(** [s.substr(start, length)]: a negative [start] counts from the end. *)
Definition substr (s : string) (start length : Z) : string :=
  let from := if start <? 0 then Z.max (len s + start) 0 else Z.min start (len s) in
  take (Z.to_nat length) (drop (Z.to_nat from) s).

Definition is_hex_digit (c : ascii) : bool :=
  match radix_digit 16 c with
  | Some _ => true
  | None => false
  end.

(** [parseInt(s, 16)]: white space, a sign and [0x] are skipped, the longest
    run of hexadecimal digits is read; [NaN] when there is none. *)
Definition parseInt16 (s : string) : number :=
  let '(minus, s1) := strip_sign (trim_start s) in
  let s2 := if has_prefix "0x" s1 || has_prefix "0X" s1 then drop 2 s1 else s1 in
  let z := fst (span is_hex_digit s2) in
  if truthy z then
    match radix_value 16 z 0 with
    | Some n => if n =? 0 then S754_zero minus else of_ratio minus n 1
    | None => NaN
    end
  else NaN.

End JS.

(** ** The animator *)

Module CounterAnimator.
Import JS.

(** *** Configuration *)

(** [format.abbreviations]; a missing suffix is [undefined]. *)
Record Abbreviations := {
  thousand : option string;
  million : option string;
  billion : option string;
  trillion : option string
}.

(** [config.numberFormat].  The nine presets define neither [abbreviations]
    nor [inputDecimalSeparator] nor [smartDetection]: a missing object or
    string is [None], a missing flag is [false] (it is only tested for
    truth). *)
Record NumberFormat := {
  thousandsSeparator : string;
  decimalSeparator : string;
  decimals : Z;
  showDecimals : bool;
  abbreviate : bool;
  abbreviations : option Abbreviations;
  inputDecimalSeparator : option string;
  smartDetection : bool
}.

(** The fields of [this.config] read by the modelled methods; a callback is
    represented by whether it is set. *)
Record Config := {
  duration : number;
  effect : string;
  startValue : number;
  formatNumber : bool;
  numberFormat : NumberFormat;
  prefix : string;
  suffix : string;
  onStart : bool;
  onUpdate : bool;
  onComplete : bool;
  triggerOnce : bool
}.

(** The [options] argument: every field may be left out. *)
Record Options := {
  opt_duration : option number;
  opt_effect : option string;
  opt_startValue : option number;
  opt_formatNumber : option bool;
  opt_numberFormat : option NumberFormat;
  opt_prefix : option string;
  opt_suffix : option string;
  opt_onStart : option bool;
  opt_onUpdate : option bool;
  opt_onComplete : option bool;
  opt_triggerOnce : option bool
}.

Definition no_options : Options :=
  {| opt_duration := None; opt_effect := None; opt_startValue := None;
     opt_formatNumber := None; opt_numberFormat := None; opt_prefix := None;
     opt_suffix := None; opt_onStart := None; opt_onUpdate := None;
     opt_onComplete := None; opt_triggerOnce := None |}.

Definition default_abbreviations : Abbreviations :=
  {| thousand := Some "K"; million := Some "M";
     billion := Some "B"; trillion := Some "T" |}.

Definition defaults : Config :=
  {| duration := of_Z 2000;
     effect := "easeOutCubic";
     startValue := of_Z 0;
     formatNumber := true;
     numberFormat :=
       {| thousandsSeparator := " ";
          decimalSeparator := ",";
          decimals := 0;
          showDecimals := false;
          abbreviate := false;
          abbreviations := Some default_abbreviations;
          inputDecimalSeparator := Some "auto";
          smartDetection := true |};
     prefix := EmptyString;
     suffix := EmptyString;
     onStart := false;
     onUpdate := false;
     onComplete := false;
     triggerOnce := true |}.

Definition or_default {A} (o : option A) (d : A) : A :=
  match o with
  | Some a => a
  | None => d
  end.

(** [{ ...base, ...options }]: a shallow merge, so a given [numberFormat]
    replaces the whole default one. *)
Definition merge (base : Config) (o : Options) : Config :=
  {| duration := or_default (opt_duration o) (duration base);
     effect := or_default (opt_effect o) (effect base);
     startValue := or_default (opt_startValue o) (startValue base);
     formatNumber := or_default (opt_formatNumber o) (formatNumber base);
     numberFormat := or_default (opt_numberFormat o) (numberFormat base);
     prefix := or_default (opt_prefix o) (prefix base);
     suffix := or_default (opt_suffix o) (suffix base);
     onStart := or_default (opt_onStart o) (onStart base);
     onUpdate := or_default (opt_onUpdate o) (onUpdate base);
     onComplete := or_default (opt_onComplete o) (onComplete base);
     triggerOnce := or_default (opt_triggerOnce o) (triggerOnce base) |}.

(** [new CounterAnimator(options)]: the configuration it holds.  The
    constructor merges and stores; it rejects nothing. *)
Definition constructor (options : Options) : result Config :=
  Ok (merge defaults options).

Definition preset (thousands decimal : string) (d : Z) (show abbr : bool)
  : NumberFormat :=
  {| thousandsSeparator := thousands; decimalSeparator := decimal;
     decimals := d; showDecimals := show; abbreviate := abbr;
     abbreviations := None; inputDecimalSeparator := None;
     smartDetection := false |}.

(** [CounterAnimator.getPresetFormats()], an object used as a map. *)
Definition getPresetFormats : list (string * NumberFormat) :=
  [ ("pt-ao", preset " " "," 0 false false);
    ("currency-ao", preset " " "," 2 true false);
    ("en-us", preset "," "." 0 false false);
    ("currency-us", preset "," "." 2 true false);
    ("pt-br", preset "." "," 0 false false);
    ("currency-br", preset "." "," 2 true false);
    ("eu", preset "." "," 0 false false);
    ("abbreviated", preset " " "," 1 false true);
    ("percentage", preset " " "," 1 true false) ].

Fixpoint lookup {A} (key : string) (m : list (string * A)) : option A :=
  match m with
  | [] => None
  | (k, v) :: m' => if String.eqb k key then Some v else lookup key m'
  end.

(** *** Easing functions *)

Section Easing.

(** [Math.pow] and [Math.sin] are implementation-approximated in ECMA-262:
    the curves are stated over any implementation of them. *)
Variable Math_pow : number -> number -> number.
Variable Math_sin : number -> number.

Definition Math_PI : number := dec false 3141592653589793 (-15).

Definition linear (t : number) : number := t.

Definition slow (t : number) : number := Math_pow t (of_Z 4).

Definition fast (t : number) : number :=
  sub (of_Z 1) (Math_pow (sub (of_Z 1) t) (dec false 3 (-1))).

Definition bounce (t : number) : number :=
  let n1 := dec false 75625 (-4) in
  let d1 := dec false 275 (-2) in
  if lt t (div (of_Z 1) d1) then mul (mul n1 t) t
  else if lt t (div (of_Z 2) d1) then
    let t := sub t (div (dec false 15 (-1)) d1) in
    add (mul (mul n1 t) t) (dec false 75 (-2))
  else if lt t (div (dec false 25 (-1)) d1) then
    let t := sub t (div (dec false 225 (-2)) d1) in
    add (mul (mul n1 t) t) (dec false 9375 (-4))
  else
    let t := sub t (div (dec false 2625 (-3)) d1) in
    add (mul (mul n1 t) t) (dec false 984375 (-6)).

Definition elastic (t : number) : number :=
  if strict_eq t (of_Z 0) then of_Z 0
  else if strict_eq t (of_Z 1) then of_Z 1
  else
    let c4 := div (mul (of_Z 2) Math_PI) (of_Z 3) in
    let s := Math_sin (mul (sub (mul (of_Z 20) t) (dec false 11125 (-3))) c4) in
    if lt t (dec false 5 (-1)) then
      div (neg (mul (Math_pow (of_Z 2) (sub (mul (of_Z 20) t) (of_Z 10))) s)) (of_Z 2)
    else
      add (div (mul (Math_pow (of_Z 2) (add (mul (of_Z (-20)) t) (of_Z 10))) s) (of_Z 2))
          (of_Z 1).

Definition steps (t : number) : number :=
  div (Math_floor (mul t (of_Z 5))) (of_Z 5).

Definition smooth (t : number) : number :=
  if lt t (dec false 5 (-1)) then mul (mul (of_Z 2) t) t
  else sub (of_Z 1)
           (div (Math_pow (add (mul (of_Z (-2)) t) (of_Z 2)) (of_Z 2)) (of_Z 2)).

Definition dramatic (t : number) : number :=
  if lt t (dec false 8 (-1)) then of_Z 0
  else div (sub t (dec false 8 (-1))) (dec false 2 (-1)).

Definition wave (t : number) : number :=
  add (mul (Math_sin (mul (mul t Math_PI) (of_Z 2))) (dec false 1 (-1))) t.

(** [this.easingFunctions], by its own properties. *)
Definition easingFunctions : list (string * (number -> number)) :=
  [ ("linear", linear); ("slow", slow); ("fast", fast); ("bounce", bounce);
    ("elastic", elastic); ("steps", steps); ("smooth", smooth);
    ("dramatic", dramatic); ("wave", wave) ].

(** What the object literal inherits from [Object.prototype], as the callee
    of the plain call [easingFunction(progress)], whose [this] is
    [undefined]: [Some f] when the call returns and the arithmetic of the
    frame reads the result as the number [f progress], [None] when the call
    throws a [TypeError].  [constructor] is [Object], which wraps the number
    in an object that reads back as the number; [toString] returns
    ["[object Undefined]"], which reads as [NaN]; [isPrototypeOf] returns
    [false] for an argument that is not an object, which reads as [0].  The
    other functions convert [this] to an object first, and [__proto__] is
    the prototype itself, which is no function. *)
Definition Object_prototype : list (string * option (number -> number)) :=
  [ ("constructor", Some (fun t => t));
    ("toString", Some (fun _ => NaN));
    ("isPrototypeOf", Some (fun _ => of_Z 0));
    ("__proto__", None);
    ("hasOwnProperty", None);
    ("propertyIsEnumerable", None);
    ("toLocaleString", None);
    ("valueOf", None);
    ("__defineGetter__", None);
    ("__defineSetter__", None);
    ("__lookupGetter__", None);
    ("__lookupSetter__", None) ].

(** [this.easingFunctions[name]]: an own property, an inherited one, or
    [undefined] ([None]). *)
Definition easingFunctions_get (name : string) : option (option (number -> number)) :=
  match lookup name easingFunctions with
  | Some f => Some (Some f)
  | None => lookup name Object_prototype
  end.

(** [this.easingFunctions[effect] || this.easingFunctions.easeOutCubic], as
    the callee of [easingFunction(progress)]: every property found is
    truthy, and [None] is a value whose call throws a [TypeError],
    [undefined] among them. *)
Definition easingFunction (effect : string) : option (number -> number) :=
  match easingFunctions_get effect with
  | Some callee => callee
  | None =>
      match easingFunctions_get "easeOutCubic" with
      | Some callee => callee
      | None => None
      end
  end.

End Easing.

(** *** Parsing the text of an element *)

Definition is_comma (c : ascii) : bool := Ascii.eqb c ",".
Definition is_dot (c : ascii) : bool := Ascii.eqb c ".".

(** [parseWithCommaSeparator(text)].  With one comma [split] yields exactly
    two parts, so the defaults of [nth] are never used. *)
Definition parseWithCommaSeparator (text : string) : number :=
  let commaCount := count_char "," text in
  let decided :=
    if commaCount =? 1 then
      let parts := split "," text in
      let beforeComma := nth 0 parts EmptyString in
      let afterComma := nth 1 parts EmptyString in
      if (len afterComma <=? 2) && (len beforeComma <=? 3) then
        Some (parseFloat (beforeComma ++ String "." afterComma))
      else if len afterComma =? 3 then
        Some (parseFloat (beforeComma ++ afterComma))
      else if len afterComma <=? 2 then
        Some (parseFloat (beforeComma ++ String "." afterComma))
      else None
    else None in
  match decided with
  | Some v => v
  | None => parseFloat (remove_char "," text)
  end.

(** [parseWithDotSeparator(text)]. *)
Definition parseWithDotSeparator (text : string) : number :=
  let dotCount := count_char "." text in
  if dotCount =? 1 then
    let parts := split "." text in
    let beforeDot := nth 0 parts EmptyString in
    let afterDot := nth 1 parts EmptyString in
    if (len afterDot <=? 2) && (len beforeDot <=? 3) then parseFloat text
    else if len afterDot =? 3 then parseFloat (beforeDot ++ afterDot)
    else parseFloat text
  else
    let lastDotIndex := lastIndexOf "." text in
    let beforeLastDot := remove_char "." (substring text 0 lastDotIndex) in
    let afterLastDot := substring_from text (lastDotIndex + 1) in
    if len afterLastDot <=? 2 then
      parseFloat (beforeLastDot ++ String "." afterLastDot)
    else parseFloat (remove_char "." text).

(** [parseWithMixedSeparators(text)]. *)
Definition parseWithMixedSeparators (text : string) : number :=
  let lastCommaIndex := lastIndexOf "," text in
  let lastDotIndex := lastIndexOf "." text in
  if lastDotIndex <? lastCommaIndex then
    let beforeComma := remove_char "." (substring text 0 lastCommaIndex) in
    let afterComma := substring_from text (lastCommaIndex + 1) in
    parseFloat (beforeComma ++ String "." afterComma)
  else
    let beforeDot := remove_char "," (substring text 0 lastDotIndex) in
    let afterDot := substring_from text (lastDotIndex + 1) in
    parseFloat (beforeDot ++ String "." afterDot).

(** [v || 0] on numbers: [NaN] and both zeros are falsy. *)
Definition or_zero (v : number) : number :=
  match v with
  | S754_nan | S754_zero _ => S754_zero false
  | _ => v
  end.

(** [text.replace(/[^\d.,-]/g, '')]. *)
Definition strip_non_numeric (text : string) : string :=
  filter_chars (fun c => is_digit c || is_dot c || is_comma c || Ascii.eqb c "-") text.

(** [smartNumberDetection(text)]. *)
Definition smartNumberDetection (text : string) : number :=
  let cleanText := strip_non_numeric text in
  if negb (has_char (fun c => is_dot c || is_comma c) cleanText) then
    or_zero (parseFloat cleanText)
  else
    let commaCount := count_char "," cleanText in
    let dotCount := count_char "." cleanText in
    if (0 <? commaCount) && (dotCount =? 0) then parseWithCommaSeparator cleanText
    else if (0 <? dotCount) && (commaCount =? 0) then parseWithDotSeparator cleanText
    else if (0 <? commaCount) && (0 <? dotCount) then parseWithMixedSeparators cleanText
    else S754_zero false.

Fixpoint lastIndexOf_string_from (needle s : string) (i found : Z) : Z :=
  match s with
  | EmptyString => if has_prefix needle s then i else found
  | String _ s' =>
      lastIndexOf_string_from needle s' (i + 1) (if has_prefix needle s then i else found)
  end.

(** [parseNumberWithKnownFormat(text, decimalSeparator)]; an [undefined]
    separator is searched for as the text ["undefined"]. *)
Definition parseNumberWithKnownFormat (text : string) (decimalSeparator : option string)
  : number :=
  let thousandsSeparator :=
    match decimalSeparator with
    | Some d => if String.eqb d "," then "."%char else ","%char
    | None => ","%char
    end in
  let lastDecimalIndex :=
    lastIndexOf_string_from (or_default decimalSeparator "undefined") text 0 (-1) in
  if lastDecimalIndex =? -1 then parseFloat (remove_char thousandsSeparator text)
  else
    let integerPart := remove_char thousandsSeparator (substring text 0 lastDecimalIndex) in
    let decimalPart := substring_from text (lastDecimalIndex + 1) in
    parseFloat (integerPart ++ String "." decimalPart).

(** The match of [/-?\d+([.,]\d+)?/] at the start of [s]. *)
Definition match_number_here (s : string) : option string :=
  let '(sg, s1) :=
    match after_char "-" s with
    | Some r => ("-", r)
    | None => (EmptyString, s)
    end in
  let '(d1, r1) := span_digits s1 in
  if truthy d1 then
    match r1 with
    | String c r =>
        let d2 := fst (span_digits r) in
        if (is_dot c || is_comma c) && truthy d2 then Some (sg ++ d1 ++ String c d2)
        else Some (sg ++ d1)
    | EmptyString => Some (sg ++ d1)
    end
  else None.

(** [s.match(/-?\d+([.,]\d+)?/)]: the leftmost match. *)
Fixpoint match_number (s : string) : option string :=
  match match_number_here s with
  | Some m => Some m
  | None =>
      match s with
      | String _ s' => match_number s'
      | EmptyString => None
      end
  end.

(** [s.replace(',', '.')]: the first comma only. *)
Fixpoint replace_first_comma (s : string) : string :=
  match s with
  | EmptyString => EmptyString
  | String c s' => if is_comma c then String "." s' else String c (replace_first_comma s')
  end.

(** [extractNumber(text)] under the number format [config]. *)
Definition extractNumber (config : NumberFormat) (text : string) : number :=
  let cleanText := trim text in
  if negb (match inputDecimalSeparator config with
           | Some d => String.eqb d "auto"
           | None => false
           end)
  then parseNumberWithKnownFormat cleanText (inputDecimalSeparator config)
  else if smartDetection config then smartNumberDetection cleanText
  else match match_number cleanText with
       | Some m => parseFloat (replace_first_comma m)
       | None => S754_zero false
       end.

(** *** Formatting a value *)

Definition is_word (c : ascii) : bool :=
  let n := Z.of_N (N_of_ascii c) in
  is_digit c || ((65 <=? n) && (n <=? 90)) || ((97 <=? n) && (n <=? 122)) || (n =? 95).

Fixpoint digit_run (s : string) : Z :=
  match s with
  | String c s' => if is_digit c then 1 + digit_run s' else 0
  | EmptyString => 0
  end.

(** [str.replace(/\B(?=(\d{3})+(?!\d))/g, separator)], from [position] on,
    where [s] is what is left of [str]: the pattern matches the empty text
    in front of every character that follows a word character and starts a
    run of digits whose length is a positive multiple of three; its group
    holds the last three digits of that run.  The separator is the
    replacement template of each match. *)
Fixpoint insert_separators (separator str : string) (position : Z)
  (after_word : bool) (s : string) : string :=
  match s with
  | EmptyString => EmptyString
  | String c s' =>
      let run := digit_run s in
      let here := Bool.eqb after_word (is_word c) && (0 <? run) && (run mod 3 =? 0) in
      (if here then
         GetSubstitution EmptyString str position
           [Some (take 3 (drop (Z.to_nat (run - 3)) s))] separator
       else EmptyString)
        ++ String c (insert_separators separator str (position + 1) (is_word c) s')
  end.

(** [addThousandsSeparator(numberString, separator)]. *)
Definition addThousandsSeparator (numberString separator : string) : string :=
  let isNegative := startsWith numberString "-" in
  let cleanNumber := if isNegative then slice1 numberString else numberString in
  let formatted := insert_separators separator cleanNumber 0 false cleanNumber in
  if isNegative then String "-" formatted else formatted.

(** The first statement of [formatCustomNumber]: the value of [rounded]. *)
Definition round_to_format (value : number) (format : NumberFormat) : result number :=
  if (0 <? decimals format) || showDecimals format
  then fixed <- toFixed value (decimals format) ;; Ok (Number fixed)
  else Ok (Math_round value).

(** The rest of [formatCustomNumber]: the string built from [rounded]. *)
Definition assemble (rounded : number) (format : NumberFormat) : result string :=
  let parts := split "." (toString rounded) in
  let integerPart := nth 0 parts EmptyString in
  let decimalPart := nth_error parts 1 in
  let integerPart :=
    if ge (Math_abs rounded) (of_Z 1000) && truthy (thousandsSeparator format)
    then addThousandsSeparator integerPart (thousandsSeparator format)
    else integerPart in
  let formattedNumber := integerPart in
  if showDecimals format
     || ((0 <? decimals format) && truthy (or_default decimalPart EmptyString))
  then
    decimal <- (if truthy (or_default decimalPart EmptyString)
                then Ok (or_default decimalPart EmptyString)
                else repeat0 (decimals format)) ;;
    let paddedDecimal := padEnd0 decimal (decimals format) in
    Ok (formattedNumber ++ decimalSeparator format ++ paddedDecimal)
  else Ok formattedNumber.

(** [formatCustomNumber(value, format)]. *)
Definition formatCustomNumber (value : number) (format : NumberFormat) : result string :=
  rounded <- round_to_format value format ;;
  assemble rounded format.

(** [{ ...format, showDecimals: true, decimals: 1 }]. *)
Definition abbreviated_format (format : NumberFormat) : NumberFormat :=
  {| thousandsSeparator := thousandsSeparator format;
     decimalSeparator := decimalSeparator format;
     decimals := 1;
     showDecimals := true;
     abbreviate := abbreviate format;
     abbreviations := abbreviations format;
     inputDecimalSeparator := inputDecimalSeparator format;
     smartDetection := smartDetection format |}.

(** [format.abbreviations.tier], appended to a string: reading a property of
    a missing [abbreviations] throws, a missing tier prints as
    ["undefined"]. *)
Definition abbreviation (format : NumberFormat) (tier : Abbreviations -> option string)
  : result string :=
  match abbreviations format with
  | None => Throw TypeError
  | Some a => Ok (or_default (tier a) "undefined")
  end.

Definition abbreviate_by (value : number) (format : NumberFormat) (sign : string)
  (magnitude : Z) (tier : Abbreviations -> option string) : result string :=
  let abbreviated := div value (of_Z magnitude) in
  body <- formatCustomNumber abbreviated (abbreviated_format format) ;;
  unit <- abbreviation format tier ;;
  Ok (sign ++ body ++ unit).

(** [abbreviateNumber(value, format)]. *)
Definition abbreviateNumber (value : number) (format : NumberFormat) : result string :=
  let abs := Math_abs value in
  let sign := if lt value (of_Z 0) then "-" else EmptyString in
  if ge abs (of_Z 1000000000000) then
    abbreviate_by value format sign 1000000000000 trillion
  else if ge abs (of_Z 1000000000) then
    abbreviate_by value format sign 1000000000 billion
  else if ge abs (of_Z 1000000) then
    abbreviate_by value format sign 1000000 million
  else if ge abs (of_Z 1000) then
    abbreviate_by value format sign 1000 thousand
  else formatCustomNumber value format.

(** [formatValue(value, config)]. *)
Definition formatValue (value : number) (config : Config) : result string :=
  let format := numberFormat config in
  if negb (formatNumber config) then Ok (toString (Math_round value))
  else if abbreviate format then abbreviateNumber value format
  else formatCustomNumber value format.

(** *** Animating an element *)

(** The part of a DOM element the animation reads and writes; data
    attributes hold strings. *)
Record Element := {
  textContent : string;
  dataset_targetValue : string;
  dataset_prefix : string;
  dataset_suffix : string;
  dataset_animated : string
}.

Definition set_textContent (element : Element) (text : string) : Element :=
  {| textContent := text;
     dataset_targetValue := dataset_targetValue element;
     dataset_prefix := dataset_prefix element;
     dataset_suffix := dataset_suffix element;
     dataset_animated := dataset_animated element |}.

Definition set_animated (element : Element) (flag : string) : Element :=
  {| textContent := textContent element;
     dataset_targetValue := dataset_targetValue element;
     dataset_prefix := dataset_prefix element;
     dataset_suffix := dataset_suffix element;
     dataset_animated := flag |}.

(** What a frame does to its environment, in order: the callbacks it calls,
    the visual effect it applies or removes, the next frame it requests. *)
Inductive Event :=
| CallOnStart (targetValue : number)
| CallOnUpdate (currentValue progress : number)
| AddVisualEffect (progress : number)
| RequestAnimationFrame
| CallOnComplete (targetValue : number)
| RemoveVisualEffect.

(** The variables captured by the [animate] closure. *)
Record Animation := {
  config : Config;
  targetValue : number;
  startValue_ : number;
  prefix_ : string;
  suffix_ : string;
  startTime : number;
  easing : option (number -> number)
}.

(** One call of the [animate] closure at [currentTime]: the element and the
    events after it, and the exception that ended it, if any.  The easing
    function is [None] when calling it throws a [TypeError], as for
    [undefined]. *)
Definition animate (a : Animation) (element : Element) (currentTime : number)
  : Element * list Event * option error :=
  let elapsed := sub currentTime (startTime a) in
  let progress := Math_min (div elapsed (duration (config a))) (of_Z 1) in
  match easing a with
  | None => (element, [], Some TypeError)
  | Some easingFunction =>
      let easedProgress := easingFunction progress in
      let currentValue :=
        add (startValue_ a) (mul (sub (targetValue a) (startValue_ a)) easedProgress) in
      match formatValue currentValue (config a) with
      | Throw e => (element, [], Some e)
      | Ok formattedValue =>
          let element := set_textContent element (prefix_ a ++ formattedValue ++ suffix_ a) in
          let events :=
            ((if onUpdate (config a) then [CallOnUpdate currentValue progress] else [])
               ++ [AddVisualEffect progress])%list in
          if lt progress (of_Z 1) then (element, (events ++ [RequestAnimationFrame])%list, None)
          else
            match formatValue (targetValue a) (config a) with
            | Throw e => (element, events, Some e)
            | Ok finalValue =>
                (set_textContent element (prefix_ a ++ finalValue ++ suffix_ a),
                 (events
                    ++ (if onComplete (config a) then [CallOnComplete (targetValue a)] else [])
                    ++ [RemoveVisualEffect])%list,
                 None)
            end
      end
  end.

Section AnimateElement.

Variable Math_pow : number -> number -> number.
Variable Math_sin : number -> number.

(** [animateElement(element, customConfig)] up to its request of the first
    frame, with [now] the reading of [performance.now()]: [None] when the
    element was already animated and [triggerOnce] holds. *)
Definition animateElement (this_config : Config) (element : Element)
  (customConfig : Options) (now : number)
  : option (Animation * Element * list Event) :=
  if String.eqb (dataset_animated element) "true" && triggerOnce this_config then None
  else
    let config := merge this_config customConfig in
    let targetValue := parseFloat (dataset_targetValue element) in
    let element := set_animated element "true" in
    Some ({| config := config;
             targetValue := targetValue;
             startValue_ := startValue config;
             prefix_ := dataset_prefix element;
             suffix_ := dataset_suffix element;
             startTime := now;
             easing := easingFunction Math_pow Math_sin (effect config) |},
          element,
          ((if onStart config then [CallOnStart targetValue] else [])
             ++ [RequestAnimationFrame])%list).

End AnimateElement.

(** *** Prefix and suffix of the text of an element *)

(** [extractPrefix(text)]: the capture of its pattern, anchored at the start,
    is the longest run of characters that are neither digits nor minus
    signs; the pattern matches every text. *)
Definition extractPrefix (text : string) : string :=
  fst (span (fun c => negb (is_digit c || Ascii.eqb c "-")) text).

(** [extractSuffix(text)]: the capture of its pattern, anchored at the end,
    is a run of characters other than digits; the leftmost match starts at
    the first position that no digit follows. *)
Fixpoint extractSuffix (text : string) : string :=
  match text with
  | EmptyString => EmptyString
  | String _ rest => if has_char is_digit text then extractSuffix rest else text
  end.

(** *** Setting up and resetting the elements *)

(** An element together with its [originalText] data attribute, which is
    missing until [setupElements] stores it. *)
Record Counter := {
  node : Element;
  dataset_originalText : option string
}.

(** The body of the loop of [setupElements()]; a number stored in a data
    attribute is stored as its text. *)
Definition setupElement (this_config : Config) (counter : Counter) : Counter :=
  let text := trim (textContent (node counter)) in
  let numericValue := extractNumber (numberFormat this_config) text in
  let originalText := text in
  {| node :=
       {| textContent := textContent (node counter);
          dataset_targetValue := toString numericValue;
          dataset_prefix :=
            if truthy (prefix this_config) then prefix this_config
            else extractPrefix text;
          dataset_suffix :=
            if truthy (suffix this_config) then suffix this_config
            else extractSuffix text;
          dataset_animated := "false" |};
     dataset_originalText := Some originalText |}.

(** [setupElements()] on the elements that the selector finds. *)
Definition setupElements (this_config : Config) (elements : list Counter)
  : list Counter :=
  map (setupElement this_config) elements.

(** The body of the first loop of [reset()]. *)
Definition resetElement (counter : Counter) : Counter * list Event :=
  let text :=
    match dataset_originalText counter with
    | Some t => if truthy t then t else "0"
    | None => "0"
    end in
  ({| node := set_animated (set_textContent (node counter) text) "false";
      dataset_originalText := dataset_originalText counter |},
   [RemoveVisualEffect]).

(** *** The observer *)

Section Observer.

Variable Math_pow : number -> number -> number.
Variable Math_sin : number -> number.

(** The callback of the [IntersectionObserver] on one entry, with [now] the
    reading of [performance.now()]: the animation started, if any, the
    element after it, the events, and whether the element is unobserved. *)
Definition observe_entry (this_config : Config) (isIntersecting : bool)
  (target : Element) (now : number)
  : option Animation * Element * list Event * bool :=
  if isIntersecting && String.eqb (dataset_animated target) "false" then
    match animateElement Math_pow Math_sin this_config target no_options now with
    | Some (a, element, events) => (Some a, element, events, triggerOnce this_config)
    | None => (None, target, [], triggerOnce this_config)
    end
  else (None, target, [], false).

End Observer.

(** *** Colours *)

(** [interpolateColor(color1, color2, progress)]. *)
Definition interpolateColor (color1 color2 : string) (progress : number) : string :=
  let hex1 := remove_first "#" color1 in
  let hex2 := remove_first "#" color2 in
  let r1 := parseInt16 (substr hex1 0 2) in
  let g1 := parseInt16 (substr hex1 2 2) in
  let b1 := parseInt16 (substr hex1 4 2) in
  let r2 := parseInt16 (substr hex2 0 2) in
  let g2 := parseInt16 (substr hex2 2 2) in
  let b2 := parseInt16 (substr hex2 4 2) in
  let r := Math_round (add r1 (mul (sub r2 r1) progress)) in
  let g := Math_round (add g1 (mul (sub g2 g1) progress)) in
  let b := Math_round (add b1 (mul (sub b2 b1) progress)) in
  "rgb(" ++ toString r ++ ", " ++ toString g ++ ", " ++ toString b ++ ")".

(** *** Animating every element *)

(** [{ ...config }] passed as a custom configuration: every field is
    given. *)
Definition as_options (c : Config) : Options :=
  {| opt_duration := Some (duration c);
     opt_effect := Some (effect c);
     opt_startValue := Some (startValue c);
     opt_formatNumber := Some (formatNumber c);
     opt_numberFormat := Some (numberFormat c);
     opt_prefix := Some (prefix c);
     opt_suffix := Some (suffix c);
     opt_onStart := Some (onStart c);
     opt_onUpdate := Some (onUpdate c);
     opt_onComplete := Some (onComplete c);
     opt_triggerOnce := Some (triggerOnce c) |}.

(** An element as the page gives it: its text, and the data attributes of
    the markup, each of which may be missing. *)
Record Markup := {
  markup_text : string;
  data_target_value : option string;
  data_prefix : option string;
  data_suffix : option string;
  data_animated : option string
}.

(** The element as [animateElement] reads it.  A missing attribute is
    [undefined]: [parseFloat(undefined)] parses the text ["undefined"],
    [undefined || ''] is [''], and [undefined === 'true'] is false, as for
    every text other than ['true']. *)
Definition as_read (m : Markup) : Element :=
  {| textContent := markup_text m;
     dataset_targetValue := or_default (data_target_value m) "undefined";
     dataset_prefix := or_default (data_prefix m) EmptyString;
     dataset_suffix := or_default (data_suffix m) EmptyString;
     dataset_animated := or_default (data_animated m) "undefined" |}.

Section AnimateAll.

Variable Math_pow : number -> number -> number.
Variable Math_sin : number -> number.

(** [animateAll(customConfig)] on the elements that the selector finds: the
    call of [animateElement] that the timer of each element makes, awaiting
    the reading of the clock at that time. *)
Definition animateAll (this_config : Config) (customConfig : Options)
  (elements : list Element)
  : list (number -> option (Animation * Element * list Event)) :=
  let config := merge this_config customConfig in
  map (fun element now =>
         animateElement Math_pow Math_sin this_config element (as_options config) now)
      elements.

(** [animateCounters(selector, options)]: an instance with [autoStart] off,
    which [init] therefore does not set up, and [animateAll()] on it. *)
Definition animateCounters (options : Options) (elements : list Element)
  : list (number -> option (Animation * Element * list Event)) :=
  animateAll (merge defaults options) no_options elements.

End AnimateAll.

End CounterAnimator.

(** * Properties *)

Import JS CounterAnimator.

(** ** Definitions used in the statements *)




(** The same element at the end of its animation. *)
Definition blank_element : Element :=
  {| textContent := "Kz 100 +"; dataset_targetValue := "100";
     dataset_prefix := "Kz "; dataset_suffix := " +";
     dataset_animated := "true" |}.



(** The abbreviating format of the usage examples of the source: the
    [abbreviated] preset with the suffixes given. *)
Definition abbreviating_format : NumberFormat :=
  {| thousandsSeparator := " "; decimalSeparator := ","; decimals := 1;
     showDecimals := false; abbreviate := true;
     abbreviations := Some default_abbreviations;
     inputDecimalSeparator := None; smartDetection := false |}.

(** The decimal part that [formatCustomNumber] appends to a number whose
    [toString] has no fraction. *)
Definition zero_fraction (format : NumberFormat) : string :=
  if showDecimals format
  then decimalSeparator format ++ repeat_char "0" (Z.to_nat (decimals format))
  else EmptyString.

(** A number format whose two separators are the same comma. *)
Definition colliding_format : NumberFormat :=
  {| thousandsSeparator := ","; decimalSeparator := ","; decimals := 1;
     showDecimals := true; abbreviate := false;
     abbreviations := None; inputDecimalSeparator := Some "auto";
     smartDetection := true |}.

Definition colliding_options : Options :=
  {| opt_duration := None; opt_effect := Some "linear"; opt_startValue := None;
     opt_formatNumber := None; opt_numberFormat := Some colliding_format;
     opt_prefix := None; opt_suffix := None; opt_onStart := None;
     opt_onUpdate := None; opt_onComplete := None; opt_triggerOnce := None |}.

Definition digit_or_minus (c : ascii) : bool := is_digit c || Ascii.eqb c "-".

Definition numeric_char (c : ascii) : bool :=
  is_digit c || is_dot c || is_comma c || Ascii.eqb c "-".

Fixpoint all_chars (p : ascii -> bool) (s : string) : bool :=
  match s with
  | EmptyString => true
  | String c s' => p c && all_chars p s'
  end.

(** The value of a finite number in units of [2^-1074]. *)
Definition ulps (m : positive) (e : Z) : Z := Zpos m * 2 ^ (e + 1074).

(** What the digits of a natural number are. *)
Record digits_of (n : Z) (ds : string) : Prop := {
  digits_all : all_chars is_digit ds = true;
  digits_some : truthy ds = true;
  digits_val : forall acc, digits_value ds acc = acc * 10 ^ len ds + n;
  digits_low : 1 <= n -> 10 ^ (len ds - 1) <= n;
  digits_high : n < 10 ^ len ds
}.

Definition not_space (c : ascii) : bool := negb (is_space c).

(** The sign that [toFixed] and [toString] print. *)
Definition sign_text (s : bool) : string := if s then "-" else EmptyString.

(** The comma format with no decimal places, shown. *)
Definition dangling_format : NumberFormat :=
  {| thousandsSeparator := " "; decimalSeparator := ","; decimals := 0;
     showDecimals := true; abbreviate := false; abbreviations := None;
     inputDecimalSeparator := Some "auto"; smartDetection := true |}.

Fixpoint last_char (s : string) : option ascii :=
  match s with
  | EmptyString => None
  | String c EmptyString => Some c
  | String _ s' => last_char s'
  end.

Definition with_sign (sg : bool) (x : number) : number :=
  match x with
  | S754_zero _ => S754_zero sg
  | S754_infinity _ => S754_infinity sg
  | S754_nan => S754_nan
  | S754_finite _ m e => S754_finite sg m e
  end.

(** The characters of a printed finite number. *)
Definition numeral_char (c : ascii) : bool :=
  is_digit c || Ascii.eqb c "." || Ascii.eqb c "e" || Ascii.eqb c "+" || Ascii.eqb c "-".

Definition frac_text (f : option string) : string :=
  match f with
  | Some d2 => String "." d2
  | None => EmptyString
  end.

Definition expo_text (x : option Z) : string :=
  match x with
  | Some n => exponent_suffix n
  | None => EmptyString
  end.

(** One decimal place, shown when there is one. *)
Definition tenths_format : NumberFormat :=
  {| thousandsSeparator := " "; decimalSeparator := ","; decimals := 1;
     showDecimals := false; abbreviate := false;
     abbreviations := Some default_abbreviations;
     inputDecimalSeparator := None; smartDetection := false |}.

Definition with_format (format : NumberFormat) : Options :=
  {| opt_duration := None; opt_effect := Some "linear"; opt_startValue := None;
     opt_formatNumber := None; opt_numberFormat := Some format;
     opt_prefix := None; opt_suffix := None; opt_onStart := None;
     opt_onUpdate := None; opt_onComplete := None; opt_triggerOnce := None |}.

Definition tenths_config : Config := merge defaults (with_format tenths_format).

Definition abbreviating_config : Config :=
  merge defaults (with_format abbreviating_format).

(** The configuration of the usage example of the source for money: the
    [currency-ao] preset as the number format. *)
Definition currency_ao_config : Config :=
  merge defaults (with_format (preset " " "," 2 true false)).

(** The characters that [strip_non_numeric] keeps besides the digits. *)
Definition separator_or_minus (c : ascii) : bool :=
  is_dot c || is_comma c || Ascii.eqb c "-".

(** A format that asks for the pattern of the fallback: automatic separator,
    no smart detection. *)
Definition fallback_format : NumberFormat :=
  {| thousandsSeparator := " "; decimalSeparator := ","; decimals := 0;
     showDecimals := false; abbreviate := false;
     abbreviations := Some default_abbreviations;
     inputDecimalSeparator := Some "auto"; smartDetection := false |}.

(** The default format with the decimal separator of the input declared. *)
Definition declared_format (separator : string) : NumberFormat :=
  {| thousandsSeparator := " "; decimalSeparator := ","; decimals := 0;
     showDecimals := false; abbreviate := false;
     abbreviations := Some default_abbreviations;
     inputDecimalSeparator := Some separator; smartDetection := true |}.

(** A zero without its sign, any other number as it is: what a number is
    after it was stored as text and read back. *)
Definition unsigned_zero (x : number) : number :=
  match x with
  | S754_zero _ => S754_zero false
  | _ => x
  end.

(** An element that has only its text. *)
Definition element_with_text (text : string) : Counter :=
  {| node := {| textContent := text; dataset_targetValue := EmptyString;
                dataset_prefix := EmptyString; dataset_suffix := EmptyString;
                dataset_animated := EmptyString |};
     dataset_originalText := None |}.

(** The default configuration with the [linear] effect. *)
Definition linear_config : Config :=
  merge defaults (with_format (numberFormat defaults)).

(** Stand-ins for [Math.pow] and [Math.sin] in examples whose effect calls
    neither. *)
Definition unused_pow (x y : number) : number := NaN.
Definition unused_sin (x : number) : number := NaN.

(** An element after some frames of an animation: they write its text and
    its [animated] mark, nothing else. *)
Definition after_frames (counter : Counter) (shown mark : string) : Counter :=
  {| node := set_animated (set_textContent (node counter) shown) mark;
     dataset_originalText := dataset_originalText counter |}.

(** [options] with [triggerOnce] given. *)
Definition with_triggerOnce (flag : bool) : Options :=
  {| opt_duration := None; opt_effect := None; opt_startValue := None;
     opt_formatNumber := None; opt_numberFormat := None; opt_prefix := None;
     opt_suffix := None; opt_onStart := None; opt_onUpdate := None;
     opt_onComplete := None; opt_triggerOnce := Some flag |}.

(** A session from 0 to 100 with a duration of 0, under the default number
    format. *)
Definition instant_session : Animation :=
  {| config :=
       merge defaults
         {| opt_duration := Some (of_Z 0); opt_effect := Some "linear";
            opt_startValue := None; opt_formatNumber := None;
            opt_numberFormat := None; opt_prefix := None; opt_suffix := None;
            opt_onStart := None; opt_onUpdate := None; opt_onComplete := None;
            opt_triggerOnce := None |};
     targetValue := of_Z 100;
     startValue_ := of_Z 0;
     prefix_ := EmptyString;
     suffix_ := EmptyString;
     startTime := of_Z 0;
     easing := Some linear |}.

(** [abbreviateNumber] returns [value] divided by [magnitude], formatted with
    one decimal place, between its sign and the suffix [unit]. *)
Definition abbreviated_with (value : number) (format : NumberFormat)
  (magnitude : Z) (unit : string) : Prop :=
  exists body,
    formatCustomNumber (div value (of_Z magnitude)) (abbreviated_format format) = Ok body
    /\ abbreviateNumber value format
       = Ok ((if lt value (of_Z 0) then "-" else EmptyString) ++ body ++ unit).

(** A session under the abbreviating preset, whose target is 1500. *)
Definition preset_session : Animation :=
  {| config := merge defaults (with_format (preset " " "," 1 false true));
     targetValue := of_Z 1500;
     startValue_ := of_Z 0;
     prefix_ := EmptyString;
     suffix_ := EmptyString;
     startTime := of_Z 0;
     easing := Some linear |}.

(** The value of a hexadecimal digit, and of two of them. *)
Definition hex_value (c : ascii) : Z := or_default (radix_digit 16 c) 0.

Definition hex_pair (high low : ascii) : Z := 16 * (16 * 0 + hex_value high) + hex_value low.

(** A colour as the style sheets write it: [#] and six hexadecimal digits. *)
Definition hex_color (r1 r2 g1 g2 b1 b2 : ascii) : string :=
  String "#" (String r1 (String r2 (String g1 (String g2 (String b1
    (String b2 EmptyString)))))).

Definition rgb_text (r g b : Z) : string :=
  "rgb(" ++ decimal_digits r ++ ", " ++ decimal_digits g ++ ", "
         ++ decimal_digits b ++ ")".

(** One channel of [interpolateColor]. *)
Definition channel (from to progress : number) : number :=
  Math_round (add from (mul (sub to from) progress)).

Definition bytes : list Z := map Z.of_nat (seq 0 256).

(** The separator put in as it is, at the places where [insert_separators]
    puts what the separator stands for as a replacement. *)
Fixpoint insert_literal (separator : string) (after_word : bool) (s : string) : string :=
  match s with
  | EmptyString => EmptyString
  | String c s' =>
      let run := digit_run s in
      let here := Bool.eqb after_word (is_word c) && (0 <? run) && (run mod 3 =? 0) in
      (if here then separator else EmptyString)
        ++ String c (insert_literal separator (is_word c) s')
  end.

Definition is_dollar (c : ascii) : bool := Ascii.eqb c "$".

(** ** Easing lookup *)

(** C1.  The default effect ['easeOutCubic'] is not a property of
    [easingFunctions], and the fallback of the lookup reads that same missing
    property: the easing function of the default configuration is
    [undefined], and the first frame of such an animation ends in a
    [TypeError] before anything is rendered. *)
Theorem default_effect_has_no_easing_function :
  forall (Math_pow : number -> number -> number) (Math_sin : number -> number)
         (cfg : Config) (target start now : number) (pre suf : string)
         (element : Element) (currentTime : number),
    easingFunction Math_pow Math_sin (effect (merge defaults no_options)) = None /\
    animate {| config := cfg; targetValue := target; startValue_ := start;
               prefix_ := pre; suffix_ := suf; startTime := now;
               easing := easingFunction Math_pow Math_sin "easeOutCubic" |}
            element currentTime
    = (element, [], Some TypeError).
Proof.
  intros. split; reflexivity.
Qed.

(** Every name that is neither one of the nine curves nor inherited from
    [Object.prototype] resolves to [undefined]. *)
Lemma unknown_effect_has_no_easing_function :
  forall Math_pow Math_sin name,
    easingFunctions_get Math_pow Math_sin name = None ->
    easingFunction Math_pow Math_sin name = None.
Proof.
  intros pw sn name H. unfold easingFunction. rewrite H. reflexivity.
Qed.

(** The inherited name ['constructor'] animates as ['linear'] does. *)
Example constructor_is_an_effect :
  forall Math_pow Math_sin t,
    option_map (fun f => f t) (easingFunction Math_pow Math_sin "constructor") = Some t.
Proof. reflexivity. Qed.

(** ** The last frame *)





(** ** Rendering *)

(** C3.  [abbreviateNumber] divides [value], not its absolute value, so the
    body already carries the minus sign that [sign] adds once more: -1500
    renders with two minus signs.  (Under the [abbreviated] preset itself,
    which has no [abbreviations], the same call throws.) *)
Theorem abbreviate_negative_double_sign :
  abbreviateNumber (of_Z (-1500)) abbreviating_format = Ok "--1,5K" /\
  formatCustomNumber (div (of_Z (-1500)) (of_Z 1000)) (abbreviated_format abbreviating_format)
  = Ok "-1,5" /\
  abbreviateNumber (of_Z 1500) abbreviating_format = Ok "1,5K" /\
  (forall f, lookup "abbreviated" getPresetFormats = Some f ->
             abbreviateNumber (of_Z (-1500)) f = Throw TypeError).
Proof.
  repeat split; try (vm_compute; reflexivity).
  intros f H. vm_compute in H. injection H as <-. vm_compute. reflexivity.
Qed.

Lemma len_repeat_char : forall c n, len (repeat_char c n) = Z.of_nat n.
Proof.
  intros c n. unfold len. f_equal. induction n; simpl; congruence.
Qed.

Lemma append_empty_r : forall s : string, s ++ EmptyString = s.
Proof.
  induction s; simpl; congruence.
Qed.

Lemma padEnd0_zeros :
  forall n, 0 <= n -> padEnd0 (repeat_char "0" (Z.to_nat n)) n = repeat_char "0" (Z.to_nat n).
Proof.
  intros n Hn. unfold padEnd0. rewrite len_repeat_char, Z2Nat.id by assumption.
  rewrite Z.sub_diag. apply append_empty_r.
Qed.

Lemma round_to_format_non_finite :
  forall (value : number) (format : NumberFormat),
    is_finite value = false ->
    0 <= decimals format <= 100 ->
    round_to_format value format = Ok value.
Proof.
  intros value format Hnf [Hlo Hhi]. unfold round_to_format, toFixed.
  replace ((decimals format <? 0) || (100 <? decimals format)) with false
    by (symmetry; apply orb_false_iff; split; apply Z.ltb_ge; assumption).
  destruct value as [s|s| |s m e]; try discriminate Hnf; try destruct s;
    destruct ((0 <? decimals format) || showDecimals format); reflexivity.
Qed.

Lemma addThousandsSeparator_Infinity :
  forall separator,
    addThousandsSeparator "Infinity" separator = "Infinity" /\
    addThousandsSeparator "-Infinity" separator = "-Infinity".
Proof. intros separator. split; reflexivity. Qed.

Lemma assemble_non_finite :
  forall (value : number) (format : NumberFormat),
    is_finite value = false ->
    0 <= decimals format ->
    assemble value format = Ok (toString value ++ zero_fraction format).
Proof.
  intros value format Hnf Hlo.
  assert (Hparts : split "." (toString value) = [toString value])
    by (destruct value as [s|s| |s m e]; try discriminate Hnf; try destruct s; reflexivity).
  assert (Hsep : forall b : bool, (if b then addThousandsSeparator (toString value)
                                        (thousandsSeparator format)
                            else toString value) = toString value).
  { intros [|]; [|reflexivity].
    destruct (addThousandsSeparator_Infinity (thousandsSeparator format)).
    destruct value as [s|s| |s m e]; try discriminate Hnf; try destruct s;
      assumption || reflexivity. }
  unfold assemble, zero_fraction, repeat0. rewrite Hparts.
  cbn [nth nth_error or_default truthy andb]. rewrite Hsep, andb_false_r, orb_false_r.
  replace (decimals format <? 0) with false by (symmetry; apply Z.ltb_ge; assumption).
  destruct (showDecimals format); cbn [bind].
  - rewrite padEnd0_zeros by assumption. reflexivity.
  - rewrite append_empty_r. reflexivity.
Qed.

Lemma formatCustomNumber_non_finite :
  forall (value : number) (format : NumberFormat),
    is_finite value = false ->
    0 <= decimals format <= 100 ->
    formatCustomNumber value format = Ok (toString value ++ zero_fraction format).
Proof.
  intros value format Hnf Hdec. unfold formatCustomNumber.
  rewrite round_to_format_non_finite by assumption. cbn [bind].
  apply assemble_non_finite; [assumption | apply Hdec].
Qed.

(** No tier applies to [NaN]: every comparison with it is false. *)
Lemma abbreviateNumber_NaN :
  forall format, abbreviateNumber NaN format = formatCustomNumber NaN format.
Proof.
  intros format. unfold abbreviateNumber.
  assert (H : forall c, ge (Math_abs NaN) (of_Z c) = false).
  { intros c. unfold ge, Math_abs, SFleb, SFcompare, NaN, SFabs.
    destruct (of_Z c); reflexivity. }
  rewrite !H. reflexivity.
Qed.

(** C4 (as the code has it).  A non-finite value is rendered by its
    JavaScript name, ["NaN"], ["Infinity"] or ["-Infinity"], followed, when
    [showDecimals] is set, by the decimal separator and [decimals] zeros;
    no error is raised.  With abbreviation this holds for [NaN]. *)
Theorem render_non_finite :
  forall (value : number) (cfg : Config),
    is_finite value = false ->
    0 <= decimals (numberFormat cfg) <= 100 ->
    (abbreviate (numberFormat cfg) = true -> value = NaN) ->
    formatValue value cfg
    = Ok (if formatNumber cfg then toString value ++ zero_fraction (numberFormat cfg)
          else toString value)
    /\ formatCustomNumber value (numberFormat cfg)
       = Ok (toString value ++ zero_fraction (numberFormat cfg))
    /\ (toString value = "NaN" \/ toString value = "Infinity" \/ toString value = "-Infinity").
Proof.
  intros value cfg Hnf Hdec Habbr.
  pose proof (formatCustomNumber_non_finite value (numberFormat cfg) Hnf Hdec) as Hcustom.
  split; [|split; [exact Hcustom|]].
  - unfold formatValue. destruct (formatNumber cfg); cbv [negb].
    + destruct (abbreviate (numberFormat cfg)) eqn:Ha; [|exact Hcustom].
      rewrite (Habbr eq_refl) in *. rewrite abbreviateNumber_NaN. exact Hcustom.
    + destruct value as [s|s| |s m e]; try discriminate Hnf; reflexivity.
  - destruct value as [s|s| |s m e]; try discriminate Hnf; try destruct s;
      cbv [toString]; auto.
Qed.

Lemma render_non_finite_witness :
  is_finite NaN = false /\
  formatValue NaN (merge defaults no_options) = Ok "NaN".
Proof.
  split; [reflexivity|].
  refine (proj1 (render_non_finite NaN (merge defaults no_options) eq_refl _ _)).
  - vm_compute. split; discriminate.
  - intros H. reflexivity.
Defined.

(** C4 as stated fails: [NaN] renders as ["NaN"], not as ["0"]. *)
Lemma render_non_finite_not_zero :
  ~ (forall (value : number) (format : NumberFormat),
       is_finite value = false -> formatCustomNumber value format = Ok "0").
Proof.
  intro H. specialize (H NaN (numberFormat defaults) eq_refl).
  vm_compute in H. discriminate H.
Qed.

(** ** Construction *)

(** C5 (as the code has it).  The constructor validates nothing: whatever
    number format the options carry, equal separators included, construction
    succeeds and the configuration holds that format unchanged; rendering
    then uses it as it is. *)
Theorem constructor_accepts_any_format :
  forall (options : Options) (format : NumberFormat),
    opt_numberFormat options = Some format ->
    exists cfg,
      constructor options = Ok cfg /\
      numberFormat cfg = format /\
      (forall value,
          formatNumber cfg = true -> abbreviate format = false ->
          formatValue value cfg = formatCustomNumber value format).
Proof.
  intros options format H. eexists. split; [reflexivity|]. split.
  - cbn. rewrite H. reflexivity.
  - intros value Hf Ha. unfold formatValue. rewrite Hf. cbn [negb].
    cbn [numberFormat merge]. rewrite H. cbn [or_default]. rewrite Ha. reflexivity.
Qed.

Lemma constructor_accepts_any_format_witness :
  opt_numberFormat colliding_options = Some colliding_format /\
  exists cfg,
    constructor colliding_options = Ok cfg /\
    numberFormat cfg = colliding_format /\
    (forall value,
        formatNumber cfg = true -> abbreviate colliding_format = false ->
        formatValue value cfg = formatCustomNumber value colliding_format).
Proof.
  split; [reflexivity|].
  exact (constructor_accepts_any_format colliding_options colliding_format eq_refl).
Defined.

(** With both separators a comma, 1234.5 renders with two commas. *)
Example colliding_format_renders :
  formatCustomNumber (dec false 12345 (-1)) colliding_format = Ok "1,234,5".
Proof. vm_compute. reflexivity. Qed.

(** C5 as stated fails: a format with equal, non-empty separators is
    accepted. *)
Lemma equal_separators_accepted :
  ~ (forall (options : Options) (format : NumberFormat),
       opt_numberFormat options = Some format ->
       thousandsSeparator format = decimalSeparator format ->
       thousandsSeparator format <> EmptyString ->
       exists e, constructor options = Throw e).
Proof.
  intro H.
  destruct (H colliding_options colliding_format eq_refl eq_refl) as [e He].
  - discriminate.
  - discriminate He.
Qed.

(** ** Strings: splitting, searching, slicing *)

Lemma len_append : forall a b, len (a ++ b) = len a + len b.
Proof.
  intros a b. unfold len. rewrite <- Nat2Z.inj_add. f_equal.
  induction a; simpl; congruence.
Qed.

Lemma len_nonneg : forall s, 0 <= len s.
Proof. intros s. unfold len. lia. Qed.

Lemma len_String : forall c s, len (String c s) = 1 + len s.
Proof. intros c s. unfold len. simpl String.length. lia. Qed.

Lemma append_assoc : forall a b c : string, (a ++ b) ++ c = a ++ (b ++ c).
Proof. induction a; intros; simpl; congruence. Qed.

Lemma take_append : forall a b, take (String.length a) (a ++ b) = a.
Proof. induction a; intros; simpl; [destruct b|]; congruence. Qed.

Lemma take_all : forall a, take (String.length a) a = a.
Proof. induction a; simpl; congruence. Qed.

Lemma drop_append : forall a b, drop (String.length a) (a ++ b) = b.
Proof. induction a; intros; simpl; auto. Qed.

Lemma count_char_nonneg : forall c s, 0 <= count_char c s.
Proof. induction s; simpl; [lia|]. destruct (Ascii.eqb a c); lia. Qed.

Lemma count_char_append :
  forall c a b, count_char c (a ++ b) = count_char c a + count_char c b.
Proof. induction a; intros; simpl; [reflexivity|]. rewrite IHa. lia. Qed.

Lemma count_char_here : forall c s, count_char c (String c s) = 1 + count_char c s.
Proof. intros. simpl. rewrite Ascii.eqb_refl. reflexivity. Qed.

Lemma count_char_around :
  forall c a b, count_char c (a ++ String c b) = count_char c a + 1 + count_char c b.
Proof. intros. rewrite count_char_append, count_char_here. lia. Qed.

Lemma remove_char_append :
  forall c a b, remove_char c (a ++ b) = remove_char c a ++ remove_char c b.
Proof.
  unfold remove_char. induction a; intros; simpl; [reflexivity|].
  destruct (Ascii.eqb a c); simpl; rewrite IHa; reflexivity.
Qed.

Lemma remove_char_absent : forall c s, count_char c s = 0 -> remove_char c s = s.
Proof.
  unfold remove_char. induction s; simpl; intros H; [reflexivity|].
  pose proof (count_char_nonneg c s).
  destruct (Ascii.eqb a c); simpl; [lia|]. rewrite IHs by lia. reflexivity.
Qed.

Lemma remove_char_here : forall c s, remove_char c (String c s) = remove_char c s.
Proof. intros. unfold remove_char. simpl. rewrite Ascii.eqb_refl. reflexivity. Qed.

Lemma split_absent : forall c s, count_char c s = 0 -> split c s = [s].
Proof.
  induction s; simpl; intros H; [reflexivity|].
  pose proof (count_char_nonneg c s).
  destruct (Ascii.eqb a c); [lia|]. rewrite IHs by lia. reflexivity.
Qed.

(** With one occurrence of the separator, [split] yields the two sides. *)
Lemma split_once :
  forall c a b,
    count_char c a = 0 -> count_char c b = 0 ->
    split c (a ++ String c b) = [a; b].
Proof.
  induction a; simpl; intros b Ha Hb.
  - rewrite Ascii.eqb_refl, split_absent by assumption. reflexivity.
  - pose proof (count_char_nonneg c a0).
    destruct (Ascii.eqb a c); [lia|]. rewrite IHa by (assumption || lia). reflexivity.
Qed.

Lemma has_char_count :
  forall (p : ascii -> bool) c s,
    p c = true -> 0 < count_char c s -> has_char p s = true.
Proof.
  induction s; simpl; intros Hp H; [lia|].
  destruct (Ascii.eqb a c) eqn:E.
  - apply Ascii.eqb_eq in E. subst. rewrite Hp. reflexivity.
  - rewrite IHs by (assumption || lia). apply orb_true_r.
Qed.

Lemma lastIndexOf_from_absent :
  forall c s i found, count_char c s = 0 -> lastIndexOf_from c s i found = found.
Proof.
  induction s; simpl; intros i found H; [reflexivity|].
  pose proof (count_char_nonneg c s).
  destruct (Ascii.eqb a c); [lia|]. apply IHs. lia.
Qed.

Lemma lastIndexOf_from_append :
  forall c a b i found,
    lastIndexOf_from c (a ++ b) i found
    = lastIndexOf_from c b (i + len a) (lastIndexOf_from c a i found).
Proof.
  induction a; intros b i found.
  - simpl. f_equal. unfold len. simpl. lia.
  - simpl lastIndexOf_from at 1. simpl append. cbn [lastIndexOf_from].
    rewrite IHa. rewrite len_String. f_equal. lia.
Qed.

Lemma lastIndexOf_from_bound :
  forall c s i found,
    found < i -> lastIndexOf_from c s i found < i + len s.
Proof.
  induction s; intros i found H.
  - simpl. unfold len. simpl. lia.
  - cbn [lastIndexOf_from]. rewrite len_String.
    specialize (IHs (i + 1) (if Ascii.eqb a c then i else found)).
    destruct (Ascii.eqb a c); lia.
Qed.

(** The last occurrence: the text after it has no other. *)
Lemma lastIndexOf_last :
  forall c a b, count_char c b = 0 -> lastIndexOf c (a ++ String c b) = len a.
Proof.
  intros c a b Hb. unfold lastIndexOf. rewrite lastIndexOf_from_append.
  cbn [lastIndexOf_from]. rewrite Ascii.eqb_refl.
  rewrite lastIndexOf_from_absent by assumption. lia.
Qed.

(** An earlier character: all its occurrences are in front of [a]'s end. *)
Lemma lastIndexOf_before :
  forall c d a b,
    Ascii.eqb d c = false -> count_char c b = 0 ->
    lastIndexOf c (a ++ String d b) < len a.
Proof.
  intros c d a b Hd Hb. unfold lastIndexOf. rewrite lastIndexOf_from_append.
  cbn [lastIndexOf_from]. rewrite Hd.
  rewrite lastIndexOf_from_absent by assumption.
  pose proof (lastIndexOf_from_bound c a 0 (-1)). lia.
Qed.

Lemma substring_head :
  forall a b, substring (a ++ b) 0 (len a) = a.
Proof.
  intros a b. unfold substring. rewrite len_append.
  pose proof (len_nonneg a). pose proof (len_nonneg b).
  replace (Z.min (Z.max 0 0) (len a + len b)) with 0 by lia.
  replace (Z.min (Z.max (len a) 0) (len a + len b)) with (len a) by lia.
  replace (Z.max 0 (len a)) with (len a) by lia.
  replace (Z.min 0 (len a)) with 0 by lia.
  rewrite Z.sub_0_r. unfold len. rewrite Nat2Z.id. simpl drop.
  apply take_append.
Qed.

Lemma substring_tail :
  forall a c b, substring_from (a ++ String c b) (len a + 1) = b.
Proof.
  intros a c b. unfold substring_from, substring.
  rewrite len_append, len_String.
  pose proof (len_nonneg a). pose proof (len_nonneg b).
  replace (Z.min (Z.max (len a + 1) 0) (len a + (1 + len b))) with (len a + 1) by lia.
  replace (Z.min (Z.max (len a + (1 + len b)) 0) (len a + (1 + len b)))
    with (len a + (1 + len b)) by lia.
  replace (Z.min (len a + 1) (len a + (1 + len b))) with (len a + 1) by lia.
  replace (Z.max (len a + 1) (len a + (1 + len b))) with (len a + (1 + len b)) by lia.
  replace (len a + (1 + len b) - (len a + 1)) with (len b) by lia.
  unfold len. rewrite Nat2Z.id.
  replace (Z.to_nat (Z.of_nat (String.length a) + 1)) with (S (String.length a)) by lia.
  replace (a ++ String c b) with ((a ++ String c EmptyString) ++ b)
    by (rewrite append_assoc; reflexivity).
  replace (S (String.length a)) with (String.length (a ++ String c EmptyString)).
  - rewrite drop_append. apply take_all.
  - clear. induction a; simpl; congruence.
Qed.

(** ** Auto-detection of the separators *)

Lemma detection_dispatch_comma :
  forall text,
    count_char "." (strip_non_numeric text) = 0 ->
    0 < count_char "," (strip_non_numeric text) ->
    smartNumberDetection text = parseWithCommaSeparator (strip_non_numeric text).
Proof.
  intros text Hdot Hcomma. unfold smartNumberDetection. cbv zeta.
  rewrite (has_char_count _ "," _ eq_refl Hcomma). cbn [negb].
  rewrite Hdot. replace (0 <? count_char "," (strip_non_numeric text)) with true
    by (symmetry; apply Z.ltb_lt; assumption).
  reflexivity.
Qed.

Lemma detection_dispatch_dot :
  forall text,
    count_char "," (strip_non_numeric text) = 0 ->
    0 < count_char "." (strip_non_numeric text) ->
    smartNumberDetection text = parseWithDotSeparator (strip_non_numeric text).
Proof.
  intros text Hcomma Hdot. unfold smartNumberDetection. cbv zeta.
  rewrite (has_char_count _ "." _ eq_refl Hdot). cbn [negb].
  rewrite Hcomma. replace (0 <? count_char "." (strip_non_numeric text)) with true
    by (symmetry; apply Z.ltb_lt; assumption).
  reflexivity.
Qed.

Lemma detection_dispatch_mixed :
  forall text,
    0 < count_char "," (strip_non_numeric text) ->
    0 < count_char "." (strip_non_numeric text) ->
    smartNumberDetection text = parseWithMixedSeparators (strip_non_numeric text).
Proof.
  intros text Hcomma Hdot. unfold smartNumberDetection. cbv zeta.
  rewrite (has_char_count _ "." _ eq_refl Hdot). cbn [negb].
  replace (0 <? count_char "." (strip_non_numeric text)) with true
    by (symmetry; apply Z.ltb_lt; assumption).
  replace (0 <? count_char "," (strip_non_numeric text)) with true
    by (symmetry; apply Z.ltb_lt; assumption).
  replace (count_char "." (strip_non_numeric text) =? 0) with false
    by (symmetry; apply Z.eqb_neq; lia).
  replace (count_char "," (strip_non_numeric text) =? 0) with false
    by (symmetry; apply Z.eqb_neq; lia).
  reflexivity.
Qed.

(** [parseWithCommaSeparator] on a text with exactly one comma. *)
Lemma parseWithCommaSeparator_one :
  forall before after,
    count_char "," before = 0 -> count_char "," after = 0 ->
    parseWithCommaSeparator (before ++ String "," after)
    = if len after <=? 2 then parseFloat (before ++ String "." after)
      else if len after =? 3 then parseFloat (before ++ after)
      else parseFloat (before ++ after).
Proof.
  intros before after Hb Ha. unfold parseWithCommaSeparator.
  rewrite count_char_around, Hb, Ha. cbn [Z.add Z.eqb Pos.eqb Pos.add].
  rewrite split_once by assumption. cbn [nth].
  rewrite remove_char_append, remove_char_here, !remove_char_absent by assumption.
  destruct (len after <=? 2) eqn:E2, (len before <=? 3), (len after =? 3) eqn:E3;
    try reflexivity; apply Z.leb_le in E2; apply Z.eqb_eq in E3; lia.
Qed.

(** *** Groups joined by a separator *)

Lemma concat_two :
  forall sep p q ps,
    String.concat sep (p :: q :: ps) = p ++ sep ++ String.concat sep (q :: ps).
Proof. reflexivity. Qed.

Lemma concat_last :
  forall sep parts last,
    parts <> [] ->
    String.concat sep (parts ++ [last]) = String.concat sep parts ++ sep ++ last.
Proof.
  intros sep. induction parts as [|p ps IH]; intros last Hne; [congruence|].
  destruct ps as [|q qs]; [reflexivity|].
  change ((p :: q :: qs) ++ [last])%list with (p :: ((q :: qs) ++ [last]))%list.
  change ((q :: qs) ++ [last])%list with (q :: (qs ++ [last]))%list.
  rewrite !concat_two.
  change (q :: (qs ++ [last]))%list with ((q :: qs) ++ [last])%list.
  rewrite IH by discriminate. rewrite !append_assoc. reflexivity.
Qed.

Lemma count_char_concat :
  forall c parts,
    Forall (fun part => count_char c part = 0) parts ->
    parts <> [] ->
    count_char c (String.concat (String c EmptyString) parts)
    = Z.of_nat (List.length parts) - 1.
Proof.
  intros c. induction parts as [|p ps IH]; intros Hall Hne; [congruence|].
  inversion Hall as [|? ? Hp Hps]; subst.
  destruct ps as [|q qs]; [cbn [String.concat List.length]; lia|].
  rewrite concat_two, count_char_append, Hp.
  cbn [append]. rewrite count_char_here, IH by (assumption || discriminate).
  cbn [List.length]. lia.
Qed.

Lemma remove_char_concat :
  forall c parts,
    Forall (fun part => count_char c part = 0) parts ->
    remove_char c (String.concat (String c EmptyString) parts)
    = String.concat EmptyString parts.
Proof.
  intros c. induction parts as [|p ps IH]; intros Hall; [reflexivity|].
  inversion Hall as [|? ? Hp Hps]; subst.
  destruct ps as [|q qs]; [apply remove_char_absent; assumption|].
  rewrite !concat_two, remove_char_append, remove_char_absent by assumption.
  cbn [append]. rewrite remove_char_here, IH by assumption. reflexivity.
Qed.

(** C6.  Commas and no dots in the cleaned text.  One comma followed by one
    or two characters, with at most three in front, is a decimal point; one
    comma followed by exactly three is dropped.  Several commas are all
    dropped: the number is read from the groups between them, put
    together. *)
Theorem comma_only_detection :
  forall text,
    count_char "." (strip_non_numeric text) = 0 ->
    0 < count_char "," (strip_non_numeric text) ->
    (forall before after,
        strip_non_numeric text = before ++ String "," after ->
        count_char "," before = 0 -> count_char "," after = 0 ->
        (1 <= len after <= 2 -> len before <= 3 ->
         smartNumberDetection text = parseFloat (before ++ String "." after))
        /\ (len after = 3 ->
            smartNumberDetection text = parseFloat (before ++ after)))
    /\ (forall groups,
           strip_non_numeric text = String.concat "," groups ->
           Forall (fun group => count_char "," group = 0) groups ->
           (3 <= List.length groups)%nat ->
           smartNumberDetection text = parseFloat (String.concat EmptyString groups))
    /\ smartNumberDetection "1,234" = of_Z 1234
    /\ smartNumberDetection "3,5" = dec false 35 (-1)
    /\ smartNumberDetection "1,234,567" = of_Z 1234567
    /\ smartNumberDetection "1,234,56" = of_Z 123456
    /\ extractNumber (numberFormat defaults) "1,234" = of_Z 1234
    /\ extractNumber (numberFormat defaults) "3,5" = dec false 35 (-1)
    /\ extractNumber (numberFormat defaults) "Kz 12,345,678 +" = of_Z 12345678.
Proof.
  intros text Hdot Hcomma.
  rewrite (detection_dispatch_comma text Hdot Hcomma).
  split; [|split; [|repeat split; vm_compute; reflexivity]].
  - intros before after Hclean Hb Ha. rewrite Hclean.
    rewrite parseWithCommaSeparator_one by assumption. split.
    + intros [_ H2] _. replace (len after <=? 2) with true
        by (symmetry; apply Z.leb_le; assumption). reflexivity.
    + intros H3. rewrite H3. reflexivity.
  - intros groups Hclean Hgroups Hmany. rewrite Hclean.
    assert (Hne : groups <> []) by (destruct groups; [cbn in Hmany; lia|discriminate]).
    unfold parseWithCommaSeparator.
    rewrite (count_char_concat "," groups Hgroups Hne).
    replace (Z.of_nat (List.length groups) - 1 =? 1) with false
      by (symmetry; apply Z.eqb_neq; lia).
    rewrite (remove_char_concat "," groups Hgroups). reflexivity.
Qed.

Lemma comma_only_detection_witness :
  count_char "." (strip_non_numeric "Kz 1,234,567 +") = 0 /\
  0 < count_char "," (strip_non_numeric "Kz 1,234,567 +") /\
  smartNumberDetection "Kz 1,234,567 +" = parseFloat ("1" ++ "234" ++ "567").
Proof.
  split; [reflexivity|]. split; [reflexivity|].
  refine (proj1 (proj2 (comma_only_detection "Kz 1,234,567 +" eq_refl eq_refl))
            ["1"; "234"; "567"] eq_refl _ _).
  - repeat constructor.
  - simpl. lia.
Defined.

(** [parseWithDotSeparator] on a text with exactly one dot. *)
Lemma parseWithDotSeparator_one :
  forall before after,
    count_char "." before = 0 -> count_char "." after = 0 ->
    parseWithDotSeparator (before ++ String "." after)
    = if len after =? 3 then parseFloat (before ++ after)
      else parseFloat (before ++ String "." after).
Proof.
  intros before after Hb Ha. unfold parseWithDotSeparator.
  rewrite count_char_around, Hb, Ha. cbn [Z.add Z.eqb Pos.eqb Pos.add].
  rewrite split_once by assumption. cbn [nth].
  destruct (len after <=? 2) eqn:E2, (len before <=? 3), (len after =? 3) eqn:E3;
    try reflexivity; apply Z.leb_le in E2; apply Z.eqb_eq in E3; lia.
Qed.

(** [parseWithDotSeparator] on a text with several dots, cut at the last. *)
Lemma parseWithDotSeparator_many :
  forall before after,
    0 < count_char "." before -> count_char "." after = 0 ->
    parseWithDotSeparator (before ++ String "." after)
    = if len after <=? 2 then parseFloat (remove_char "." before ++ String "." after)
      else parseFloat (remove_char "." (before ++ String "." after)).
Proof.
  intros before after Hb Ha. unfold parseWithDotSeparator.
  rewrite count_char_around, Ha.
  replace (count_char "." before + 1 + 0 =? 1) with false
    by (symmetry; apply Z.eqb_neq; lia).
  rewrite lastIndexOf_last, substring_head, substring_tail by assumption.
  reflexivity.
Qed.

(** *** A dot at the end of a text of digits and minus signs *)

Lemma all_chars_append :
  forall p a b, all_chars p (a ++ b) = all_chars p a && all_chars p b.
Proof.
  induction a; intros; simpl; [reflexivity|]. rewrite IHa. apply andb_assoc.
Qed.

Lemma strip_non_numeric_chars :
  forall text, all_chars numeric_char (strip_non_numeric text) = true.
Proof.
  unfold strip_non_numeric. induction text; simpl; [reflexivity|].
  destruct (is_digit a || is_dot a || is_comma a || Ascii.eqb a "-") eqn:E; [|assumption].
  simpl. unfold numeric_char at 1. rewrite E. assumption.
Qed.

Lemma remove_dots_digit_or_minus :
  forall s,
    all_chars numeric_char s = true -> count_char "," s = 0 ->
    all_chars digit_or_minus (remove_char "." s) = true.
Proof.
  unfold remove_char. induction s; simpl; intros Hall Hcount; [reflexivity|].
  apply andb_true_iff in Hall. destruct Hall as [Ha Hs].
  pose proof (count_char_nonneg "," s).
  unfold numeric_char, is_dot, is_comma in Ha.
  destruct (Ascii.eqb a ",") eqn:Ec; [lia|].
  destruct (Ascii.eqb a ".") eqn:Ed; simpl.
  - apply IHs; [assumption | lia].
  - unfold digit_or_minus at 1. rewrite orb_false_r in Ha. rewrite orb_false_r in Ha.
    rewrite Ha. apply IHs; [assumption | lia].
Qed.

Lemma is_digit_dot : is_digit "." = false.
Proof. reflexivity. Qed.

Lemma span_digits_dot :
  forall s,
    span_digits (s ++ String "." EmptyString)
    = (fst (span_digits s), snd (span_digits s) ++ String "." EmptyString).
Proof.
  induction s; [reflexivity|].
  simpl. destruct (is_digit a); [|reflexivity].
  rewrite IHs. destruct (span_digits s). reflexivity.
Qed.

Lemma span_digits_rest :
  forall s,
    all_chars digit_or_minus s = true ->
    snd (span_digits s) = EmptyString
    \/ exists r, snd (span_digits s) = String "-" r.
Proof.
  induction s; simpl; intros H; [left; reflexivity|].
  apply andb_true_iff in H. destruct H as [Ha Hs].
  destruct (is_digit a) eqn:Ed.
  - destruct (span_digits s). apply IHs. assumption.
  - right. unfold digit_or_minus in Ha. rewrite Ed in Ha. simpl in Ha.
    apply Ascii.eqb_eq in Ha. subst. eexists. reflexivity.
Qed.

Lemma digit_or_minus_not_space :
  forall c, digit_or_minus c = true -> is_space c = false.
Proof.
  intros c H. unfold digit_or_minus in H. apply orb_true_iff in H. destruct H as [H|H].
  - unfold is_digit in H. unfold is_space.
    apply andb_true_iff in H. destruct H as [H1 H2].
    apply Z.leb_le in H1. apply Z.leb_le in H2.
    apply orb_false_iff. split; [apply orb_false_iff; split|].
    + apply andb_false_iff. right. apply Z.leb_gt. lia.
    + apply Z.eqb_neq. lia.
    + apply Z.eqb_neq. lia.
  - apply Ascii.eqb_eq in H. subst. reflexivity.
Qed.

Lemma digit_or_minus_not_I :
  forall c s, digit_or_minus c = true -> has_prefix "Infinity" (String c s) = false.
Proof.
  intros c s H. cbn [has_prefix]. destruct (Ascii.eqb "I" c) eqn:E; [|reflexivity].
  apply Ascii.eqb_eq in E. subst. discriminate H.
Qed.

Lemma parse_unsigned_dot :
  forall sg s,
    all_chars digit_or_minus s = true ->
    option_map fst (parse_unsigned sg (s ++ String "." EmptyString))
    = option_map fst (parse_unsigned sg s).
Proof.
  intros sg s Hall. unfold parse_unsigned.
  assert (Hp : has_prefix "Infinity" s = false /\
               has_prefix "Infinity" (s ++ String "." EmptyString) = false).
  { destruct s; [split; reflexivity|].
    simpl in Hall. apply andb_true_iff in Hall. destruct Hall as [Ha _].
    split; apply digit_or_minus_not_I; assumption. }
  destruct Hp as [-> ->]. rewrite span_digits_dot.
  destruct (span_digits_rest s Hall) as [Hr|[r Hr]];
    destruct (span_digits s) as [d1 r1]; simpl in Hr; subst r1; cbn [fst snd].
  - cbn [append after_char]. rewrite Ascii.eqb_refl. cbn [span_digits].
    destruct (truthy (d1 ++ EmptyString)) eqn:E; cbv beta iota; rewrite ?E; reflexivity.
  - cbn [append after_char].
    replace (Ascii.eqb "-" ".") with false by reflexivity.
    destruct (truthy (d1 ++ EmptyString)) eqn:E; cbv beta iota; rewrite ?E; reflexivity.
Qed.

Lemma strip_sign_dot :
  forall s,
    all_chars digit_or_minus s = true ->
    strip_sign (s ++ String "." EmptyString)
    = (fst (strip_sign s), snd (strip_sign s) ++ String "." EmptyString)
    /\ all_chars digit_or_minus (snd (strip_sign s)) = true.
Proof.
  intros s Hall. destruct s as [|c s]; [split; reflexivity|].
  simpl in Hall. apply andb_true_iff in Hall. destruct Hall as [Hc Hs].
  simpl. destruct (Ascii.eqb c "-") eqn:Em; [split; [reflexivity | assumption]|].
  destruct (Ascii.eqb c "+") eqn:Ep.
  - apply Ascii.eqb_eq in Ep. subst. discriminate Hc.
  - split; [reflexivity|]. simpl. rewrite Hc. assumption.
Qed.

Lemma trim_start_digit_or_minus :
  forall s, all_chars digit_or_minus s = true ->
            trim_start (s ++ String "." EmptyString) = s ++ String "." EmptyString
            /\ trim_start s = s.
Proof.
  intros s Hall. destruct s as [|c s]; [split; reflexivity|].
  simpl in Hall. apply andb_true_iff in Hall. destruct Hall as [Hc _].
  simpl. rewrite (digit_or_minus_not_space c Hc). split; reflexivity.
Qed.

(** In a text of digits and minus signs, a dot at the very end changes
    nothing for [parseFloat]. *)
Lemma parseFloat_trailing_dot :
  forall s,
    all_chars digit_or_minus s = true ->
    parseFloat (s ++ String "." EmptyString) = parseFloat s.
Proof.
  intros s Hall. unfold parseFloat, parse_StrDecimalLiteral.
  destruct (trim_start_digit_or_minus s Hall) as [-> ->].
  destruct (strip_sign_dot s Hall) as [-> Hrest].
  destruct (strip_sign s) as [sg s1]. cbn [fst snd] in *.
  pose proof (parse_unsigned_dot sg s1 Hrest) as H.
  destruct (parse_unsigned sg (s1 ++ String "." EmptyString)) as [[v r]|],
           (parse_unsigned sg s1) as [[v' r']|]; simpl in H; congruence.
Qed.

(** C7.  Dots and no commas in the cleaned text.  A single dot followed by
    exactly three characters is dropped, followed by one or two it is the
    decimal point.  With several dots, those before the last are dropped:
    the groups in front of the last dot are put together.  The last dot is
    the decimal point exactly when one or two characters follow it;
    otherwise it is dropped as well. *)
Theorem dot_only_detection :
  forall text,
    count_char "," (strip_non_numeric text) = 0 ->
    0 < count_char "." (strip_non_numeric text) ->
    (forall before after,
        strip_non_numeric text = before ++ String "." after ->
        count_char "." before = 0 -> count_char "." after = 0 ->
        (len after = 3 ->
         smartNumberDetection text = parseFloat (before ++ after))
        /\ (1 <= len after <= 2 ->
            smartNumberDetection text = parseFloat (before ++ String "." after)))
    /\ (forall groups last,
           strip_non_numeric text = String.concat "." (groups ++ [last]) ->
           Forall (fun group => count_char "." group = 0) (groups ++ [last]) ->
           (2 <= List.length groups)%nat ->
           (1 <= len last <= 2 ->
            smartNumberDetection text
            = parseFloat (String.concat EmptyString groups ++ String "." last))
           /\ (~ 1 <= len last <= 2 ->
               smartNumberDetection text
               = parseFloat (String.concat EmptyString groups ++ last)))
    /\ smartNumberDetection "1.234" = of_Z 1234
    /\ smartNumberDetection "3.5" = dec false 35 (-1)
    /\ smartNumberDetection "1.234.567" = of_Z 1234567
    /\ smartNumberDetection "1.234.56" = dec false 123456 (-2)
    /\ smartNumberDetection "1.234.5678" = of_Z 12345678
    /\ extractNumber (numberFormat defaults) "Kz 12.345.678 +" = of_Z 12345678.
Proof.
  intros text Hcomma Hdot.
  rewrite (detection_dispatch_dot text Hcomma Hdot).
  split; [|split; [|repeat split; vm_compute; reflexivity]].
  - intros before after Hclean Hb Ha.
    rewrite Hclean, parseWithDotSeparator_one by assumption. split.
    + intros ->. reflexivity.
    + intros H. replace (len after =? 3) with false
        by (symmetry; apply Z.eqb_neq; lia). reflexivity.
  - intros groups last Hclean Hall Hmany.
    apply Forall_app in Hall. destruct Hall as [Hgroups Hlast].
    inversion Hlast as [|? ? Hlast' _]; subst.
    assert (Hne : groups <> []) by (destruct groups; [cbn in Hmany; lia|discriminate]).
    pose proof (strip_non_numeric_chars text) as Hchars.
    rewrite (concat_last "." groups last Hne) in Hclean. cbn [append] in Hclean.
    rewrite Hclean in *.
    pose proof (count_char_concat "." groups Hgroups Hne) as Hcount.
    rewrite parseWithDotSeparator_many by (assumption || lia).
    rewrite remove_char_append, remove_char_here, (remove_char_absent "." last Hlast').
    rewrite (remove_char_concat "." groups Hgroups). split.
    + intros H. replace (len last <=? 2) with true
        by (symmetry; apply Z.leb_le; lia). reflexivity.
    + intros H. destruct (len last <=? 2) eqn:E; [|reflexivity].
      apply Z.leb_le in E. pose proof (len_nonneg last).
      assert (Hempty : last = EmptyString).
      { destruct last; [reflexivity|]. rewrite len_String in *.
        pose proof (len_nonneg last). lia. }
      subst last. rewrite append_empty_r. apply parseFloat_trailing_dot.
      rewrite count_char_append in Hcomma. rewrite all_chars_append in Hchars.
      apply andb_true_iff in Hchars. destruct Hchars as [Hchars _].
      pose proof (count_char_nonneg "," (String.concat "." groups)).
      pose proof (count_char_nonneg "," (String "." EmptyString)).
      rewrite <- (remove_char_concat "." groups Hgroups).
      apply remove_dots_digit_or_minus; [assumption | lia].
Qed.

Lemma dot_only_detection_witness :
  count_char "," (strip_non_numeric "Kz 1.234.567 +") = 0 /\
  0 < count_char "." (strip_non_numeric "Kz 1.234.567 +") /\
  smartNumberDetection "Kz 1.234.567 +" = parseFloat (("1" ++ "234") ++ "567").
Proof.
  split; [reflexivity|]. split; [reflexivity|].
  refine (proj2 (proj1 (proj2 (dot_only_detection "Kz 1.234.567 +" eq_refl eq_refl))
                   ["1"; "234"] "567" eq_refl _ _) _).
  - repeat constructor.
  - simpl. lia.
  - vm_compute. intros [_ H]. apply H. reflexivity.
Defined.

(** C8.  Both a comma and a dot in the cleaned text.  The one of the two
    that occurs last is the decimal point, and every occurrence of the other
    is dropped. *)
Theorem mixed_detection :
  forall text,
    0 < count_char "," (strip_non_numeric text) ->
    0 < count_char "." (strip_non_numeric text) ->
    (forall before after,
        strip_non_numeric text = before ++ String "," after ->
        count_char "," after = 0 -> count_char "." after = 0 ->
        smartNumberDetection text
        = parseFloat (remove_char "." before ++ String "." after))
    /\ (forall before after,
           strip_non_numeric text = before ++ String "." after ->
           count_char "," after = 0 -> count_char "." after = 0 ->
           smartNumberDetection text
           = parseFloat (remove_char "," before ++ String "." after))
    /\ smartNumberDetection "1.234,56" = dec false 123456 (-2)
    /\ extractNumber (numberFormat defaults) "1.234,56" = dec false 123456 (-2).
Proof.
  intros text Hcomma Hdot.
  rewrite (detection_dispatch_mixed text Hcomma Hdot).
  split; [|split; [|split; vm_compute; reflexivity]];
    intros before after Hclean Hc Hd; rewrite Hclean; unfold parseWithMixedSeparators.
  - rewrite (lastIndexOf_last "," before after Hc).
    pose proof (lastIndexOf_before "." "," before after eq_refl Hd) as Hlt.
    apply Z.ltb_lt in Hlt. rewrite Hlt.
    rewrite substring_head, substring_tail. reflexivity.
  - rewrite (lastIndexOf_last "." before after Hd).
    pose proof (lastIndexOf_before "," "." before after eq_refl Hc) as Hlt.
    replace (len before <? lastIndexOf "," (before ++ String "." after)) with false
      by (symmetry; apply Z.ltb_ge; lia).
    rewrite substring_head, substring_tail. reflexivity.
Qed.

Lemma mixed_detection_witness :
  0 < count_char "," (strip_non_numeric "1.234,56") /\
  0 < count_char "." (strip_non_numeric "1.234,56") /\
  smartNumberDetection "1.234,56" = parseFloat (remove_char "." "1.234" ++ String "." "56").
Proof.
  split; [reflexivity|]. split; [reflexivity|].
  exact (proj1 (mixed_detection "1.234,56" eq_refl eq_refl) "1.234" "56"
           eq_refl eq_refl eq_refl).
Defined.

(** ** Rounding to binary64 *)

Lemma digits2_pos_size : forall m, digits2_pos m = Pos.size m.
Proof. induction m; simpl; congruence. Qed.

Lemma digits2_log2 : forall m, Zpos (digits2_pos m) = Z.log2 (Zpos m) + 1.
Proof.
  intros m. rewrite digits2_pos_size. destruct m; simpl; try reflexivity;
    rewrite Pos.add_1_r; reflexivity.
Qed.

(** The canonical finite numbers: a 53-bit significand, or a shorter one at
    the least exponent. *)
Lemma bounded_spec :
  forall m e,
    bounded prec emax m e = true <->
    (-1074 <= e <= 971 /\ Zpos m < 2 ^ 53 /\ (e = -1074 \/ 2 ^ 52 <= Zpos m)).
Proof.
  intros m e. unfold bounded, canonical_mantissa, fexp, emin, prec, emax.
  rewrite andb_true_iff, Z.eqb_eq, Z.leb_le, digits2_log2.
  pose proof (Z.log2_spec (Zpos m) eq_refl) as [Hlo Hhi].
  pose proof (Z.log2_nonneg (Zpos m)) as Hnn.
  replace (Z.succ (Z.log2 (Zpos m))) with (Z.log2 (Zpos m) + 1) in Hhi by lia.
  split.
  - intros [Hc He].
    assert (Hd : Z.log2 (Zpos m) + 1 <= 53) by lia.
    split; [lia|]. split.
    + apply Z.lt_le_trans with (2 ^ (Z.log2 (Zpos m) + 1)); [assumption|].
      apply Z.pow_le_mono_r; lia.
    + destruct (Z.eq_dec e (-1074)) as [|Hne]; [left; assumption|right].
      assert (H52 : Z.log2 (Zpos m) = 52) by lia. rewrite H52 in Hlo. apply Hlo.
  - intros [He [Hm Hn]].
    assert (Hd : Z.log2 (Zpos m) < 53).
    { apply Z.log2_lt_pow2; lia. }
    split; [|lia]. destruct Hn as [->|Hn]; [lia|].
    assert (52 <= Z.log2 (Zpos m)) by (apply Z.log2_le_pow2; lia). lia.
Qed.

Lemma round_half_even_exact :
  forall j q, 0 < q -> round_half_even (j * q) q = j.
Proof.
  intros j q Hq. unfold round_half_even.
  rewrite Z.div_mul, Z.mod_mul by lia.
  replace (2 * 0 ?= q) with Lt by (symmetry; apply Z.compare_lt_iff; lia).
  reflexivity.
Qed.

(** No integer is nearer to [p / q] than [round_half_even p q]. *)
Lemma round_half_even_nearest :
  forall p q j,
    0 < q -> Z.abs (round_half_even p q * q - p) <= Z.abs (j * q - p).
Proof.
  intros p q j Hq. unfold round_half_even.
  pose proof (Z.div_mod p q ltac:(lia)) as Hdm.
  pose proof (Z.mod_pos_bound p q Hq) as Hr.
  set (d := p / q) in *. set (r := p mod q) in *.
  assert (Hj : 0 <= (d - j) * q \/ 0 <= (j - d - 1) * q).
  { destruct (Z_le_gt_dec j d); [left|right]; apply Z.mul_nonneg_nonneg; lia. }
  destruct (Z.compare_spec (2 * r) q); try destruct (Z.even d); destruct Hj; lia.
Qed.

Lemma round_half_even_bounds :
  forall p q lo hi,
    0 < q -> lo * q <= p -> p <= hi * q -> lo <= round_half_even p q <= hi.
Proof.
  intros p q lo hi Hq Hlo Hhi. unfold round_half_even.
  pose proof (Z.div_mod p q ltac:(lia)) as Hdm.
  pose proof (Z.mod_pos_bound p q Hq) as Hr.
  set (d := p / q) in *. set (r := p mod q) in *.
  assert (lo <= d) by nia.
  assert (d <= hi) by nia.
  assert (r = 0 \/ d + 1 <= hi) by nia.
  destruct (Z.compare_spec (2 * r) q); try destruct (Z.even d); lia.
Qed.

Lemma pow2_pos : forall k, 0 < 2 ^ k \/ k < 0.
Proof. intros k. destruct (Z_lt_le_dec k 0); [right; assumption|left; apply Z.pow_pos_nonneg; lia]. Qed.

Lemma pow2_split : forall a b, 0 <= a -> 0 <= b -> 2 ^ (a + b) = 2 ^ a * 2 ^ b.
Proof. intros. apply Z.pow_add_r; assumption. Qed.

(** What [ratio_exponent] computes. *)
Lemma ratio_exponent_spec :
  forall p q,
    0 < p -> 0 < q ->
    let k := ratio_exponent p q in
    0 <= k /\ p < 2 ^ 53 * (q * 2 ^ k) /\ (k = 0 \/ 2 ^ 52 * (q * 2 ^ k) <= p).
Proof.
  intros p q Hp Hq. unfold ratio_exponent.
  pose proof (Z.log2_spec p Hp) as [Hp1 Hp2].
  pose proof (Z.log2_spec q Hq) as [Hq1 Hq2].
  pose proof (Z.log2_nonneg p) as Hlp. pose proof (Z.log2_nonneg q) as Hlq.
  set (lp := Z.log2 p) in *. set (lq := Z.log2 q) in *.
  replace (Z.succ lp) with (lp + 1) in Hp2 by lia.
  replace (Z.succ lq) with (lq + 1) in Hq2 by lia.
  assert (Hpq : 0 < 2 ^ lq) by (apply Z.pow_pos_nonneg; lia).
  destruct (Z_lt_le_dec (lp - lq - 53) 0) as [Hneg|Hpos].
  - replace (Z.max 0 (lp - lq - 53)) with 0 by lia.
    rewrite Z.pow_0_r, Z.mul_1_r.
    assert (Hlt : p < 2 ^ 53 * q).
    { apply Z.lt_le_trans with (2 ^ (lp + 1)); [assumption|].
      apply Z.le_trans with (2 ^ (53 + lq)).
      - apply Z.pow_le_mono_r; lia.
      - rewrite (pow2_split 53 lq) by lia. nia. }
    replace (2 ^ 53 * q <=? p) with false by (symmetry; apply Z.leb_gt; assumption).
    cbv zeta. rewrite Z.pow_0_r, Z.mul_1_r. lia.
  - replace (Z.max 0 (lp - lq - 53)) with (lp - lq - 53) by lia.
    set (k := lp - lq - 53) in *.
    assert (Hk : 0 < 2 ^ k) by (apply Z.pow_pos_nonneg; lia).
    assert (Hup : p < 2 ^ 54 * (q * 2 ^ k)).
    { apply Z.lt_le_trans with (2 ^ (lp + 1)); [assumption|].
      replace (lp + 1) with (54 + (lq + k)) by lia.
      rewrite (pow2_split 54 (lq + k)), (pow2_split lq k) by lia. nia. }
    assert (Hdn : 2 ^ 52 * (q * 2 ^ k) < p).
    { apply Z.lt_le_trans with (2 ^ lp); [|assumption].
      assert (Hsplit : 2 ^ lp = 2 ^ 52 * (2 ^ (lq + 1) * 2 ^ k)).
      { rewrite <- (pow2_split (lq + 1) k), <- (pow2_split 52 (lq + 1 + k)) by lia.
        f_equal. lia. }
      rewrite Hsplit.
      assert (0 < 2 ^ 52) by (apply Z.pow_pos_nonneg; lia). nia. }
    destruct (2 ^ 53 * (q * 2 ^ k) <=? p) eqn:E; cbv zeta.
    + apply Z.leb_le in E. rewrite (pow2_split k 1) by lia.
      change (2 ^ 1) with 2. change (2 ^ 54) with (2 ^ 53 * 2) in Hup.
      change (2 ^ 53) with (2 ^ 52 * 2) in E.
      split; [lia|]. split; [nia|right; nia].
    + apply Z.leb_gt in E. split; [lia|]. split; [assumption|right; lia].
Qed.

Lemma ratio_exponent_unique :
  forall p q k,
    0 < p -> 0 < q -> 0 <= k ->
    p < 2 ^ 53 * (q * 2 ^ k) -> (k = 0 \/ 2 ^ 52 * (q * 2 ^ k) <= p) ->
    (2 ^ 52 * (q * 2 ^ k) <= p \/ ratio_exponent p q = 0 -> ratio_exponent p q = k)
    /\ (p < 2 ^ 52 * q -> ratio_exponent p q = 0).
Proof.
  intros p q k Hp Hq Hk Hup Hdn.
  destruct (ratio_exponent_spec p q Hp Hq) as [HK [HKup HKdn]].
  set (K := ratio_exponent p q) in *.
  assert (Hmono : forall a b, 0 <= a -> a < b -> 2 * 2 ^ a <= 2 ^ b).
  { intros a b Ha Hab. replace b with (a + 1 + (b - a - 1)) by lia.
    rewrite (pow2_split (a + 1) (b - a - 1)), (pow2_split a 1) by lia. change (2 ^ 1) with 2.
    assert (0 < 2 ^ (b - a - 1)) by (apply Z.pow_pos_nonneg; lia).
    assert (0 < 2 ^ a) by (apply Z.pow_pos_nonneg; lia). nia. }
  assert (H52 : 2 ^ 53 = 2 * 2 ^ 52) by reflexivity.
  assert (Hpk : 0 < 2 ^ k) by (apply Z.pow_pos_nonneg; lia).
  assert (HpK : 0 < 2 ^ K) by (apply Z.pow_pos_nonneg; lia).
  assert (H0 : 0 < 2 ^ 52) by (apply Z.pow_pos_nonneg; lia).
  split.
  - intros Hcase.
    destruct (Z.lt_trichotomy K k) as [Hlt|[Heq|Hgt]]; [|assumption|].
    + exfalso. pose proof (Hmono K k HK Hlt).
      destruct Hdn as [->|Hdn]; [lia|]. nia.
    + exfalso. pose proof (Hmono k K Hk Hgt).
      destruct HKdn as [HK0|HKdn]; [lia|]. nia.
  - intros Hsub. destruct HKdn as [HK0|HKdn]; [assumption|].
    exfalso. assert (1 <= 2 ^ K) by lia. nia.
Qed.

(** Rounding is exact on the values of the canonical numbers. *)
Lemma of_ratio_exact :
  forall sg m e p q,
    bounded prec emax m e = true ->
    0 < q -> p * 2 ^ 1074 = ulps m e * q ->
    of_ratio sg p q = S754_finite sg m e.
Proof.
  intros sg m e p q Hb Hq Hv. apply bounded_spec in Hb.
  destruct Hb as [He [Hm Hn]]. unfold ulps in Hv.
  set (k := e + 1074) in *.
  assert (Hpk : 0 < 2 ^ k) by (apply Z.pow_pos_nonneg; lia).
  assert (H1074 : 0 < 2 ^ 1074) by (apply Z.pow_pos_nonneg; lia).
  assert (Hp : 0 < p) by nia.
  unfold of_ratio. replace (p <=? 0) with false by (symmetry; apply Z.leb_gt; assumption).
  cbv zeta. rewrite Hv.
  assert (Hu : 0 < Zpos m * 2 ^ k * q) by nia.
  assert (HK : ratio_exponent (Zpos m * 2 ^ k * q) q = k).
  { destruct (ratio_exponent_unique (Zpos m * 2 ^ k * q) q k Hu Hq ltac:(lia)) as [H1 H2].
    - nia.
    - destruct Hn as [Hn|Hn]; [left; lia|right; nia].
    - destruct Hn as [Hn|Hn].
      + destruct (Z_lt_le_dec (Zpos m) (2 ^ 52)) as [Hs|Hs].
        * replace k with 0 in * by lia. rewrite Z.pow_0_r, Z.mul_1_r in *.
          apply H2. nia.
        * apply H1. left. nia.
      + apply H1. left. nia. }
  rewrite HK.
  replace (Zpos m * 2 ^ k * q) with (Zpos m * (q * 2 ^ k)) by ring.
  rewrite round_half_even_exact by nia.
  replace (Zpos m =? 2 ^ 53) with false by (symmetry; apply Z.eqb_neq; lia).
  unfold finite_or_inf. replace (k - 1074) with e by lia.
  replace (971 <? e) with false by (symmetry; apply Z.ltb_ge; lia).
  reflexivity.
Qed.

(** ** Decimal digits *)

Lemma digit_char_spec :
  forall d, 0 <= d <= 9 ->
            digit_value (digit_char d) = d /\ is_digit (digit_char d) = true.
Proof.
  intros d Hd.
  assert (H : d = 0 \/ d = 1 \/ d = 2 \/ d = 3 \/ d = 4 \/ d = 5 \/ d = 6 \/ d = 7
              \/ d = 8 \/ d = 9) by lia.
  repeat (destruct H as [->|H]; [split; reflexivity|]). subst. split; reflexivity.
Qed.

Lemma digits_value_append :
  forall a b acc, digits_value (a ++ b) acc = digits_value b (digits_value a acc).
Proof. induction a; intros; simpl; auto. Qed.

Lemma truthy_append : forall a b, truthy a = true -> truthy (a ++ b) = true.
Proof. intros [|c a] b H; [discriminate H|reflexivity]. Qed.

Lemma digits_aux_spec :
  forall fuel n acc,
    0 <= n < 2 ^ Z.of_nat (S fuel) ->
    exists ds, digits_aux (S fuel) n acc = ds ++ acc /\ digits_of n ds.
Proof.
  induction fuel as [|fuel IH]; intros n acc Hn;
    cbn [digits_aux];
    pose proof (Z.mod_pos_bound n 10 ltac:(lia)) as Hmod;
    destruct (digit_char_spec (n mod 10) ltac:(lia)) as [Hv Hd];
    destruct (Z.ltb_spec n 10) as [Hlt|Hge].
  1, 3: exists (String (digit_char (n mod 10)) EmptyString); (split; [reflexivity|]);
    rewrite Z.mod_small in * by lia;
    constructor;
    [ cbn [all_chars]; rewrite Hd; reflexivity
    | reflexivity
    | intros a; cbn [digits_value]; rewrite Hv; change (len _) with 1;
      change (10 ^ 1) with 10; lia
    | intros ?; change (len _) with 1; change (10 ^ (1 - 1)) with 1; lia
    | change (len _) with 1; change (10 ^ 1) with 10; lia ].
  - change (2 ^ Z.of_nat 1) with 2 in Hn. exfalso. lia.
  - assert (Hfuel : 0 <= n / 10 < 2 ^ Z.of_nat (S fuel)).
    { rewrite (Nat2Z.inj_succ (S fuel)), Z.pow_succ_r in Hn by lia.
      pose proof (Z.div_mod n 10 ltac:(lia)). split; [|]; lia. }
    destruct (IH (n / 10) (String (digit_char (n mod 10)) acc) Hfuel) as [ds [Heq Hds]].
    exists (ds ++ String (digit_char (n mod 10)) EmptyString). split.
    { cbn [digits_aux] in Heq. rewrite Heq, append_assoc. reflexivity. }
    destruct Hds as [Hall Hsome Hval Hlow Hhigh].
    pose proof (Z.div_mod n 10 ltac:(lia)) as Hdm.
    assert (Hlen : len (ds ++ String (digit_char (n mod 10)) EmptyString) = len ds + 1).
    { rewrite len_append. reflexivity. }
    pose proof (len_nonneg ds) as Hlnn.
    assert (Hl1 : 1 <= len ds).
    { destruct ds; [discriminate Hsome|]. rewrite len_String.
      pose proof (len_nonneg ds). lia. }
    constructor.
    + rewrite all_chars_append, Hall. cbn [all_chars]. rewrite Hd. reflexivity.
    + apply truthy_append. assumption.
    + intros a. rewrite digits_value_append, Hval. cbn [digits_value].
      rewrite Hv, Hlen, Z.pow_add_r by lia. change (10 ^ 1) with 10. lia.
    + intros _. rewrite Hlen. replace (len ds + 1 - 1) with (len ds - 1 + 1) by lia.
      rewrite Z.pow_add_r by lia. change (10 ^ 1) with 10.
      assert (H1 : 1 <= n / 10) by lia. specialize (Hlow H1). lia.
    + rewrite Hlen, Z.pow_add_r by lia. change (10 ^ 1) with 10. lia.
Qed.

Lemma decimal_digits_spec :
  forall n, 0 <= n -> digits_of n (decimal_digits n).
Proof.
  intros n Hn. unfold decimal_digits.
  destruct (digits_aux_spec (Z.to_nat (Z.log2 n)) n EmptyString) as [ds [Heq Hds]].
  - split; [assumption|].
    rewrite Nat2Z.inj_succ, Z2Nat.id by apply Z.log2_nonneg.
    destruct (Z.eq_dec n 0) as [->|Hne]; [reflexivity|].
    apply Z.log2_spec. lia.
  - rewrite Heq, append_empty_r. assumption.
Qed.

Lemma decimal_digits_value :
  forall n, 0 <= n -> digits_value (decimal_digits n) 0 = n.
Proof.
  intros n Hn. rewrite (digits_val _ _ (decimal_digits_spec n Hn)). lia.
Qed.

(** ** Reading numerals *)

Lemma all_chars_impl :
  forall (p q : ascii -> bool) s,
    (forall c, p c = true -> q c = true) ->
    all_chars p s = true -> all_chars q s = true.
Proof.
  intros p q s Hpq. induction s; simpl; [reflexivity|].
  intros H. apply andb_true_iff in H. destruct H as [Ha Hs].
  rewrite (Hpq _ Ha), IHs by assumption. reflexivity.
Qed.

Lemma is_digit_not_space : forall c, is_digit c = true -> not_space c = true.
Proof.
  intros c H. unfold not_space.
  rewrite digit_or_minus_not_space; [reflexivity|].
  unfold digit_or_minus. rewrite H. reflexivity.
Qed.

Lemma trim_no_space :
  forall s, all_chars not_space s = true -> trim s = s.
Proof.
  intros s H. unfold trim.
  assert (Hs : trim_start s = s).
  { destruct s; [reflexivity|]. simpl in *. apply andb_true_iff in H.
    destruct H as [H _]. unfold not_space in H. apply negb_true_iff in H.
    rewrite H. reflexivity. }
  rewrite Hs. clear Hs. induction s; [reflexivity|].
  simpl in *. apply andb_true_iff in H. destruct H as [Ha Hs].
  rewrite (IHs Hs). unfold not_space in Ha. apply negb_true_iff in Ha.
  rewrite Ha. destruct s; reflexivity.
Qed.

Lemma span_digits_all :
  forall ds rest,
    all_chars is_digit ds = true ->
    match rest with
    | String c _ => is_digit c = false
    | EmptyString => True
    end ->
    span_digits (ds ++ rest) = (ds, rest).
Proof.
  induction ds; intros rest Hall Hrest.
  - destruct rest; [reflexivity|]. simpl. rewrite Hrest. reflexivity.
  - simpl in *. apply andb_true_iff in Hall. destruct Hall as [Ha Hds].
    rewrite Ha, IHds by assumption. reflexivity.
Qed.

Lemma digit_facts :
  forall c,
    is_digit c = true ->
    Ascii.eqb c "-" = false /\ Ascii.eqb c "+" = false /\ Ascii.eqb "I" c = false
    /\ Ascii.eqb c "x" = false /\ Ascii.eqb c "X" = false /\ Ascii.eqb c "o" = false
    /\ Ascii.eqb c "O" = false /\ Ascii.eqb c "b" = false /\ Ascii.eqb c "B" = false
    /\ Ascii.eqb c "." = false.
Proof.
  intros c H.
  repeat split;
    match goal with
    | |- Ascii.eqb ?a ?b = false =>
        destruct (Ascii.eqb a b) eqn:E; [apply Ascii.eqb_eq in E; subst; discriminate H
                                        | reflexivity]
    end.
Qed.

(** [parse_StrDecimalLiteral] on a signed text that starts with a digit. *)
Lemma parse_signed :
  forall sg c rest,
    is_digit c = true ->
    parse_StrDecimalLiteral (sign_text sg ++ String c rest)
    = parse_unsigned sg (String c rest).
Proof.
  intros sg c rest Hc. unfold parse_StrDecimalLiteral.
  destruct (digit_facts c Hc) as [Hm [Hp _]].
  destruct sg; cbn [sign_text append strip_sign].
  - reflexivity.
  - rewrite Hm, Hp. reflexivity.
Qed.

Lemma parse_NonDecimal_signed_digits :
  forall sg ds,
    all_chars is_digit ds = true ->
    parse_NonDecimal (sign_text sg ++ ds) = None.
Proof.
  intros sg ds Hall. unfold parse_NonDecimal.
  destruct sg; cbn [sign_text append].
  - reflexivity.
  - destruct ds as [|c ds]; [reflexivity|].
    cbn [after_char]. destruct (Ascii.eqb c "0"); [|reflexivity].
    destruct ds as [|d ds]; [reflexivity|].
    simpl in Hall. apply andb_true_iff in Hall. destruct Hall as [_ Hall].
    apply andb_true_iff in Hall. destruct Hall as [Hd _].
    destruct (digit_facts d Hd) as [_ [_ [_ [-> [-> [-> [-> [-> [-> _]]]]]]]]].
    reflexivity.
Qed.

Lemma Number_no_space :
  forall s,
    truthy s = true -> all_chars not_space s = true ->
    Number s = match parse_NonDecimal s with
               | Some v => v
               | None =>
                   match parse_StrDecimalLiteral s with
                   | Some (v, EmptyString) => v
                   | _ => NaN
                   end
               end.
Proof.
  intros s Hs Hns. unfold Number. rewrite (trim_no_space _ Hns).
  destruct s; [discriminate Hs | reflexivity].
Qed.

Lemma truthy_signed : forall sg ds, truthy ds = true -> truthy (sign_text sg ++ ds) = true.
Proof. intros [|] [|c ds] H; try discriminate H; reflexivity. Qed.

(** [Number] on a signed run of digits. *)
Lemma Number_signed_digits :
  forall sg ds,
    all_chars is_digit ds = true -> truthy ds = true ->
    Number (sign_text sg ++ ds) = dec sg (digits_value ds 0) 0.
Proof.
  intros sg ds Hall Hsome.
  assert (Hns : all_chars not_space (sign_text sg ++ ds) = true).
  { rewrite all_chars_append. apply andb_true_iff. split.
    - destruct sg; reflexivity.
    - apply (all_chars_impl is_digit); [apply is_digit_not_space | assumption]. }
  rewrite (Number_no_space _ (truthy_signed sg ds Hsome) Hns).
  rewrite (parse_NonDecimal_signed_digits sg ds Hall).
  destruct ds as [|c ds]; [discriminate Hsome|].
  assert (Hc : is_digit c = true).
  { simpl in Hall. apply andb_true_iff in Hall. apply Hall. }
  rewrite (parse_signed sg c ds Hc).
  unfold parse_unsigned. cbn [has_prefix].
  destruct (digit_facts c Hc) as [_ [_ [-> _]]]. cbn [andb].
  pose proof (span_digits_all (String c ds) EmptyString Hall I) as Hspan.
  rewrite append_empty_r in Hspan. rewrite Hspan.
  cbn [after_char]. rewrite append_empty_r. cbn [truthy parse_exponent].
  change (0 - len EmptyString) with 0. reflexivity.
Qed.

(** ** Whole numbers below [10^21] print without a fraction *)

Lemma same_refl : forall x, same x x = true.
Proof.
  destruct x as [s|s| |s m e]; simpl; try (destruct s; reflexivity); try reflexivity.
  rewrite Pos.eqb_refl, Z.eqb_refl. destruct s; reflexivity.
Qed.

Lemma same_eq : forall x y, same x y = true -> x = y.
Proof.
  intros [s|s| |s m e] [s'|s'| |s' m' e'] H; simpl in H; try discriminate H;
    try (apply Bool.eqb_prop in H; congruence); try reflexivity.
  apply andb_true_iff in H. destruct H as [H He].
  apply andb_true_iff in H. destruct H as [Hs Hm].
  apply Bool.eqb_prop in Hs. apply Pos.eqb_eq in Hm. apply Z.eqb_eq in He. congruence.
Qed.

(** The canonical number of a whole number up to [2^53]. *)
Lemma of_ratio_integer :
  forall sg n,
    1 <= n <= 2 ^ 53 ->
    exists m e,
      of_ratio sg n 1 = S754_finite sg m e
      /\ bounded prec emax m e = true
      /\ ulps m e = n * 2 ^ 1074.
Proof.
  intros sg n Hn.
  destruct (Z.eq_dec n (2 ^ 53)) as [->|Hne].
  - exists (Z.to_pos (2 ^ 52)), 1.
    assert (Hb : bounded prec emax (Z.to_pos (2 ^ 52)) 1 = true) by (vm_compute; reflexivity).
    assert (Hu : ulps (Z.to_pos (2 ^ 52)) 1 = 2 ^ 53 * 2 ^ 1074) by (vm_compute; reflexivity).
    split; [|split; assumption].
    apply of_ratio_exact; [assumption | lia | rewrite Hu; ring].
  - pose proof (Z.log2_spec n ltac:(lia)) as [Hlo Hhi].
    pose proof (Z.log2_nonneg n) as Hnn.
    assert (Hd : Z.log2 n < 53) by (apply Z.log2_lt_pow2; lia).
    set (d := Z.log2 n) in *.
    replace (Z.succ d) with (d + 1) in Hhi by lia.
    assert (Hp : 0 < 2 ^ (52 - d)) by (apply Z.pow_pos_nonneg; lia).
    assert (Hpd : 0 < 2 ^ d) by (apply Z.pow_pos_nonneg; lia).
    assert (H52 : 2 ^ d * 2 ^ (52 - d) = 2 ^ 52).
    { rewrite <- Z.pow_add_r by lia. f_equal. lia. }
    assert (H53 : 2 ^ (d + 1) * 2 ^ (52 - d) = 2 ^ 53).
    { rewrite <- Z.pow_add_r by lia. f_equal. lia. }
    assert (HM : Zpos (Z.to_pos (n * 2 ^ (52 - d))) = n * 2 ^ (52 - d))
      by (apply Z2Pos.id; nia).
    exists (Z.to_pos (n * 2 ^ (52 - d))), (d - 52).
    assert (Hb : bounded prec emax (Z.to_pos (n * 2 ^ (52 - d))) (d - 52) = true).
    { apply bounded_spec. rewrite HM. split; [lia|]. split; [nia|right; nia]. }
    assert (Hu : ulps (Z.to_pos (n * 2 ^ (52 - d))) (d - 52) = n * 2 ^ 1074).
    { unfold ulps. rewrite HM, <- Z.mul_assoc, <- Z.pow_add_r by lia.
      f_equal. f_equal. lia. }
    split; [|split; assumption].
    apply of_ratio_exact; [assumption | lia | rewrite Hu; ring].
Qed.

(** The exact fraction of a canonical number that is a whole number [V]. *)
Lemma exact_integer :
  forall m e V,
    -1074 <= e -> ulps m e = V * 2 ^ 1074 ->
    fst (exact m e) = V * snd (exact m e) /\ 0 < snd (exact m e).
Proof.
  intros m e V He Hu. unfold ulps in Hu. unfold exact.
  assert (H1074 : 0 < 2 ^ 1074) by (apply Z.pow_pos_nonneg; lia).
  destruct (Z.leb_spec 0 e) as [Hpos|Hneg]; cbn [fst snd].
  - rewrite Z.pow_add_r in Hu by lia. split; [nia|lia].
  - assert (Hp : 0 < 2 ^ (- e)) by (apply Z.pow_pos_nonneg; lia).
    assert (Hs : 2 ^ (e + 1074) * 2 ^ (- e) = 2 ^ 1074).
    { rewrite <- Z.pow_add_r by lia. f_equal. lia. }
    split; [nia|assumption].
Qed.

Lemma candidate_shape :
  forall x num den n k s t,
    candidate x num den n k = Some (s, t) ->
    t = n - k
    /\ (s = floor_scaled num den t \/ s = floor_scaled num den t + 1)
    /\ same (dec false s t) x = true.
Proof.
  intros x num den n k s t. unfold candidate.
  destruct (same (dec false (floor_scaled num den (n - k)) (n - k)) x) eqn:Elo,
           (same (dec false (floor_scaled num den (n - k) + 1) (n - k)) x) eqn:Ehi;
    try discriminate.
  - destruct (0 <=? n - k);
      match goal with
      | |- context [?a ?= ?b] => destruct (a ?= b)
      end;
      try destruct (Z.even (floor_scaled num den (n - k)));
      intros H; injection H as <- <-; auto.
  - intros H; injection H as <- <-; auto.
  - intros H; injection H as <- <-; auto.
Qed.

Lemma candidate_some :
  forall x num den n k,
    same (dec false (floor_scaled num den (n - k)) (n - k)) x = true ->
    candidate x num den n k <> None.
Proof.
  intros x num den n k H. unfold candidate. rewrite H.
  destruct (same (dec false (floor_scaled num den (n - k) + 1) (n - k)) x);
    [|discriminate].
  destruct (0 <=? n - k);
    match goal with
    | |- context [?a ?= ?b] => destruct (a ?= b)
    end; discriminate.
Qed.

Lemma shortest_shape :
  forall fuel x num den n k0 r,
    shortest fuel x num den n k0 = Some r ->
    exists k,
      k0 <= k < k0 + Z.of_nat fuel
      /\ candidate x num den n k = Some r
      /\ forall k', k0 <= k' < k -> candidate x num den n k' = None.
Proof.
  induction fuel as [|fuel IH]; intros x num den n k0 r H; [discriminate H|].
  cbn [shortest] in H. destruct (candidate x num den n k0) eqn:E.
  - injection H as <-. exists k0. split; [lia|]. split; [assumption|]. intros; lia.
  - destruct (IH _ _ _ _ _ _ H) as [k [Hk [Hc Hmin]]].
    exists k. split; [lia|]. split; [assumption|].
    intros k' Hk'. destruct (Z.eq_dec k' k0) as [->|]; [assumption|]. apply Hmin. lia.
Qed.

Lemma shortest_none :
  forall fuel x num den n k0,
    shortest fuel x num den n k0 = None ->
    forall k, k0 <= k < k0 + Z.of_nat fuel -> candidate x num den n k = None.
Proof.
  induction fuel as [|fuel IH]; intros x num den n k0 H k Hk; [lia|].
  cbn [shortest] in H. destruct (candidate x num den n k0) eqn:E; [discriminate H|].
  destruct (Z.eq_dec k k0) as [->|]; [assumption|].
  apply (IH _ _ _ _ _ H). lia.
Qed.

Lemma strip_zeros_spec :
  forall fuel s t,
    1 <= s -> 0 <= t ->
    let '(s', t') := strip_zeros fuel s t in
    s' * 10 ^ t' = s * 10 ^ t /\ t <= t' /\ 1 <= s'.
Proof.
  induction fuel as [|fuel IH]; intros s t Hs Ht; cbn [strip_zeros]; [lia|].
  destruct ((s mod 10 =? 0) && negb (s =? 0)) eqn:E; [|lia].
  apply andb_true_iff in E. destruct E as [E _]. apply Z.eqb_eq in E.
  pose proof (Z.div_mod s 10 ltac:(lia)) as Hdm.
  specialize (IH (s / 10) (t + 1) ltac:(lia) ltac:(lia)).
  destruct (strip_zeros fuel (s / 10) (t + 1)) as [s' t'].
  destruct IH as [Hv [Hle Hs']]. rewrite Z.pow_add_r in Hv by lia.
  change (10 ^ 1) with 10 in Hv. split; [|lia].
  rewrite Hv. rewrite Hdm at 2. rewrite E. ring.
Qed.

Lemma digits_no_dot :
  forall s, all_chars is_digit s = true -> count_char "." s = 0.
Proof.
  induction s; simpl; intros H; [reflexivity|].
  apply andb_true_iff in H. destruct H as [Ha Hs].
  destruct (digit_facts a Ha) as [_ [_ [_ [_ [_ [_ [_ [_ [_ ->]]]]]]]]].
  rewrite IHs by assumption. reflexivity.
Qed.

Lemma zeros_no_dot : forall n, count_char "." (repeat_char "0" n) = 0.
Proof. induction n; simpl; [reflexivity|assumption]. Qed.

(** The layout of a whole number below [10^21]: its digits and zeros. *)
Lemma layout_integer :
  forall s t,
    1 <= s -> 0 <= t -> s * 10 ^ t < 10 ^ 21 ->
    count_char "." (layout s t) = 0.
Proof.
  intros s t Hs Ht Hlt. unfold layout.
  destruct (decimal_digits_spec s ltac:(lia)) as [Hall Hsome _ Hlow _].
  specialize (Hlow Hs).
  set (ds := decimal_digits s) in *.
  assert (Hk : 1 <= len ds).
  { destruct ds; [discriminate Hsome|]. rewrite len_String.
    pose proof (len_nonneg ds). lia. }
  assert (Hn : len ds + t <= 21).
  { assert (Hpow : 10 ^ (len ds - 1 + t) < 10 ^ 21).
    { rewrite Z.pow_add_r by lia.
      assert (0 < 10 ^ t) by (apply Z.pow_pos_nonneg; lia). nia. }
    apply Z.pow_lt_mono_r_iff in Hpow; lia. }
  replace ((len ds <=? len ds + t) && (len ds + t <=? 21)) with true
    by (symmetry; apply andb_true_iff; split; apply Z.leb_le; lia).
  rewrite count_char_append, digits_no_dot, zeros_no_dot by assumption. reflexivity.
Qed.

Lemma exact_nonneg_exponent :
  forall m e, 0 <= e -> exact m e = (Zpos m * 2 ^ e, 1).
Proof.
  intros m e He. unfold exact.
  replace (0 <=? e) with true by (symmetry; apply Z.leb_le; assumption). reflexivity.
Qed.

Lemma floor_scaled_integer :
  forall V den t,
    0 < den -> 0 <= t -> floor_scaled (V * den) den t = V / 10 ^ t.
Proof.
  intros V den t Hden Ht. unfold floor_scaled.
  replace (0 <=? t) with true by (symmetry; apply Z.leb_le; assumption).
  rewrite (Z.mul_comm den). apply Z.div_mul_cancel_r.
  - assert (0 < 10 ^ t) by (apply Z.pow_pos_nonneg; lia). lia.
  - lia.
Qed.

Lemma ten_pow_21 : of_ratio false (10 ^ 21) 1 = S754_finite false 7629394531250000 17.
Proof. vm_compute. reflexivity. Qed.

(** The shortest decimal of a whole number below [10^21] is a whole number
    of the same kind. *)
Lemma shortest_decimal_integer :
  forall m e V,
    bounded prec emax m e = true ->
    ulps m e = V * 2 ^ 1074 -> 1 <= V < 10 ^ 21 ->
    let '(s, t) := shortest_decimal m e in
    1 <= s /\ 0 <= t /\ s * 10 ^ t < 10 ^ 21.
Proof.
  intros m e V Hb Hu HV.
  pose proof (proj1 (bounded_spec m e) Hb) as [He [Hm Hn]].
  destruct (exact_integer m e V ltac:(lia) Hu) as [Hnum Hden].
  unfold shortest_decimal.
  pose proof (exact_nonneg_exponent m e) as Hex0.
  destruct (exact m e) as [num den] eqn:Eex. cbn [fst snd] in Hnum, Hden. subst num.
  assert (HD : decimal_exponent (V * den) den = len (decimal_digits V)).
  { unfold decimal_exponent.
    replace (den <=? V * den) with true by (symmetry; apply Z.leb_le; nia).
    rewrite Z.div_mul by lia. reflexivity. }
  rewrite HD.
  destruct (decimal_digits_spec V ltac:(lia)) as [_ Hsome _ Hlow Hhigh].
  specialize (Hlow ltac:(lia)).
  set (D := len (decimal_digits V)) in *.
  assert (HD1 : 1 <= D).
  { unfold D. destruct (decimal_digits V); [discriminate Hsome|]. rewrite len_String.
    pose proof (len_nonneg s). lia. }
  assert (HD21 : D <= 21).
  { assert (Hp : 10 ^ (D - 1) < 10 ^ 21) by lia.
    apply Z.pow_lt_mono_r_iff in Hp; lia. }
  set (x := S754_finite false m e).
  assert (Hexact : of_ratio false V 1 = x).
  { apply of_ratio_exact; [assumption | lia | rewrite Hu; ring]. }
  assert (HcD : candidate x (V * den) den D D <> None).
  { apply candidate_some. rewrite Z.sub_diag, floor_scaled_integer by lia.
    change (10 ^ 0) with 1. rewrite Z.div_1_r. unfold dec.
    change (0 <=? 0) with true. cbv iota. change (10 ^ 0) with 1.
    rewrite Z.mul_1_r, Hexact. apply same_refl. }
  assert (Hpre : let '(s, t) :=
                   match shortest 17 x (V * den) den D 1 with
                   | Some r => r
                   | None => if 0 <=? e then (V * den, 0) else (V * den * 5 ^ (- e), e)
                   end in
                 1 <= s /\ 0 <= t /\ s * 10 ^ t < 10 ^ 21).
  { destruct (shortest 17 x (V * den) den D 1) as [[s t]|] eqn:Es.
    - destruct (shortest_shape _ _ _ _ _ _ _ Es) as [k [Hk [Hc Hmin]]].
      destruct (candidate_shape _ _ _ _ _ _ _ Hc) as [Ht [Hs Hsame]].
      assert (HkD : k <= D).
      { destruct (Z_le_gt_dec k D); [assumption|]. exfalso. apply HcD. apply Hmin. lia. }
      assert (Ht0 : 0 <= t) by lia.
      rewrite floor_scaled_integer in Hs by lia.
      assert (Hpt : 0 < 10 ^ t) by (apply Z.pow_pos_nonneg; lia).
      assert (HDsplit : 10 ^ D = 10 ^ k * 10 ^ t).
      { rewrite <- Z.pow_add_r by lia. f_equal. lia. }
      assert (HD1split : 10 ^ (D - 1) = 10 ^ (k - 1) * 10 ^ t).
      { rewrite <- Z.pow_add_r by lia. f_equal. lia. }
      assert (Hpk1 : 0 < 10 ^ (k - 1)) by (apply Z.pow_pos_nonneg; lia).
      assert (Hlo1 : 1 <= V / 10 ^ t).
      { apply Z.div_le_lower_bound; [assumption|]. nia. }
      assert (Hlok : V / 10 ^ t < 10 ^ k).
      { apply Z.div_lt_upper_bound; [assumption|]. lia. }
      assert (H21 : 10 ^ D <= 10 ^ 21) by (apply Z.pow_le_mono_r; lia).
      assert (Hle : s * 10 ^ t <= 10 ^ 21) by (destruct Hs; subst s; nia).
      split; [destruct Hs; lia|]. split; [assumption|].
      destruct (Z.eq_dec (s * 10 ^ t) (10 ^ 21)) as [Heq|Hne]; [exfalso|lia].
      apply same_eq in Hsame. unfold dec in Hsame.
      replace (0 <=? t) with true in Hsame by (symmetry; apply Z.leb_le; assumption).
      rewrite Heq, ten_pow_21 in Hsame. unfold x in Hsame.
      assert (Hm' : m = 7629394531250000%positive) by congruence.
      assert (He' : e = 17) by congruence.
      rewrite Hm', He' in Hu.
      replace (ulps 7629394531250000 17) with (10 ^ 21 * 2 ^ 1074) in Hu
        by (vm_compute; reflexivity).
      apply Z.mul_reg_r in Hu; [lia|]. apply Z.pow_nonzero; lia.
    - assert (HD18 : 17 < D).
      { destruct (Z_le_gt_dec D 17); [|lia]. exfalso. apply HcD.
        apply (shortest_none _ _ _ _ _ _ Es). lia. }
      assert (Hpow : 10 ^ 17 <= 10 ^ (D - 1)) by (apply Z.pow_le_mono_r; lia).
      assert (He0 : 0 <= e).
      { destruct (Z_lt_le_dec e 0) as [Hneg|]; [exfalso|assumption].
        unfold exact in Eex.
        replace (0 <=? e) with false in Eex by (symmetry; apply Z.leb_gt; assumption).
        cbv iota in Eex. injection Eex as Hnum Hd.
        assert (0 < 2 ^ (- e)) by (apply Z.pow_pos_nonneg; lia).
        assert (V <= Zpos m) by nia.
        assert (2 ^ 53 < 10 ^ 17) by reflexivity. lia. }
      replace (0 <=? e) with true by (symmetry; apply Z.leb_le; assumption).
      injection (Hex0 He0) as Hnum Hd. subst den.
      change (10 ^ 0) with 1. lia. }
  destruct (match shortest 17 x (V * den) den D 1 with
            | Some r => r
            | None => if 0 <=? e then (V * den, 0) else (V * den * 5 ^ (- e), e)
            end) as [s t].
  destruct Hpre as [Hs [Ht Hlt]].
  pose proof (strip_zeros_spec (S (Z.to_nat (Z.log2 s))) s t Hs Ht) as Hstrip.
  destruct (strip_zeros (S (Z.to_nat (Z.log2 s))) s t) as [s' t'].
  destruct Hstrip as [Hv [Hle Hs']]. rewrite Hv. lia.
Qed.

(** [toString] of a canonical whole number below [10^21] has no dot. *)
Lemma toString_integer :
  forall sg m e V,
    bounded prec emax m e = true ->
    ulps m e = V * 2 ^ 1074 -> 1 <= V < 10 ^ 21 ->
    count_char "." (toString (S754_finite sg m e)) = 0.
Proof.
  intros sg m e V Hb Hu HV. unfold toString.
  pose proof (shortest_decimal_integer m e V Hb Hu HV) as H.
  destruct (shortest_decimal m e) as [s t]. destruct H as [Hs [Ht Hlt]].
  rewrite count_char_append, (layout_integer s t Hs Ht Hlt).
  destruct sg; reflexivity.
Qed.

(** ** Zero decimals, shown *)

Lemma ten_pow_21_literal : dec false 1 21 = S754_finite false 7629394531250000 17.
Proof. vm_compute. reflexivity. Qed.

(** Below [10^21] in the comparison of the numbers is below [10^21] in
    exact arithmetic. *)
Lemma below_ten_pow_21 :
  forall s m e,
    bounded prec emax m e = true ->
    lt (Math_abs (S754_finite s m e)) (dec false 1 21) = true ->
    fst (exact m e) < 10 ^ 21 * snd (exact m e).
Proof.
  intros s m e Hb Hlt. apply bounded_spec in Hb. destruct Hb as [He [Hm Hn]].
  rewrite ten_pow_21_literal in Hlt.
  unfold lt, Math_abs, SFabs, SFltb, SFcompare in Hlt.
  assert (Hcases : e < 17 \/ (e = 17 /\ Zpos m < 7629394531250000)).
  { destruct (Z.compare_spec e 17) as [Heq|Hl|Hg]; [right|left; assumption|discriminate Hlt].
    split; [assumption|].
    rewrite Pos.compare_cont_spec in Hlt.
    destruct (Pos.compare_spec m 7629394531250000) as [Hc|Hc|Hc];
      cbv in Hlt; try discriminate Hlt.
    exact (Pos2Z.pos_lt_pos _ _ Hc). }
  unfold exact. destruct (Z.leb_spec 0 e) as [Hpos|Hneg]; cbn [fst snd].
  - destruct Hcases as [Hl|[-> Hl]].
    + assert (2 ^ e <= 2 ^ 16) by (apply Z.pow_le_mono_r; lia).
      assert (0 < 2 ^ e) by (apply Z.pow_pos_nonneg; lia).
      assert (2 ^ 53 * 2 ^ 16 < 10 ^ 21) by reflexivity. nia.
    + assert (7629394531250000 * 2 ^ 17 = 10 ^ 21) by reflexivity. nia.
  - assert (0 < 2 ^ (- e)) by (apply Z.pow_pos_nonneg; lia).
    assert (2 ^ 53 < 10 ^ 21) by reflexivity. nia.
Qed.

(** [toFixed(0)] of a finite number below [10^21]: the sign and the digits
    of the nearest whole number. *)
Lemma toFixed_0_small :
  forall s m e,
    fst (exact m e) < 10 ^ 21 * snd (exact m e) ->
    toFixed (S754_finite s m e) 0
    = Ok (sign_text s
            ++ decimal_digits ((2 * fst (exact m e) + snd (exact m e))
                               / (2 * snd (exact m e)))).
Proof.
  intros s m e Hlt. unfold toFixed. change ((0 <? 0) || (100 <? 0)) with false.
  cbv iota. destruct (exact m e) as [num den]. cbn [fst snd] in *.
  replace (10 ^ 21 * den <=? num) with false by (symmetry; apply Z.leb_gt; assumption).
  unfold fixed_digits. change (0 =? 0) with true. cbv iota.
  change (10 ^ 0) with 1. rewrite Z.mul_1_r. reflexivity.
Qed.

(** The number [toFixed(0)] reads back as: a zero, or a canonical whole
    number below [10^21]. *)
Lemma round_to_integer :
  forall s m e,
    bounded prec emax m e = true ->
    fst (exact m e) < 10 ^ 21 * snd (exact m e) ->
    let n := (2 * fst (exact m e) + snd (exact m e)) / (2 * snd (exact m e)) in
    of_ratio s n 1 = S754_zero s
    \/ exists m' e',
        of_ratio s n 1 = S754_finite s m' e'
        /\ bounded prec emax m' e' = true
        /\ ulps m' e' = n * 2 ^ 1074 /\ 1 <= n < 10 ^ 21.
Proof.
  intros s m e Hb Hlt n.
  pose proof (proj1 (bounded_spec m e) Hb) as [He [Hm Hn]].
  unfold exact in *. destruct (Z.leb_spec 0 e) as [Hpos|Hneg]; cbn [fst snd] in *.
  - right. exists m, e.
    assert (Hpe : 0 < 2 ^ e) by (apply Z.pow_pos_nonneg; lia).
    assert (Hn' : n = Zpos m * 2 ^ e).
    { unfold n. replace (2 * (Zpos m * 2 ^ e) + 1) with (1 + (Zpos m * 2 ^ e) * (2 * 1)) by ring.
      rewrite Z.div_add by lia. reflexivity. }
    assert (Hu : ulps m e = n * 2 ^ 1074).
    { unfold ulps. rewrite Hn', Z.pow_add_r by lia. ring. }
    split; [|split; [assumption|split; [assumption|lia]]].
    apply of_ratio_exact; [assumption | lia | rewrite Hu; ring].
  - assert (Hpd : 2 <= 2 ^ (- e)).
    { change 2 with (2 ^ 1) at 1. apply Z.pow_le_mono_r; lia. }
    assert (Hn0 : 0 <= n) by (apply Z.div_pos; lia).
    assert (Hn53 : n <= 2 ^ 53).
    { apply Z.lt_succ_r. apply Z.div_lt_upper_bound; [lia|]. nia. }
    destruct (Z.eq_dec n 0) as [H0|H0].
    + left. rewrite H0. reflexivity.
    + right. destruct (of_ratio_integer s n ltac:(lia)) as [m' [e' [Hr [Hb' Hu']]]].
      exists m', e'. split; [assumption|]. split; [assumption|]. split; [assumption|].
      assert (2 ^ 53 < 10 ^ 21) by reflexivity. lia.
Qed.

(** When the rounded number prints without a dot and decimals are shown
    with zero places, the decimal separator ends the rendering. *)
Lemma assemble_no_fraction :
  forall rounded format,
    count_char "." (toString rounded) = 0 ->
    showDecimals format = true -> decimals format = 0 ->
    exists body, assemble rounded format = Ok (body ++ decimalSeparator format).
Proof.
  intros rounded format Hdot Hshow Hdec. unfold assemble.
  rewrite (split_absent _ _ Hdot), Hshow, Hdec.
  cbn [nth nth_error or_default truthy orb bind repeat0].
  change (repeat0 0) with (Ok EmptyString : result string). cbn [bind].
  change (padEnd0 EmptyString 0) with EmptyString.
  rewrite append_empty_r. eexists. reflexivity.
Qed.

(** C10 (as the code has it).  With [showDecimals] set and [decimals = 0],
    every finite value of magnitude below [10^21] renders with the decimal
    separator at the very end. *)
Theorem zero_decimals_dangling_separator :
  forall (value : number) (format : NumberFormat),
    valid value -> is_finite value = true ->
    lt (Math_abs value) (dec false 1 21) = true ->
    showDecimals format = true -> decimals format = 0 ->
    exists body, formatCustomNumber value format = Ok (body ++ decimalSeparator format).
Proof.
  intros value format Hvalid Hfin Hsmall Hshow Hdec.
  unfold formatCustomNumber, round_to_format. rewrite Hshow, Hdec.
  change ((0 <? 0) || true) with true. cbv iota.
  destruct value as [s|s| |s m e]; try discriminate Hfin.
  - change (toFixed (S754_zero s) 0) with (Ok "0" : result string). cbn [bind].
    apply assemble_no_fraction; [reflexivity | assumption | assumption].
  - unfold valid in Hvalid. cbn [valid_binary] in Hvalid.
    pose proof (below_ten_pow_21 s m e Hvalid Hsmall) as Hlt.
    rewrite (toFixed_0_small s m e Hlt). cbn [bind].
    set (n := (2 * fst (exact m e) + snd (exact m e)) / (2 * snd (exact m e))).
    assert (Hn0 : 0 <= n).
    { unfold n. pose proof (proj1 (bounded_spec m e) Hvalid) as [He _].
      unfold exact. destruct (Z.leb_spec 0 e); cbn [fst snd].
      - apply Z.div_pos; [|lia].
        assert (0 < 2 ^ e) by (apply Z.pow_pos_nonneg; lia). nia.
      - assert (0 < 2 ^ (- e)) by (apply Z.pow_pos_nonneg; lia).
        apply Z.div_pos; lia. }
    destruct (decimal_digits_spec n Hn0) as [Hall Hsome Hval _ _].
    rewrite (Number_signed_digits s _ Hall Hsome), Hval.
    unfold dec. change (0 <=? 0) with true. cbv iota.
    change (10 ^ 0) with 1. rewrite Z.mul_0_l, Z.add_0_l, Z.mul_1_r.
    destruct (round_to_integer s m e Hvalid Hlt) as [Hz|[m' [e' [Hr [Hb' [Hu' Hn']]]]]];
      fold n in Hz || fold n in Hr, Hu', Hn'.
    + rewrite Hz. apply assemble_no_fraction; [reflexivity | assumption | assumption].
    + rewrite Hr. apply assemble_no_fraction; [|assumption|assumption].
      apply (toString_integer s m' e' n Hb' Hu' Hn').
Qed.

Example five_renders_with_dangling_comma :
  formatCustomNumber (of_Z 5) dangling_format = Ok "5,".
Proof. vm_compute. reflexivity. Qed.

Lemma zero_decimals_dangling_separator_witness :
  exists body,
    formatCustomNumber (of_Z 5) dangling_format
    = Ok (body ++ decimalSeparator dangling_format).
Proof.
  apply (zero_decimals_dangling_separator (of_Z 5) dangling_format).
  - vm_compute. reflexivity.
  - vm_compute. reflexivity.
  - vm_compute. reflexivity.
  - reflexivity.
  - reflexivity.
Defined.

Lemma last_char_append :
  forall body c, last_char (body ++ String c EmptyString) = Some c.
Proof.
  induction body as [|a body IH]; intros c; [reflexivity|].
  cbn [append]. specialize (IH c).
  destruct (body ++ String c EmptyString) eqn:E.
  - destruct body; discriminate E.
  - cbn [last_char]. cbn [last_char] in IH. exact IH.
Qed.

(** C10 as stated fails: from [10^21] on, [toString] switches to the
    exponent notation, whose dot is taken for a decimal point; 1.5e21
    renders as ["1,5e+21"]. *)
Lemma huge_value_no_dangling_separator :
  ~ (forall (value : number) (format : NumberFormat),
       is_finite value = true ->
       showDecimals format = true -> decimals format = 0 ->
       exists body,
         formatCustomNumber value format = Ok (body ++ decimalSeparator format)).
Proof.
  intro H.
  destruct (H (dec false 15 20) dangling_format eq_refl eq_refl eq_refl) as [body Hb].
  assert (E : formatCustomNumber (dec false 15 20) dangling_format = Ok "1,5e+21")
    by (vm_compute; reflexivity).
  rewrite E in Hb. injection Hb as Hb.
  apply (f_equal last_char) in Hb.
  change (decimalSeparator dangling_format) with (String "," EmptyString) in Hb.
  rewrite last_char_append in Hb. discriminate Hb.
Qed.

(** ** Rounding: sign, scale, nearest *)

Lemma of_ratio_with_sign :
  forall sg p q, of_ratio sg p q = with_sign sg (of_ratio false p q).
Proof.
  intros sg p q. unfold of_ratio, finite_or_inf.
  destruct (p <=? 0); [reflexivity|]. cbv zeta.
  destruct (round_half_even _ _ =? 2 ^ 53).
  - destruct (971 <? _); [reflexivity|]. destruct (2 ^ 52); reflexivity.
  - destruct (971 <? _); [reflexivity|].
    destruct (round_half_even _ _); reflexivity.
Qed.

Lemma round_half_even_scale :
  forall c p q, 0 < c -> 0 < q -> round_half_even (c * p) (c * q) = round_half_even p q.
Proof.
  intros c p q Hc Hq. unfold round_half_even.
  rewrite Z.div_mul_cancel_l, Z.mul_mod_distr_l by lia.
  replace (2 * (c * (p mod q))) with (c * (2 * (p mod q))) by ring.
  rewrite <- Zmult_compare_compat_l by lia. reflexivity.
Qed.

Lemma ratio_exponent_scale :
  forall c p q,
    0 < c -> 0 < p -> 0 < q -> ratio_exponent (c * p) (c * q) = ratio_exponent p q.
Proof.
  intros c p q Hc Hp Hq.
  destruct (ratio_exponent_spec p q Hp Hq) as [HK [Hup Hdn]].
  set (K := ratio_exponent p q) in *.
  assert (HpK : 0 < 2 ^ K) by (apply Z.pow_pos_nonneg; lia).
  assert (H52 : 0 < 2 ^ 52) by (apply Z.pow_pos_nonneg; lia).
  assert (H53 : 0 < 2 ^ 53) by (apply Z.pow_pos_nonneg; lia).
  assert (Hup' : c * p < 2 ^ 53 * (c * q * 2 ^ K)).
  { replace (2 ^ 53 * (c * q * 2 ^ K)) with (c * (2 ^ 53 * (q * 2 ^ K))) by ring.
    apply Z.mul_lt_mono_pos_l; assumption. }
  assert (Hscale : 2 ^ 52 * (q * 2 ^ K) <= p -> 2 ^ 52 * (c * q * 2 ^ K) <= c * p).
  { intros H. replace (2 ^ 52 * (c * q * 2 ^ K)) with (c * (2 ^ 52 * (q * 2 ^ K))) by ring.
    apply Z.mul_le_mono_nonneg_l; lia. }
  destruct (ratio_exponent_unique (c * p) (c * q) K ltac:(nia) ltac:(nia) HK Hup')
    as [H1 H2].
  { destruct Hdn as [H0|Hdn]; [left; assumption|right; auto]. }
  destruct (Z_le_gt_dec (2 ^ 52 * (q * 2 ^ K)) p) as [Hle|Hgt].
  - apply H1. left. auto.
  - destruct Hdn as [H0|Hdn]; [|lia].
    rewrite H0 in *. rewrite Z.pow_0_r, Z.mul_1_r in Hgt.
    apply H2. replace (2 ^ 52 * (c * q)) with (c * (2 ^ 52 * q)) by ring.
    apply Z.mul_lt_mono_pos_l; lia.
Qed.

(** Rounding depends on the fraction only. *)
Lemma of_ratio_scale :
  forall sg c p q, 0 < c -> 0 < q -> of_ratio sg (c * p) (c * q) = of_ratio sg p q.
Proof.
  intros sg c p q Hc Hq. unfold of_ratio.
  destruct (Z.leb_spec p 0) as [Hp|Hp].
  - replace (c * p <=? 0) with true by (symmetry; apply Z.leb_le; nia). reflexivity.
  - replace (c * p <=? 0) with false by (symmetry; apply Z.leb_gt; nia).
    cbv zeta.
    assert (H1074 : 0 < 2 ^ 1074) by (apply Z.pow_pos_nonneg; lia).
    replace (c * p * 2 ^ 1074) with (c * (p * 2 ^ 1074)) by ring.
    rewrite ratio_exponent_scale by nia.
    set (K := ratio_exponent (p * 2 ^ 1074) q).
    replace (c * q * 2 ^ K) with (c * (q * 2 ^ K)) by ring.
    assert (0 <= K) by (apply ratio_exponent_spec; nia).
    assert (0 < 2 ^ K) by (apply Z.pow_pos_nonneg; lia).
    rewrite round_half_even_scale by nia. reflexivity.
Qed.

(** A rounding that neither vanishes nor overflows: the result is a
    canonical number, and no canonical number is nearer to [p / q]. *)
Lemma of_ratio_nearest :
  forall sg p q,
    0 < p -> 0 < q -> q <= p * 2 ^ 1074 -> p <= 2 ^ 1000 * q ->
    exists m e,
      of_ratio sg p q = S754_finite sg m e
      /\ bounded prec emax m e = true
      /\ forall m' e',
          bounded prec emax m' e' = true ->
          Z.abs (ulps m e * q - p * 2 ^ 1074) <= Z.abs (ulps m' e' * q - p * 2 ^ 1074).
Proof.
  intros sg p q Hp Hq Hlow Hhigh. unfold of_ratio.
  replace (p <=? 0) with false by (symmetry; apply Z.leb_gt; assumption). cbv zeta.
  assert (H1074 : 0 < 2 ^ 1074) by (apply Z.pow_pos_nonneg; lia).
  set (u := p * 2 ^ 1074) in *.
  assert (Hu : 0 < u) by (unfold u; nia).
  destruct (ratio_exponent_spec u q Hu Hq) as [HK [Hup Hdn]].
  set (K := ratio_exponent u q) in *.
  assert (HpK : 0 < 2 ^ K) by (apply Z.pow_pos_nonneg; lia).
  assert (HQ : 0 < q * 2 ^ K) by nia.
  set (M := round_half_even u (q * 2 ^ K)).
  assert (HM53 : M <= 2 ^ 53).
  { apply (round_half_even_bounds u (q * 2 ^ K) 0 (2 ^ 53)); lia. }
  assert (HM1 : 1 <= M /\ (K = 0 \/ 2 ^ 52 <= M)).
  { destruct Hdn as [H0|Hdn].
    - split; [|left; assumption].
      apply (round_half_even_bounds u (q * 2 ^ K) 1 (2 ^ 53)); try lia.
      rewrite H0, Z.pow_0_r. lia.
    - assert (2 ^ 52 <= M)
        by (apply (round_half_even_bounds u (q * 2 ^ K) (2 ^ 52) (2 ^ 53)); lia).
      assert (0 < 2 ^ 52) by (apply Z.pow_pos_nonneg; lia). split; [lia|right; assumption]. }
  assert (HK2022 : K <= 2022).
  { destruct Hdn as [H0|Hdn]; [lia|].
    destruct (Z_le_gt_dec K 2022) as [|Hbig]; [assumption|exfalso].
    assert (Hpow : 2 ^ 2023 <= 2 ^ K) by (apply Z.pow_le_mono_r; lia).
    assert (H2074 : 2 ^ 1000 * 2 ^ 1074 = 2 ^ 52 * 2 ^ 2022) by reflexivity.
    assert (H2023 : 2 ^ 2023 = 2 * 2 ^ 2022) by reflexivity.
    assert (0 < 2 ^ 2022) by (apply Z.pow_pos_nonneg; lia).
    assert (0 < 2 ^ 52) by (apply Z.pow_pos_nonneg; lia).
    assert (Hu2 : u <= 2 ^ 52 * 2 ^ 2022 * q) by (unfold u; nia).
    nia. }
  assert (Hnear : forall m' e',
             bounded prec emax m' e' = true ->
             Z.abs (M * 2 ^ K * q - u) <= Z.abs (ulps m' e' * q - u)).
  { intros m' e' Hb'. apply bounded_spec in Hb'. destruct Hb' as [He' [Hm' Hn']].
    unfold ulps. set (k' := e' + 1074).
    destruct (Z_le_gt_dec K k') as [Hle|Hgt].
    - replace (2 ^ k') with (2 ^ (k' - K) * 2 ^ K)
        by (rewrite <- Z.pow_add_r by lia; f_equal; lia).
      replace (M * 2 ^ K * q) with (M * (q * 2 ^ K)) by ring.
      replace (Zpos m' * (2 ^ (k' - K) * 2 ^ K) * q)
        with (Zpos m' * 2 ^ (k' - K) * (q * 2 ^ K)) by ring.
      apply round_half_even_nearest. assumption.
    - destruct Hdn as [H0|Hdn]; [lia|].
      assert (Hpk' : 0 < 2 ^ k') by (apply Z.pow_pos_nonneg; lia).
      assert (Hstep : 2 * 2 ^ k' <= 2 ^ K).
      { replace K with (k' + 1 + (K - k' - 1)) by lia.
        rewrite (pow2_split (k' + 1) (K - k' - 1)), (pow2_split k' 1) by lia.
        change (2 ^ 1) with 2.
        assert (0 < 2 ^ (K - k' - 1)) by (apply Z.pow_pos_nonneg; lia). nia. }
      assert (H5253 : 2 ^ 53 = 2 * 2 ^ 52) by reflexivity.
      assert (H52 : 0 < 2 ^ 52) by (apply Z.pow_pos_nonneg; lia).
      assert (Hbelow : Zpos m' * 2 ^ k' * q <= 2 ^ 52 * (q * 2 ^ K)).
      { replace (2 ^ 52 * (q * 2 ^ K)) with (2 ^ 52 * 2 ^ K * q) by ring.
        apply Z.mul_le_mono_nonneg_r; [lia|].
        apply Z.le_trans with (2 ^ 53 * 2 ^ k').
        - apply Z.mul_le_mono_nonneg_r; lia.
        - rewrite H5253. replace (2 * 2 ^ 52 * 2 ^ k') with (2 ^ 52 * (2 * 2 ^ k')) by ring.
          apply Z.mul_le_mono_nonneg_l; lia. }
      pose proof (round_half_even_nearest u (q * 2 ^ K) (2 ^ 52) HQ) as Hn52.
      fold M in Hn52.
      replace (M * 2 ^ K * q) with (M * (q * 2 ^ K)) by ring. lia. }
  destruct (Z.eqb_spec M (2 ^ 53)) as [Heq|Hne].
  - exists (Z.to_pos (2 ^ 52)), (K + 1 - 1074).
    unfold finite_or_inf.
    replace (971 <? K + 1 - 1074) with false by (symmetry; apply Z.ltb_ge; lia).
    split; [reflexivity|].
    assert (Hv : ulps (Z.to_pos (2 ^ 52)) (K + 1 - 1074) = M * 2 ^ K).
    { unfold ulps. replace (K + 1 - 1074 + 1074) with (K + 1) by lia.
      rewrite (pow2_split K 1), Heq by lia.
      change (Zpos (Z.to_pos (2 ^ 52))) with (2 ^ 52). change (2 ^ 1) with 2.
      change (2 ^ 53) with (2 ^ 52 * 2). ring. }
    split.
    + apply bounded_spec. split; [lia|]. split; [reflexivity|right; reflexivity].
    + intros m' e' Hb'. rewrite Hv. apply Hnear. assumption.
  - destruct HM1 as [HM1 HMn].
    assert (HMpos : Zpos (Z.to_pos M) = M) by (apply Z2Pos.id; lia).
    exists (Z.to_pos M), (K - 1074).
    unfold finite_or_inf.
    replace (971 <? K - 1074) with false by (symmetry; apply Z.ltb_ge; lia).
    split; [destruct M; try lia; reflexivity|].
    assert (Hv : ulps (Z.to_pos M) (K - 1074) = M * 2 ^ K).
    { unfold ulps. rewrite HMpos. f_equal. f_equal. lia. }
    split.
    + apply bounded_spec. rewrite HMpos. split; [lia|]. split; [lia|].
      destruct HMn as [H0|H52]; [left; lia|right; assumption].
    + intros m' e' Hb'. rewrite Hv. apply Hnear. assumption.
Qed.

(** ** Reading what [toFixed] and [toString] print *)

Lemma numeral_char_facts :
  forall c,
    numeral_char c = true ->
    not_space c = true
    /\ Ascii.eqb c "x" = false /\ Ascii.eqb c "X" = false /\ Ascii.eqb c "o" = false
    /\ Ascii.eqb c "O" = false /\ Ascii.eqb c "b" = false /\ Ascii.eqb c "B" = false.
Proof.
  intros c H. unfold numeral_char in H.
  destruct (is_digit c) eqn:Hd.
  - destruct (digit_facts c Hd) as [_ [_ [_ [-> [-> [-> [-> [-> [-> _]]]]]]]]].
    rewrite (is_digit_not_space c Hd). repeat split.
  - cbn [orb] in H.
    destruct (Ascii.eqb c ".") eqn:E1; [apply Ascii.eqb_eq in E1; subst; repeat split|].
    destruct (Ascii.eqb c "e") eqn:E2; [apply Ascii.eqb_eq in E2; subst; repeat split|].
    destruct (Ascii.eqb c "+") eqn:E3; [apply Ascii.eqb_eq in E3; subst; repeat split|].
    cbn [orb] in H. apply Ascii.eqb_eq in H. subst. repeat split.
Qed.

Lemma digits_numeral :
  forall s, all_chars is_digit s = true -> all_chars numeral_char s = true.
Proof.
  intros s. apply all_chars_impl. intros c H. unfold numeral_char. rewrite H. reflexivity.
Qed.

Lemma exponent_suffix_numeral :
  forall n, all_chars numeral_char (exponent_suffix n) = true.
Proof.
  intros n. unfold exponent_suffix. cbn [all_chars]. rewrite all_chars_append.
  destruct (decimal_digits_spec (Z.abs (n - 1)) ltac:(lia)) as [Hall _ _ _ _].
  rewrite (digits_numeral _ Hall). destruct (n - 1 <? 0); reflexivity.
Qed.

Lemma parse_exponent_suffix :
  forall n, parse_exponent (exponent_suffix n) = (n - 1, EmptyString).
Proof.
  intros n. unfold exponent_suffix, parse_exponent.
  change (Ascii.eqb "e" "e" || Ascii.eqb "e" "E") with true. cbv iota.
  destruct (decimal_digits_spec (Z.abs (n - 1)) ltac:(lia)) as [Hall Hsome Hval _ _].
  pose proof (span_digits_all _ EmptyString Hall I) as Hspan.
  rewrite append_empty_r in Hspan.
  destruct (Z.ltb_spec (n - 1) 0); cbn [append strip_sign];
    [change (Ascii.eqb "-" "-") with true
    |change (Ascii.eqb "+" "-") with false; change (Ascii.eqb "+" "+") with true];
    cbv iota; rewrite Hspan, Hsome, Hval; f_equal; lia.
Qed.

(** A printed number: digits, an optional fraction, an optional exponent. *)
Lemma numeral_parse :
  forall sg d1 f x,
    all_chars is_digit d1 = true -> truthy d1 = true ->
    all_chars is_digit (or_default f EmptyString) = true ->
    all_chars numeral_char (d1 ++ frac_text f ++ expo_text x) = true
    /\ parse_unsigned sg (d1 ++ frac_text f ++ expo_text x)
       = Some (dec sg (digits_value (d1 ++ or_default f EmptyString) 0)
                 (or_default (option_map (fun n => n - 1) x) 0
                  - len (or_default f EmptyString)),
               EmptyString).
Proof.
  intros sg d1 f x Hd1 Hsome Hd2. split.
  - rewrite !all_chars_append, (digits_numeral _ Hd1).
    destruct f as [d2|], x as [n|]; cbn [frac_text expo_text all_chars or_default] in *;
      rewrite ?exponent_suffix_numeral, ?(digits_numeral _ Hd2); reflexivity.
  - unfold parse_unsigned.
    assert (Hpre : has_prefix "Infinity" (d1 ++ frac_text f ++ expo_text x) = false).
    { destruct d1 as [|c d1]; [discriminate Hsome|]. cbn [append has_prefix].
      simpl in Hd1. apply andb_true_iff in Hd1. destruct Hd1 as [Hc _].
      destruct (digit_facts c Hc) as [_ [_ [-> _]]]. reflexivity. }
    rewrite Hpre.
    assert (Hexp : match expo_text x with
                   | String c _ => is_digit c = false /\ Ascii.eqb c "." = false
                   | EmptyString => True
                   end).
    { destruct x; [split; reflexivity | exact I]. }
    assert (Hpx : parse_exponent (expo_text x)
                  = (or_default (option_map (fun n => n - 1) x) 0, EmptyString)).
    { destruct x as [n|]; [apply parse_exponent_suffix | reflexivity]. }
    rewrite (span_digits_all d1 (frac_text f ++ expo_text x) Hd1).
    2: { destruct f; [reflexivity|]. cbn [frac_text append].
         destruct (expo_text x); [exact I | apply Hexp]. }
    destruct f as [d2|]; cbn [frac_text append after_char or_default] in *.
    + change (Ascii.eqb "." ".") with true. cbv iota.
      rewrite (span_digits_all d2 (expo_text x) Hd2).
      2: { destruct (expo_text x); [exact I | apply Hexp]. }
      rewrite (truthy_append d1 d2 Hsome). cbv beta iota.
      rewrite (truthy_append d1 d2 Hsome), Hpx. reflexivity.
    + rewrite append_empty_r.
      destruct (expo_text x) as [|c r] eqn:E.
      * cbn [after_char]. rewrite !append_empty_r, Hsome, Hpx. reflexivity.
      * cbn [after_char]. destruct Hexp as [_ ->].
        rewrite !append_empty_r, Hsome, Hpx. reflexivity.
Qed.

(** [Number] on a signed printed number. *)
Lemma Number_numeral :
  forall sg d1 f x,
    all_chars is_digit d1 = true -> truthy d1 = true ->
    all_chars is_digit (or_default f EmptyString) = true ->
    Number (sign_text sg ++ d1 ++ frac_text f ++ expo_text x)
    = dec sg (digits_value (d1 ++ or_default f EmptyString) 0)
          (or_default (option_map (fun n => n - 1) x) 0 - len (or_default f EmptyString)).
Proof.
  intros sg d1 f x Hd1 Hsome Hd2.
  destruct (numeral_parse sg d1 f x Hd1 Hsome Hd2) as [Hnum Hparse].
  set (T := d1 ++ frac_text f ++ expo_text x) in *.
  assert (HT : truthy T = true) by (apply truthy_append; assumption).
  assert (Hns : all_chars not_space (sign_text sg ++ T) = true).
  { rewrite all_chars_append. apply andb_true_iff. split; [destruct sg; reflexivity|].
    apply (all_chars_impl numeral_char); [|assumption].
    intros c Hc. apply numeral_char_facts. assumption. }
  rewrite (Number_no_space _ (truthy_signed sg T HT) Hns).
  assert (Hc : exists c T', T = String c T' /\ is_digit c = true).
  { unfold T. destruct d1 as [|c d1]; [discriminate Hsome|].
    exists c, (d1 ++ frac_text f ++ expo_text x). split; [reflexivity|].
    simpl in Hd1. apply andb_true_iff in Hd1. apply Hd1. }
  destruct Hc as [c [T' [HTeq Hc]]].
  assert (Hnd : parse_NonDecimal (sign_text sg ++ T) = None).
  { unfold parse_NonDecimal. rewrite HTeq.
    destruct sg; cbn [sign_text append after_char]; [reflexivity|].
    destruct (Ascii.eqb c "0"); [|reflexivity].
    destruct T' as [|d T'']; [reflexivity|].
    rewrite HTeq in Hnum. cbn [all_chars] in Hnum.
    apply andb_true_iff in Hnum. destruct Hnum as [_ Hnum].
    apply andb_true_iff in Hnum. destruct Hnum as [Hd _].
    destruct (numeral_char_facts d Hd) as [_ [-> [-> [-> [-> [-> ->]]]]]].
    reflexivity. }
  rewrite Hnd. rewrite HTeq at 1. rewrite (parse_signed sg c T' Hc), <- HTeq, Hparse.
  reflexivity.
Qed.

Lemma take_drop : forall n s, take n s ++ drop n s = s.
Proof. induction n; intros [|c s]; simpl; try reflexivity. rewrite IHn. reflexivity. Qed.

Lemma all_chars_take_drop :
  forall p n s,
    all_chars p s = true ->
    all_chars p (take n s) = true /\ all_chars p (drop n s) = true.
Proof.
  intros p n s H. rewrite <- (take_drop n s), all_chars_append in H.
  apply andb_true_iff in H. exact H.
Qed.

Lemma len_take :
  forall n s, Z.of_nat n <= len s -> len (take n s) = Z.of_nat n.
Proof.
  induction n; intros s H; [reflexivity|].
  destruct s as [|c s]; [unfold len in H; simpl in H; lia|].
  cbn [take]. rewrite !len_String in *. rewrite IHn; lia.
Qed.

Lemma len_drop :
  forall n s, Z.of_nat n <= len s -> len (drop n s) = len s - Z.of_nat n.
Proof.
  intros n s H. pose proof (len_take n s H) as Ht.
  pose proof (len_append (take n s) (drop n s)) as Ha.
  rewrite take_drop in Ha. lia.
Qed.

Lemma truthy_take :
  forall n s, truthy s = true -> truthy (take (S n) s) = true.
Proof. intros n [|c s] H; [discriminate H|reflexivity]. Qed.

Lemma truthy_len : forall s, truthy s = true -> 1 <= len s.
Proof.
  intros [|c s] H; [discriminate H|]. rewrite len_String. pose proof (len_nonneg s). lia.
Qed.

Lemma zeros_digits : forall n, all_chars is_digit (repeat_char "0" n) = true.
Proof. induction n; simpl; [reflexivity|assumption]. Qed.

Lemma digits_value_leading_zeros :
  forall n ds, digits_value (repeat_char "0" n ++ ds) 0 = digits_value ds 0.
Proof. induction n; intros ds; simpl; [reflexivity|apply IHn]. Qed.

Lemma digits_value_trailing_zeros :
  forall n ds acc,
    digits_value (ds ++ repeat_char "0" n) acc = digits_value ds acc * 10 ^ Z.of_nat n.
Proof.
  intros n ds acc. rewrite digits_value_append. generalize (digits_value ds acc).
  induction n; intros v.
  - simpl. lia.
  - cbn [repeat_char digits_value]. rewrite IHn, Nat2Z.inj_succ, Z.pow_succ_r by lia.
    change (digit_value "0") with 0. ring.
Qed.

Lemma dec_integer :
  forall sg s t, 0 <= t -> dec sg (s * 10 ^ t) 0 = dec sg s t.
Proof.
  intros sg s t Ht. unfold dec. change (0 <=? 0) with true.
  replace (0 <=? t) with true by (symmetry; apply Z.leb_le; assumption).
  cbv iota. change (10 ^ 0) with 1. rewrite Z.mul_1_r. reflexivity.
Qed.

(** Reading back the layout of a decimal gives the decimal. *)
Lemma Number_layout :
  forall sg s t, 1 <= s -> Number (sign_text sg ++ layout s t) = dec sg s t.
Proof.
  intros sg s t Hs. unfold layout.
  destruct (decimal_digits_spec s ltac:(lia)) as [Hall Hsome Hval _ _].
  set (ds := decimal_digits s) in *.
  pose proof (truthy_len ds Hsome) as Hk. pose proof (len_nonneg ds) as Hnn.
  assert (Hv : digits_value ds 0 = s) by (rewrite Hval; lia).
  assert (Hexp1 : Number (sign_text sg ++ ds ++ exponent_suffix (len ds + t))
                  = dec sg s (len ds + t - 1)).
  { pose proof (Number_numeral sg ds None (Some (len ds + t)) Hall Hsome eq_refl) as H.
    cbn [frac_text expo_text or_default option_map append] in H.
    rewrite append_empty_r in H. rewrite H, Hv.
    f_equal. change (len EmptyString) with 0. lia. }
  assert (Hexp : Number (sign_text sg ++ take 1 ds
                           ++ String "." (drop 1 ds) ++ exponent_suffix (len ds + t))
                 = dec sg s t).
  { destruct (all_chars_take_drop is_digit 1 ds Hall) as [Hta Hdr].
    pose proof (Number_numeral sg (take 1 ds) (Some (drop 1 ds)) (Some (len ds + t))
                  Hta (truthy_take 0 ds Hsome) Hdr) as H.
    cbn [frac_text expo_text or_default option_map append] in H. cbn [append].
    rewrite H, take_drop, Hv. f_equal. rewrite len_drop by (simpl; lia). simpl. lia. }
  destruct ((len ds <=? len ds + t) && (len ds + t <=? 21)) eqn:E1;
    [|destruct ((0 <? len ds + t) && (len ds + t <=? 21)) eqn:E2;
      [|destruct ((-6 <? len ds + t) && (len ds + t <=? 0)) eqn:E3;
        [|destruct (Z.eqb_spec (len ds) 1) as [E4|E4]]]].
  - (* digits and zeros *)
    apply andb_true_iff in E1. destruct E1 as [Ea Eb].
    apply Z.leb_le in Ea. apply Z.leb_le in Eb.
    pose proof (Number_numeral sg (ds ++ repeat_char "0" (Z.to_nat (len ds + t - len ds)))
                  None None) as H.
    cbn [frac_text expo_text or_default option_map] in H.
    rewrite !append_empty_r in H. rewrite H.
    + rewrite digits_value_trailing_zeros, Hv, Z2Nat.id by lia.
      change (0 - len EmptyString) with 0.
      replace (len ds + t - len ds) with t by lia. apply dec_integer. lia.
    + rewrite all_chars_append, Hall, zeros_digits. reflexivity.
    + apply truthy_append. assumption.
    + reflexivity.
  - (* a dot inside the digits *)
    apply andb_true_iff in E2. destruct E2 as [Ea Eb].
    apply Z.ltb_lt in Ea. apply Z.leb_le in Eb.
    apply andb_false_iff in E1.
    assert (Hlt : len ds + t < len ds) by (destruct E1 as [E1|E1]; apply Z.leb_gt in E1; lia).
    destruct (all_chars_take_drop is_digit (Z.to_nat (len ds + t)) ds Hall) as [Hta Hdr].
    assert (Htr : truthy (take (Z.to_nat (len ds + t)) ds) = true).
    { replace (Z.to_nat (len ds + t)) with (S (Z.to_nat (len ds + t - 1))) by lia.
      apply truthy_take. assumption. }
    pose proof (Number_numeral sg (take (Z.to_nat (len ds + t)) ds)
                  (Some (drop (Z.to_nat (len ds + t)) ds)) None Hta Htr Hdr) as H.
    cbn [frac_text expo_text or_default option_map append] in H.
    rewrite append_empty_r in H. rewrite H, take_drop, Hv. f_equal.
    rewrite len_drop by lia. lia.
  - (* zeros after the dot *)
    apply andb_true_iff in E3. destruct E3 as [Ea Eb].
    apply Z.ltb_lt in Ea. apply Z.leb_le in Eb.
    pose proof (Number_numeral sg "0"
                  (Some (repeat_char "0" (Z.to_nat (- (len ds + t))) ++ ds)) None
                  eq_refl eq_refl) as H.
    cbn [frac_text expo_text or_default option_map append] in H.
    rewrite append_empty_r in H. rewrite H.
    + change (String "0" (repeat_char "0" (Z.to_nat (- (len ds + t))) ++ ds))
        with (repeat_char "0" (S (Z.to_nat (- (len ds + t)))) ++ ds).
      rewrite digits_value_leading_zeros, Hv. f_equal.
      rewrite len_append, len_repeat_char. lia.
    + rewrite all_chars_append, zeros_digits, Hall. reflexivity.
  - (* one digit and the exponent *)
    rewrite Hexp1. f_equal. lia.
  - (* several digits and the exponent *)
    exact Hexp.
Qed.

(** Reading back what [toFixed] prints gives the multiple of [10^-f]. *)
Lemma Number_fixed :
  forall sg n f,
    0 <= n -> 0 <= f -> Number (sign_text sg ++ fixed_digits n f) = dec sg n (- f).
Proof.
  intros sg n f Hn Hf. unfold fixed_digits.
  destruct (decimal_digits_spec n Hn) as [Hall Hsome Hval _ _].
  set (ds := decimal_digits n) in *.
  assert (Hv : digits_value ds 0 = n) by (rewrite Hval; lia).
  pose proof (truthy_len ds Hsome) as Hk.
  destruct (Z.eqb_spec f 0) as [->|Hf0].
  - pose proof (Number_numeral sg ds None None Hall Hsome eq_refl) as H.
    cbn [frac_text expo_text or_default option_map append] in H.
    rewrite !append_empty_r in H. rewrite H, Hv. reflexivity.
  - set (m := repeat_char "0" (Z.to_nat (f + 1 - len ds)) ++ ds).
    assert (Hm : all_chars is_digit m = true).
    { unfold m. rewrite all_chars_append, zeros_digits, Hall. reflexivity. }
    assert (Hlen : f + 1 <= len m).
    { unfold m. rewrite len_append, len_repeat_char. lia. }
    destruct (all_chars_take_drop is_digit (Z.to_nat (len m - f)) m Hm) as [Hta Hdr].
    assert (Htr : truthy (take (Z.to_nat (len m - f)) m) = true).
    { replace (Z.to_nat (len m - f)) with (S (Z.to_nat (len m - f - 1))) by lia.
      apply truthy_take. unfold m. destruct (repeat_char _ _); [assumption|reflexivity]. }
    pose proof (Number_numeral sg (take (Z.to_nat (len m - f)) m)
                  (Some (drop (Z.to_nat (len m - f)) m)) None Hta Htr Hdr) as H.
    cbn [frac_text expo_text or_default option_map append] in H.
    rewrite append_empty_r in H. rewrite H, take_drop. unfold m at 1.
    rewrite digits_value_leading_zeros, Hv. f_equal.
    rewrite len_drop by lia. lia.
Qed.

(** ** [toString] reads back as the number *)

Lemma dec_with_sign : forall sg s t, dec sg s t = with_sign sg (dec false s t).
Proof. intros sg s t. unfold dec. destruct (0 <=? t); apply of_ratio_with_sign. Qed.

Lemma dec_zero : forall sg t, dec sg 0 t = S754_zero sg.
Proof.
  intros sg t. unfold dec. destruct (0 <=? t); [rewrite Z.mul_0_l|]; reflexivity.
Qed.

(** Dropping a trailing zero of the digits leaves the decimal unchanged. *)
Lemma dec_strip_zero :
  forall sg s t, s mod 10 = 0 -> dec sg (s / 10) (t + 1) = dec sg s t.
Proof.
  intros sg s t Hmod.
  assert (Hs : s = 10 * (s / 10)).
  { pose proof (Z.div_mod s 10 ltac:(lia)). lia. }
  unfold dec. destruct (Z.leb_spec 0 t) as [Ht|Ht].
  - replace (0 <=? t + 1) with true by (symmetry; apply Z.leb_le; lia).
    f_equal. rewrite Z.pow_add_r by lia. change (10 ^ 1) with 10.
    rewrite Hs at 2. ring.
  - destruct (Z.eq_dec t (-1)) as [->|Hne].
    + change (0 <=? -1 + 1) with true. cbv iota.
      change (10 ^ (-1 + 1)) with 1. change (10 ^ (- -1)) with (10 * 1).
      rewrite Hs at 2. rewrite Z.mul_1_r. rewrite of_ratio_scale by lia. reflexivity.
    + replace (0 <=? t + 1) with false by (symmetry; apply Z.leb_gt; lia).
      replace (10 ^ (- t)) with (10 * 10 ^ (- (t + 1))).
      * rewrite Hs at 2. rewrite of_ratio_scale; [reflexivity|lia|].
        apply Z.pow_pos_nonneg; lia.
      * replace (- t) with (1 + - (t + 1)) by lia.
        rewrite Z.pow_add_r by lia. reflexivity.
Qed.

Lemma strip_zeros_dec :
  forall sg fuel s t,
    1 <= s ->
    dec sg (fst (strip_zeros fuel s t)) (snd (strip_zeros fuel s t)) = dec sg s t
    /\ 1 <= fst (strip_zeros fuel s t).
Proof.
  intros sg. induction fuel as [|fuel IH]; intros s t Hs; cbn [strip_zeros].
  - split; [reflexivity|assumption].
  - destruct ((s mod 10 =? 0) && negb (s =? 0)) eqn:E; [|split; [reflexivity|assumption]].
    apply andb_true_iff in E. destruct E as [E _]. apply Z.eqb_eq in E.
    pose proof (Z.div_mod s 10 ltac:(lia)) as Hdm.
    destruct (IH (s / 10) (t + 1) ltac:(lia)) as [Hd Hpos].
    rewrite Hd, (dec_strip_zero sg s t E). split; [reflexivity|assumption].
Qed.

(** The exact decimal expansion of a canonical number. *)
Lemma exact_expansion :
  forall m e,
    bounded prec emax m e = true ->
    let '(s, t) := if 0 <=? e then (fst (exact m e), 0)
                   else (fst (exact m e) * 5 ^ (- e), e) in
    dec false s t = S754_finite false m e /\ 1 <= s.
Proof.
  intros m e Hb. pose proof (proj1 (bounded_spec m e) Hb) as [He [Hm Hn]].
  unfold exact. destruct (Z.leb_spec 0 e) as [Hpos|Hneg]; cbn [fst].
  - assert (0 < 2 ^ e) by (apply Z.pow_pos_nonneg; lia).
    split; [|nia].
    rewrite <- (dec_integer false _ 0) by lia. rewrite dec_integer by lia.
    unfold dec. change (0 <=? 0) with true. cbv iota. change (10 ^ 0) with 1.
    rewrite Z.mul_1_r. apply of_ratio_exact; [assumption|lia|].
    unfold ulps. rewrite Z.pow_add_r by lia. ring.
  - assert (H5 : 0 < 5 ^ (- e)) by (apply Z.pow_pos_nonneg; lia).
    split; [|nia].
    unfold dec. replace (0 <=? e) with false by (symmetry; apply Z.leb_gt; assumption).
    apply of_ratio_exact; [assumption|apply Z.pow_pos_nonneg; lia|].
    unfold ulps.
    replace (10 ^ (- e)) with (2 ^ (- e) * 5 ^ (- e))
      by (rewrite <- Z.pow_mul_l; reflexivity).
    replace (2 ^ 1074) with (2 ^ (e + 1074) * 2 ^ (- e))
      by (rewrite <- Z.pow_add_r by lia; f_equal; lia).
    ring.
Qed.

Lemma floor_scaled_nonneg :
  forall num den t, 0 <= num -> 0 < den -> 0 <= floor_scaled num den t.
Proof.
  intros num den t Hn Hd. unfold floor_scaled.
  destruct (Z.leb_spec 0 t).
  - apply Z.div_pos; [assumption|].
    assert (0 < 10 ^ t) by (apply Z.pow_pos_nonneg; lia). nia.
  - assert (0 < 10 ^ (- t)) by (apply Z.pow_pos_nonneg; lia).
    apply Z.div_pos; nia.
Qed.

Lemma exact_pos :
  forall m e, 0 < fst (exact m e) /\ 0 < snd (exact m e).
Proof.
  intros m e. unfold exact. destruct (Z.leb_spec 0 e); cbn [fst snd].
  - assert (0 < 2 ^ e) by (apply Z.pow_pos_nonneg; lia). split; nia.
  - split; [lia|apply Z.pow_pos_nonneg; lia].
Qed.

(** The shortest decimal of a canonical number denotes it. *)
Lemma shortest_decimal_denotes :
  forall m e,
    bounded prec emax m e = true ->
    dec false (fst (shortest_decimal m e)) (snd (shortest_decimal m e))
    = S754_finite false m e
    /\ 1 <= fst (shortest_decimal m e).
Proof.
  intros m e Hb. unfold shortest_decimal.
  pose proof (exact_expansion m e Hb) as Hexp.
  pose proof (exact_pos m e) as [Hnum Hden].
  destruct (exact m e) as [num den]. cbn [fst snd] in *.
  set (x := S754_finite false m e) in *.
  assert (Hpre : let '(s, t) :=
                   match shortest 17 x num den (decimal_exponent num den) 1 with
                   | Some r => r
                   | None => if 0 <=? e then (num, 0) else (num * 5 ^ (- e), e)
                   end in
                 dec false s t = x /\ 1 <= s).
  { destruct (shortest 17 x num den (decimal_exponent num den) 1) as [[s t]|] eqn:Es.
    - destruct (shortest_shape _ _ _ _ _ _ _ Es) as [k [_ [Hc _]]].
      destruct (candidate_shape _ _ _ _ _ _ _ Hc) as [_ [Hs Hsame]].
      apply same_eq in Hsame. split; [assumption|].
      pose proof (floor_scaled_nonneg num den t ltac:(lia) Hden) as Hfl.
      destruct (Z.eq_dec s 0) as [H0|H0]; [|destruct Hs; lia].
      rewrite H0, dec_zero in Hsame. discriminate Hsame.
    - exact Hexp. }
  destruct (match shortest 17 x num den (decimal_exponent num den) 1 with
            | Some r => r
            | None => if 0 <=? e then (num, 0) else (num * 5 ^ (- e), e)
            end) as [s t].
  destruct Hpre as [Hd Hs].
  destruct (strip_zeros_dec false (S (Z.to_nat (Z.log2 s))) s t Hs) as [Hd' Hs'].
  destruct (strip_zeros (S (Z.to_nat (Z.log2 s))) s t) as [s' t']. cbn [fst snd] in *.
  rewrite Hd'. split; assumption.
Qed.

(** [Number(x.toString())] is [x], for every canonical finite [x]. *)
Lemma Number_toString :
  forall sg m e,
    bounded prec emax m e = true ->
    Number (toString (S754_finite sg m e)) = S754_finite sg m e.
Proof.
  intros sg m e Hb. unfold toString.
  destruct (shortest_decimal_denotes m e Hb) as [Hd Hs].
  destruct (shortest_decimal m e) as [s t]. cbn [fst snd] in *.
  change (if sg then "-" else EmptyString) with (sign_text sg).
  rewrite (Number_layout sg s t Hs), dec_with_sign, Hd. reflexivity.
Qed.

(** ** Rounding twice *)

Lemma div_bounds :
  forall a b n, 0 < b -> (a / b = n <-> b * n <= a < b * (n + 1)).
Proof.
  intros a b n Hb. split.
  - intros <-. pose proof (Z.mul_div_le a b Hb).
    pose proof (Z.mul_succ_div_gt a b Hb). lia.
  - intros [Hlo Hhi]. symmetry. apply (Z.div_unique a b n (a - b * n)); lia.
Qed.

Lemma exact_ulps :
  forall m e,
    -1074 <= e ->
    fst (exact m e) * 2 ^ 1074 = ulps m e * snd (exact m e) /\ 0 < snd (exact m e).
Proof.
  intros m e He. unfold exact, ulps.
  destruct (Z.leb_spec 0 e) as [Hpos|Hneg]; cbn [fst snd].
  - rewrite Z.pow_add_r by lia. split; [ring|lia].
  - split; [|apply Z.pow_pos_nonneg; lia].
    rewrite <- Z.mul_assoc, <- Z.pow_add_r by lia.
    replace (e + 1074 + - e) with 1074 by lia. reflexivity.
Qed.

(** Rounding [num / den * q] half up, in units of [2^-1074]. *)
Lemma half_up_ulps :
  forall num den U q n,
    0 < den -> num * 2 ^ 1074 = U * den ->
    ((2 * num * q + den) / (2 * den) = n
     <-> n * 2 ^ 1074 - 2 ^ 1073 <= U * q < n * 2 ^ 1074 + 2 ^ 1073).
Proof.
  intros num den U q n Hden Hex.
  rewrite div_bounds by lia.
  assert (HP : 2 ^ 1074 = 2 * 2 ^ 1073) by reflexivity.
  rewrite HP in *. set (T := 2 ^ 1073) in *.
  assert (HT : 0 < T) by (apply Z.pow_pos_nonneg; lia).
  assert (Ha : T * (2 * num * q + den) = den * (U * q + T)).
  { transitivity (num * (2 * T) * q + T * den); [ring|]. rewrite Hex. ring. }
  assert (Hb : T * (2 * den * n) = den * (n * (2 * T))) by ring.
  assert (Hc : T * (2 * den * (n + 1)) = den * (n * (2 * T) + 2 * T)) by ring.
  rewrite (Z.mul_le_mono_pos_l (2 * den * n) _ T HT), Ha, Hb.
  rewrite (Z.mul_lt_mono_pos_l T _ (2 * den * (n + 1)) HT), Ha, Hc.
  rewrite <- (Z.mul_le_mono_pos_l _ _ den Hden).
  rewrite <- (Z.mul_lt_mono_pos_l den _ _ Hden).
  lia.
Qed.

Lemma dec_neg_exponent :
  forall sg n d, 0 <= d -> dec sg n (- d) = of_ratio sg n (10 ^ d).
Proof.
  intros sg n d Hd. unfold dec. destruct (Z.leb_spec 0 (- d)) as [H|H].
  - replace d with 0 by lia. change (- 0) with 0. change (10 ^ 0) with 1.
    rewrite Z.mul_1_r. reflexivity.
  - rewrite Z.opp_involutive. reflexivity.
Qed.

Lemma toFixed_range :
  forall x d str, toFixed x d = Ok str -> 0 <= d <= 100.
Proof.
  intros x d str H. unfold toFixed in H.
  destruct (Z.ltb_spec d 0); [discriminate H|].
  destruct (Z.ltb_spec 100 d); [discriminate H|]. lia.
Qed.

Lemma toFixed_finite :
  forall s m e d,
    0 <= d <= 100 ->
    toFixed (S754_finite s m e) d
    = Ok (if 10 ^ 21 * snd (exact m e) <=? fst (exact m e)
          then toString (S754_finite s m e)
          else sign_text s
               ++ fixed_digits ((2 * fst (exact m e) * 10 ^ d + snd (exact m e))
                                / (2 * snd (exact m e))) d).
Proof.
  intros s m e d Hd. unfold toFixed, toString.
  replace (d <? 0) with false by (symmetry; apply Z.ltb_ge; lia).
  replace (100 <? d) with false by (symmetry; apply Z.ltb_ge; lia).
  cbn [orb]. destruct (exact m e) as [num den]. cbn [fst snd].
  destruct (10 ^ 21 * den <=? num); [|reflexivity].
  destruct (shortest_decimal m e) as [ds t]. reflexivity.
Qed.

Lemma toFixed_not_finite :
  forall x d,
    0 <= d <= 100 -> is_finite x = false -> toFixed x d = Ok (toString x).
Proof.
  intros x d Hd Hx. unfold toFixed.
  replace (d <? 0) with false by (symmetry; apply Z.ltb_ge; lia).
  replace (100 <? d) with false by (symmetry; apply Z.ltb_ge; lia).
  cbn [orb]. destruct x; try discriminate Hx; reflexivity.
Qed.

Lemma toFixed_zero :
  forall s d, 0 <= d <= 100 -> toFixed (S754_zero s) d = Ok (fixed_digits 0 d).
Proof.
  intros s d Hd. unfold toFixed.
  replace (d <? 0) with false by (symmetry; apply Z.ltb_ge; lia).
  replace (100 <? d) with false by (symmetry; apply Z.ltb_ge; lia).
  reflexivity.
Qed.

Lemma Number_fixed_zero :
  forall d, 0 <= d -> Number (fixed_digits 0 d) = S754_zero false.
Proof.
  intros d Hd. pose proof (Number_fixed false 0 d ltac:(lia) Hd) as H.
  cbn [sign_text append] in H. rewrite H. apply dec_zero.
Qed.

Lemma two_pow_1074_mod_10 : forall c, 10 * c <> 2 ^ 1074.
Proof.
  intros c H. assert (Hm : (10 * c) mod 10 = 0).
  { rewrite Z.mul_comm. apply Z.mod_mul. lia. }
  rewrite H in Hm. vm_compute in Hm. discriminate Hm.
Qed.

(** A value halfway between two whole numbers is a small one. *)
Lemma half_integer_small :
  forall m e n,
    bounded prec emax m e = true ->
    ulps m e = (2 * n - 1) * 2 ^ 1073 -> n <= 2 ^ 52.
Proof.
  intros m e n Hb Hu. apply bounded_spec in Hb. destruct Hb as [He [Hm _]].
  unfold ulps in Hu.
  destruct (Z_lt_le_dec e 0) as [Hneg|Hpos].
  - assert (Hs : 2 ^ 1073 = 2 ^ (e + 1074) * 2 ^ (- 1 - e)).
    { rewrite <- Z.pow_add_r by lia. f_equal. lia. }
    rewrite Hs in Hu.
    assert (Hp : 0 < 2 ^ (e + 1074)) by (apply Z.pow_pos_nonneg; lia).
    assert (Hk : 0 < 2 ^ (- 1 - e)) by (apply Z.pow_pos_nonneg; lia).
    assert (Hm' : Zpos m = (2 * n - 1) * 2 ^ (- 1 - e)).
    { apply (Z.mul_cancel_r _ _ (2 ^ (e + 1074))); [lia|]. rewrite Hu. ring. }
    set (K := 2 ^ (- 1 - e)) in *.
    assert (Hn : 2 * n - 1 <= (2 * n - 1) * K).
    { destruct (Z_le_gt_dec (2 * n - 1) 0) as [Hle|Hgt]; [nia|].
      rewrite <- (Z.mul_1_r (2 * n - 1)) at 1.
      apply Z.mul_le_mono_nonneg_l; lia. }
    assert (H53 : 2 ^ 53 = 2 * 2 ^ 52) by reflexivity. lia.
  - exfalso.
    assert (Hs : 2 ^ (e + 1074) = 2 * 2 ^ e * 2 ^ 1073).
    { replace (e + 1074) with (1 + e + 1073) by lia.
      rewrite !Z.pow_add_r by lia. reflexivity. }
    rewrite Hs in Hu.
    assert (HT : 0 < 2 ^ 1073) by (apply Z.pow_pos_nonneg; lia).
    assert (Hodd : Zpos m * (2 * 2 ^ e) = 2 * n - 1).
    { apply (Z.mul_cancel_r _ _ (2 ^ 1073)); [lia|]. rewrite <- Hu. ring. }
    lia.
Qed.

(** [Number(x.toFixed(d))] is a fixed point of itself, up to the sign of a
    zero. *)
Lemma toFixed_idempotent :
  forall v d str,
    valid v -> toFixed v d = Ok str ->
    exists str',
      toFixed (Number str) d = Ok str'
      /\ (Number str' = Number str
          \/ exists s, Number str = S754_zero s /\ Number str' = S754_zero false).
Proof.
  intros v d str Hv Hfix. pose proof (toFixed_range _ _ _ Hfix) as Hd.
  assert (Hsame : Number str = v ->
                  exists str',
                    toFixed (Number str) d = Ok str'
                    /\ (Number str' = Number str
                        \/ exists s, Number str = S754_zero s
                                     /\ Number str' = S754_zero false)).
  { intros E. exists str. rewrite E at 1. split; [assumption|left; reflexivity]. }
  destruct v as [s|s| |s m e].
  - rewrite toFixed_zero in Hfix by assumption. injection Hfix as <-.
    rewrite Number_fixed_zero by lia.
    exists (fixed_digits 0 d). split; [apply toFixed_zero; assumption|].
    left. apply Number_fixed_zero. lia.
  - rewrite toFixed_not_finite in Hfix by (assumption || reflexivity).
    injection Hfix as <-. apply Hsame. destruct s; vm_compute; reflexivity.
  - rewrite toFixed_not_finite in Hfix by (assumption || reflexivity).
    injection Hfix as <-. apply Hsame. vm_compute. reflexivity.
  - assert (Hb : bounded prec emax m e = true) by exact Hv.
    pose proof (proj1 (bounded_spec m e) Hb) as [He _].
    rewrite toFixed_finite in Hfix by assumption.
    destruct (exact_ulps m e ltac:(lia)) as [Hex Hden].
    set (num := fst (exact m e)) in *. set (den := snd (exact m e)) in *.
    destruct (Z.leb_spec (10 ^ 21 * den) num) as [Hbig|Hsmall].
    { injection Hfix as <-. apply Hsame. apply Number_toString. assumption. }
    clear Hsame.
    set (q := 10 ^ d) in *.
    assert (Hq : 0 < q) by (apply Z.pow_pos_nonneg; lia).
    set (n := (2 * num * q + den) / (2 * den)) in *.
    assert (Es : sign_text s ++ fixed_digits n d = str)
      by (injection Hfix; intros E; exact E).
    rewrite <- Es. clear Hfix Es str.
    pose proof (proj1 (half_up_ulps num den (ulps m e) q n Hden Hex) eq_refl) as Hvn.
    assert (Hpos : 0 < Zpos m * 2 ^ (e + 1074)).
    { apply Z.mul_pos_pos; [lia|apply Z.pow_pos_nonneg; lia]. }
    assert (Hn0 : 0 <= n).
    { apply Z.div_pos; [|lia].
      assert (0 <= num) by (assert (0 < 2 ^ 1074) by (apply Z.pow_pos_nonneg; lia);
                            unfold ulps in Hex; nia).
      assert (0 <= num * q) by (apply Z.mul_nonneg_nonneg; lia). lia. }
    rewrite (Number_fixed s n d Hn0 ltac:(lia)).
    destruct (Z.eq_dec n 0) as [Hz|Hnz].
    { rewrite Hz, dec_zero. exists (fixed_digits 0 d).
      split; [apply toFixed_zero; assumption|].
      right. exists s. split; [reflexivity|apply Number_fixed_zero; lia]. }
    rewrite dec_neg_exponent by lia. fold q.
    assert (Hq100 : q <= 2 ^ 1074).
    { transitivity (10 ^ 100); [apply Z.pow_le_mono_r; lia|].
      apply Z.leb_le. vm_compute. reflexivity. }
    assert (Hnq : n <= 10 ^ 21 * q).
    { pose proof (proj1 (div_bounds (2 * num * q + den) (2 * den) n ltac:(lia)) eq_refl)
        as [Hlo _].
      assert (Hnumq : num * q <= (10 ^ 21 * den - 1) * q)
        by (apply Z.mul_le_mono_nonneg_r; lia).
      assert (Hlt : den * (2 * n) < den * (2 * (10 ^ 21 * q) + 1)) by lia.
      apply Z.mul_lt_mono_pos_l in Hlt; lia. }
    destruct (of_ratio_nearest s n q) as [m' [e' [Hr [Hb' Hnear]]]].
    { lia. }
    { assumption. }
    { assert (2 ^ 1074 <= n * 2 ^ 1074) by
        (rewrite <- (Z.mul_1_l (2 ^ 1074)) at 1;
         apply Z.mul_le_mono_nonneg_r; [apply Z.pow_nonneg|]; lia).
      lia. }
    { transitivity (10 ^ 21 * q); [assumption|].
      apply Z.mul_le_mono_nonneg_r; [lia|].
      apply Z.leb_le. vm_compute. reflexivity. }
    rewrite Hr.
    pose proof (proj1 (bounded_spec m' e') Hb') as [He' _].
    rewrite toFixed_finite by assumption.
    destruct (exact_ulps m' e' ltac:(lia)) as [Hex' Hden'].
    set (num' := fst (exact m' e')) in *. set (den' := snd (exact m' e')) in *.
    fold q. set (n2 := (2 * num' * q + den') / (2 * den')).
    destruct (Z.leb_spec (10 ^ 21 * den') num') as [Hbig'|Hsmall'].
    { eexists. split; [reflexivity|]. left. apply Number_toString. assumption. }
    exists (sign_text s ++ fixed_digits n2 d). split; [reflexivity|]. left.
    assert (Hn2 : n2 = n).
    { apply (half_up_ulps num' den' (ulps m' e') q n Hden' Hex').
      pose proof (Hnear m e Hb) as Hcmp.
      assert (HP : 2 ^ 1074 = 2 * 2 ^ 1073) by reflexivity.
      assert (Hle : n * 2 ^ 1074 - 2 ^ 1073 <= ulps m' e' * q <= n * 2 ^ 1074 + 2 ^ 1073)
        by lia.
      split; [lia|].
      destruct (Z.eq_dec (ulps m' e' * q) (n * 2 ^ 1074 + 2 ^ 1073)) as [Heq|Hne]; [|lia].
      exfalso.
      assert (Hveq : ulps m e * q = n * 2 ^ 1074 - 2 ^ 1073) by lia.
      assert (Hdiff : (ulps m' e' - ulps m e) * q = 2 ^ 1074) by lia.
      destruct (Z.eq_dec d 0) as [Hd0|Hd0].
      - assert (Hq1 : q = 1) by (unfold q; rewrite Hd0; reflexivity).
        rewrite Hq1, Z.mul_1_r in *.
        assert (Hn52 : n <= 2 ^ 52).
        { apply (half_integer_small m e n Hb). lia. }
        destruct (of_ratio_integer s n) as [m0 [e0 [Hr0 [_ Hu0]]]].
        { assert (H53 : 2 ^ 53 = 2 * 2 ^ 52) by reflexivity. lia. }
        rewrite Hr in Hr0. injection Hr0 as -> ->.
        assert (0 < 2 ^ 1073) by (apply Z.pow_pos_nonneg; lia). lia.
      - apply (two_pow_1074_mod_10 ((ulps m' e' - ulps m e) * 10 ^ (d - 1))).
        rewrite <- Hdiff. unfold q.
        replace d with (1 + (d - 1)) at 2 by lia.
        rewrite Z.pow_add_r by lia. change (10 ^ 1) with 10. ring. }
    rewrite Hn2, (Number_fixed s n d Hn0 ltac:(lia)), dec_neg_exponent by lia.
    fold q. assumption.
Qed.

(** [Math.round] of a whole number is the number. *)
Lemma Math_round_idempotent :
  forall v, valid v -> Math_round (Math_round v) = Math_round v.
Proof.
  intros v Hv. destruct v as [s|s| |s m e]; try reflexivity.
  assert (Hb : bounded prec emax m e = true) by exact Hv.
  pose proof (proj1 (bounded_spec m e) Hb) as [He [Hm _]].
  unfold Math_round at 2 3.
  destruct (Z.leb_spec 0 e) as [Hpos|Hneg].
  { unfold Math_round.
    replace (0 <=? e) with true by (symmetry; apply Z.leb_le; assumption).
    reflexivity. }
  cbv zeta.
  set (sm := if s then - Zpos m else Zpos m).
  set (n := (2 * sm + 2 ^ (- e)) / 2 ^ (1 - e)).
  destruct (Z.eqb_spec n 0) as [Hz|Hnz]; [reflexivity|].
  assert (HK : 2 ^ (1 - e) = 2 * 2 ^ (- e)).
  { replace (1 - e) with (1 + - e) by lia. rewrite Z.pow_add_r by lia. reflexivity. }
  assert (HK2 : 2 <= 2 ^ (- e)).
  { change 2 with (2 ^ 1) at 1. apply Z.pow_le_mono_r; lia. }
  pose proof (proj1 (div_bounds (2 * sm + 2 ^ (- e)) (2 ^ (1 - e)) n ltac:(lia)) eq_refl)
    as [Hlo Hhi].
  rewrite HK in Hlo, Hhi. set (K := 2 ^ (- e)) in *.
  assert (Hsm : - 2 ^ 53 < sm < 2 ^ 53) by (unfold sm; destruct s; lia).
  assert (H53 : 2 ^ 53 = 2 * 2 ^ 52) by reflexivity.
  assert (Hup : n <= 2 ^ 52).
  { destruct (Z_le_gt_dec n (2 ^ 52)) as [Hle|Hgt]; [assumption|exfalso].
    assert ((2 ^ 52 + 1) * (2 * K) <= n * (2 * K))
      by (apply Z.mul_le_mono_nonneg_r; lia).
    assert (2 ^ 52 * 2 <= 2 ^ 52 * K) by (apply Z.mul_le_mono_nonneg_l; lia).
    lia. }
  assert (Hdown : - 2 ^ 52 <= n).
  { destruct (Z_le_gt_dec (- 2 ^ 52) n) as [Hle|Hgt]; [assumption|exfalso].
    assert ((n + 1) * (2 * K) <= (- 2 ^ 52) * (2 * K))
      by (apply Z.mul_le_mono_nonneg_r; lia).
    assert (2 ^ 52 * 2 <= 2 ^ 52 * K) by (apply Z.mul_le_mono_nonneg_l; lia).
    lia. }
  unfold of_Z.
  destruct (of_ratio_integer (n <? 0) (Z.abs n)) as [m' [e' [Hr [Hb' Hu]]]]; [lia|].
  rewrite Hr. unfold Math_round.
  destruct (Z.leb_spec 0 e') as [Hpos'|Hneg']; [reflexivity|].
  pose proof (proj1 (bounded_spec m' e') Hb') as [He' _].
  unfold ulps in Hu.
  assert (Hs : 2 ^ 1074 = 2 ^ (- e') * 2 ^ (e' + 1074)).
  { rewrite <- Z.pow_add_r by lia. f_equal. lia. }
  rewrite Hs in Hu.
  assert (Hp : 0 < 2 ^ (e' + 1074)) by (apply Z.pow_pos_nonneg; lia).
  assert (Hm' : Zpos m' = Z.abs n * 2 ^ (- e')).
  { apply (Z.mul_cancel_r _ _ (2 ^ (e' + 1074))); [lia|]. rewrite Hu. ring. }
  assert (HK' : 2 ^ (1 - e') = 2 * 2 ^ (- e')).
  { replace (1 - e') with (1 + - e') by lia. rewrite Z.pow_add_r by lia. reflexivity. }
  assert (Hk : 0 < 2 ^ (- e')) by (apply Z.pow_pos_nonneg; lia).
  cbv zeta.
  assert (Hn' : (2 * (if n <? 0 then - Zpos m' else Zpos m') + 2 ^ (- e')) / 2 ^ (1 - e') = n).
  { apply div_bounds; [lia|]. rewrite HK', Hm'. set (K' := 2 ^ (- e')) in *.
    destruct (Z.ltb_spec n 0); [replace (Z.abs n) with (- n) by lia
                               |replace (Z.abs n) with n by lia]; lia. }
  rewrite Hn'.
  replace (n =? 0) with false by (symmetry; apply Z.eqb_neq; assumption).
  unfold of_Z. assumption.
Qed.

(** The sign of a zero does not show. *)
Lemma assemble_zero :
  forall s format, assemble (S754_zero s) format = assemble (S754_zero false) format.
Proof. intros s format. destruct s; reflexivity. Qed.

(** Rounding the rounded value gives it again, or a zero for a zero. *)
Lemma round_to_format_idempotent :
  forall v format r,
    valid v -> round_to_format v format = Ok r ->
    exists r',
      round_to_format r format = Ok r' /\ assemble r' format = assemble r format.
Proof.
  intros v format r Hv Hr. unfold round_to_format in *.
  destruct ((0 <? decimals format) || showDecimals format).
  - destruct (toFixed v (decimals format)) as [str|err] eqn:Efix; [|discriminate Hr].
    cbn [bind] in Hr. injection Hr as <-.
    destruct (toFixed_idempotent v _ str Hv Efix) as [str' [Efix' Hnum]].
    rewrite Efix'. cbn [bind]. eexists. split; [reflexivity|].
    destruct Hnum as [->|[s [-> ->]]]; [reflexivity|].
    symmetry. apply assemble_zero.
  - injection Hr as <-. eexists. split; [reflexivity|].
    rewrite Math_round_idempotent by assumption. reflexivity.
Qed.

Lemma formatCustomNumber_idempotent :
  forall v format r,
    valid v -> round_to_format v format = Ok r ->
    formatCustomNumber r format = formatCustomNumber v format.
Proof.
  intros v format r Hv Hr. unfold formatCustomNumber.
  destruct (round_to_format_idempotent v format r Hv Hr) as [r' [Hr' Has]].
  rewrite Hr, Hr'. cbn [bind]. assumption.
Qed.

(** ** Rendering the rounded value *)

(** C9 (as the code has it).  For every canonical value and every format
    under which the value can be rounded, [formatCustomNumber] renders the
    rounded value as it renders the value; so does [formatValue] under a
    format that does not abbreviate. *)
Theorem rendering_idempotent_on_rounding :
  forall (v : number) (config : Config) (r : number),
    valid v ->
    round_to_format v (numberFormat config) = Ok r ->
    formatCustomNumber r (numberFormat config)
    = formatCustomNumber v (numberFormat config)
    /\ (formatNumber config = true -> abbreviate (numberFormat config) = false ->
        formatValue r config = formatValue v config).
Proof.
  intros v config r Hv Hr.
  pose proof (formatCustomNumber_idempotent v (numberFormat config) r Hv Hr) as H.
  split; [assumption|].
  intros Hf Ha. unfold formatValue. rewrite Hf, Ha. cbn [negb]. assumption.
Qed.

Lemma rendering_idempotent_on_rounding_witness :
  formatCustomNumber (of_Z 1000) (numberFormat tenths_config)
  = formatCustomNumber (dec false 99996 (-2)) (numberFormat tenths_config)
  /\ (formatNumber tenths_config = true ->
      abbreviate (numberFormat tenths_config) = false ->
      formatValue (of_Z 1000) tenths_config
      = formatValue (dec false 99996 (-2)) tenths_config).
Proof.
  apply (rendering_idempotent_on_rounding (dec false 99996 (-2)) tenths_config (of_Z 1000)).
  - vm_compute. reflexivity.
  - vm_compute. reflexivity.
Defined.

Example rounding_crosses_the_thousand :
  round_to_format (dec false 99996 (-2)) abbreviating_format = Ok (of_Z 1000)
  /\ formatValue (dec false 99996 (-2)) abbreviating_config = Ok "1 000"
  /\ formatValue (of_Z 1000) abbreviating_config = Ok "1,0K".
Proof. repeat split; vm_compute; reflexivity. Qed.

(** C9 as stated fails: under an abbreviating format the rounding can carry
    a value over a threshold of [abbreviateNumber]; 999.96 renders as
    ["1 000"], its rounding to one place, 1000, as ["1,0K"]. *)
Lemma abbreviation_breaks_idempotence :
  ~ (forall (v : number) (config : Config) (r : number),
       valid v -> formatNumber config = true ->
       round_to_format v (numberFormat config) = Ok r ->
       formatValue r config = formatValue v config).
Proof.
  intro H.
  assert (Hv : valid (dec false 99996 (-2))) by (vm_compute; reflexivity).
  assert (Hr : round_to_format (dec false 99996 (-2)) (numberFormat abbreviating_config)
               = Ok (of_Z 1000)) by (vm_compute; reflexivity).
  specialize (H (dec false 99996 (-2)) abbreviating_config (of_Z 1000) Hv eq_refl Hr).
  assert (E1 : formatValue (of_Z 1000) abbreviating_config = Ok "1,0K")
    by (vm_compute; reflexivity).
  assert (E2 : formatValue (dec false 99996 (-2)) abbreviating_config = Ok "1 000")
    by (vm_compute; reflexivity).
  rewrite E1, E2 in H. discriminate H.
Qed.

(** * Further properties of the code *)

(** ** Errors of the rendering *)

Lemma toFixed_in_range :
  forall x d, 0 <= d <= 100 -> exists text, toFixed x d = Ok text.
Proof.
  intros x d Hd. destruct x as [s|s| |s m e].
  - rewrite toFixed_zero by assumption. eexists. reflexivity.
  - rewrite toFixed_not_finite by (assumption || reflexivity). eexists. reflexivity.
  - rewrite toFixed_not_finite by (assumption || reflexivity). eexists. reflexivity.
  - rewrite toFixed_finite by assumption. eexists. reflexivity.
Qed.

Lemma toFixed_out_of_range :
  forall x d, d < 0 \/ 100 < d -> toFixed x d = Throw RangeError.
Proof.
  intros x d Hd. unfold toFixed.
  replace ((d <? 0) || (100 <? d)) with true; [reflexivity|].
  symmetry. apply orb_true_iff.
  destruct Hd; [left; apply Z.ltb_lt | right; apply Z.ltb_lt]; assumption.
Qed.

Lemma assemble_in_range :
  forall rounded format,
    0 <= decimals format \/ showDecimals format = false ->
    exists text, assemble rounded format = Ok text.
Proof.
  intros rounded format H. unfold assemble.
  set (parts := split "." (toString rounded)).
  match goal with
  | |- context [if ?c then addThousandsSeparator ?a ?b else ?d] =>
      generalize (if c then addThousandsSeparator a b else d)
  end.
  intros integerPart.
  destruct (showDecimals format
            || (0 <? decimals format)
               && truthy (or_default (nth_error parts 1) EmptyString)) eqn:E;
    [|eexists; reflexivity].
  destruct (truthy (or_default (nth_error parts 1) EmptyString)) eqn:Et;
    [eexists; reflexivity|].
  rewrite andb_false_r, orb_false_r in E.
  destruct H as [H|H]; [|congruence].
  unfold repeat0. replace (decimals format <? 0) with false
    by (symmetry; apply Z.ltb_ge; assumption).
  eexists. reflexivity.
Qed.

Lemma formatCustomNumber_out_of_range :
  forall value format,
    100 < decimals format \/ (showDecimals format = true /\ decimals format < 0) ->
    formatCustomNumber value format = Throw RangeError.
Proof.
  intros value format. unfold formatCustomNumber, round_to_format.
  intros [H|[Hs H]].
  - replace (0 <? decimals format) with true by (symmetry; apply Z.ltb_lt; lia).
    cbn [orb]. rewrite toFixed_out_of_range by lia. reflexivity.
  - rewrite Hs, orb_true_r, toFixed_out_of_range by lia. reflexivity.
Qed.

Lemma formatCustomNumber_in_range :
  forall value format,
    ~ (100 < decimals format \/ (showDecimals format = true /\ decimals format < 0)) ->
    exists text, formatCustomNumber value format = Ok text.
Proof.
  intros value format H. unfold formatCustomNumber, round_to_format.
  destruct (Z.ltb_spec 0 (decimals format)) as [Hpos|Hneg]; cbn [orb].
  - destruct (toFixed_in_range value (decimals format) ltac:(lia)) as [text ->].
    cbn [bind]. apply assemble_in_range. lia.
  - destruct (showDecimals format) eqn:Hs.
    + assert (Hd : 0 <= decimals format).
      { destruct (Z_lt_le_dec (decimals format) 0); [exfalso; apply H; right; auto|lia]. }
      destruct (toFixed_in_range value (decimals format) ltac:(lia)) as [text ->].
      cbn [bind]. apply assemble_in_range. left. assumption.
    + cbn [bind]. apply assemble_in_range. right. assumption.
Qed.

(** X1.  [formatCustomNumber] fails only through [toFixed]: with a
    [RangeError] when [decimals] is above 100, or negative while
    [showDecimals] is set; under every other format every value is rendered,
    the non-finite ones included. *)
Theorem formatCustomNumber_errors :
  forall (value : number) (format : NumberFormat),
    (100 < decimals format \/ (showDecimals format = true /\ decimals format < 0) ->
     formatCustomNumber value format = Throw RangeError)
    /\ (~ (100 < decimals format \/ (showDecimals format = true /\ decimals format < 0)) ->
        exists text, formatCustomNumber value format = Ok text).
Proof.
  intros value format. split.
  - apply formatCustomNumber_out_of_range.
  - apply formatCustomNumber_in_range.
Qed.

Lemma abbreviate_by_missing :
  forall value format sign magnitude tier,
    abbreviations format = None ->
    abbreviate_by value format sign magnitude tier = Throw TypeError.
Proof.
  intros value format sign magnitude tier Hnone. unfold abbreviate_by.
  destruct (formatCustomNumber_in_range (div value (of_Z magnitude))
              (abbreviated_format format)) as [body ->].
  { cbn [abbreviated_format decimals showDecimals]. lia. }
  cbn [bind]. unfold abbreviation. rewrite Hnone. reflexivity.
Qed.

(** X2.  A format that abbreviates but carries no [abbreviations] object, as
    the [abbreviated] preset does, throws a [TypeError] on every value of
    magnitude 1000 or more; the number itself has been formatted by then. *)
Theorem abbreviateNumber_missing_abbreviations :
  forall (value : number) (format : NumberFormat),
    abbreviations format = None ->
    ge (Math_abs value) (of_Z 1000) = true ->
    abbreviateNumber value format = Throw TypeError.
Proof.
  intros value format Hnone Hge. unfold abbreviateNumber.
  rewrite Hge, !abbreviate_by_missing by assumption.
  destruct (ge (Math_abs value) (of_Z 1000000000000)); [reflexivity|].
  destruct (ge (Math_abs value) (of_Z 1000000000)); [reflexivity|].
  destruct (ge (Math_abs value) (of_Z 1000000)); reflexivity.
Qed.

Lemma abbreviateNumber_missing_abbreviations_witness :
  abbreviateNumber (of_Z 1500) (preset " " "," 1 false true) = Throw TypeError.
Proof.
  apply (abbreviateNumber_missing_abbreviations (of_Z 1500) (preset " " "," 1 false true)).
  - reflexivity.
  - vm_compute. reflexivity.
Defined.

Lemma preset_decimals :
  forall name format,
    lookup name getPresetFormats = Some format ->
    0 <= decimals format <= 2 /\ abbreviations format = None
    /\ (abbreviate format = true -> name = "abbreviated").
Proof.
  intros name format H. unfold getPresetFormats in H. cbn [lookup] in H.
  repeat match type of H with
         | (if String.eqb ?k name then _ else _) = _ =>
             destruct (String.eqb_spec k name) as [<-|_];
             [injection H as <-; cbn; repeat split; (lia || discriminate || reflexivity)|]
         end.
  discriminate H.
Qed.

(** X3.  Under a configuration whose number format is one of the presets,
    [formatValue] renders every value, except under the abbreviating preset,
    which throws a [TypeError] from magnitude 1000 on. *)
Theorem presets_render :
  forall (name : string) (config : Config) (value : number),
    lookup name getPresetFormats = Some (numberFormat config) ->
    formatNumber config = true ->
    (abbreviate (numberFormat config) = false ->
     exists text, formatValue value config = Ok text)
    /\ (abbreviate (numberFormat config) = true ->
        name = "abbreviated"
        /\ (ge (Math_abs value) (of_Z 1000) = true ->
            formatValue value config = Throw TypeError)).
Proof.
  intros name config value Hp Hf.
  destruct (preset_decimals name _ Hp) as [Hd [Hnone Hname]].
  unfold formatValue. rewrite Hf. cbn [negb]. split; intros Ha; rewrite Ha.
  - apply formatCustomNumber_in_range. lia.
  - split; [auto|]. intros Hge. unfold abbreviateNumber.
    rewrite Hge, !abbreviate_by_missing by assumption.
    destruct (ge (Math_abs value) (of_Z 1000000000000)); [reflexivity|].
    destruct (ge (Math_abs value) (of_Z 1000000000)); [reflexivity|].
    destruct (ge (Math_abs value) (of_Z 1000000)); reflexivity.
Qed.

Lemma presets_render_witness :
  exists text, formatValue (dec false 123456 (-2)) currency_ao_config = Ok text.
Proof.
  refine (proj1 (presets_render "currency-ao" currency_ao_config (dec false 123456 (-2))
                   _ _) _); reflexivity.
Defined.

(** ** Zero *)

(** X4.  A value that rounds to zero under the format, a negative one or
    [-0] included, is rendered exactly as [0] is: no minus sign is shown. *)
Theorem value_rounding_to_zero_renders_as_zero :
  forall (value : number) (format : NumberFormat) (s : bool),
    round_to_format value format = Ok (S754_zero s) ->
    formatCustomNumber value format = formatCustomNumber (S754_zero false) format.
Proof.
  intros value format s H. unfold formatCustomNumber. rewrite H. cbn [bind].
  assert (H0 : exists s', round_to_format (S754_zero false) format = Ok (S754_zero s')).
  { unfold round_to_format in *.
    destruct ((0 <? decimals format) || showDecimals format); [|exists false; reflexivity].
    destruct (toFixed value (decimals format)) as [text|err] eqn:E; [|discriminate H].
    pose proof (toFixed_range _ _ _ E) as Hd.
    rewrite toFixed_zero by assumption. cbn [bind].
    rewrite Number_fixed_zero by lia. exists false. reflexivity. }
  destruct H0 as [s' ->]. cbn [bind].
  rewrite (assemble_zero s), (assemble_zero s'). reflexivity.
Qed.

Lemma value_rounding_to_zero_renders_as_zero_witness :
  formatCustomNumber (dec true 4 (-3)) (preset " " "," 2 true false)
  = formatCustomNumber (S754_zero false) (preset " " "," 2 true false).
Proof.
  apply (value_rounding_to_zero_renders_as_zero
           (dec true 4 (-3)) (preset " " "," 2 true false) true).
  vm_compute. reflexivity.
Defined.

Example minus_four_thousandths :
  formatCustomNumber (dec true 4 (-3)) (preset " " "," 2 true false) = Ok "0,00".
Proof. vm_compute. reflexivity. Qed.

(** ** Thousands separators *)

Lemma remove_char_separator :
  forall c, remove_char c (String c EmptyString) = EmptyString.
Proof. intros c. unfold remove_char. cbn [filter_chars]. rewrite Ascii.eqb_refl. reflexivity. Qed.

Lemma GetSubstitution_plain :
  forall matched str position captures template,
    has_char is_dollar template = false ->
    GetSubstitution matched str position captures template = template.
Proof.
  intros matched str position captures.
  induction template as [|c rest IH]; intros H; [reflexivity|].
  cbn [has_char] in H. apply orb_false_iff in H. destruct H as [Hc Hrest].
  cbn [GetSubstitution]. unfold is_dollar in Hc. rewrite Hc. cbn [negb].
  rewrite IH by assumption. reflexivity.
Qed.

Lemma GetSubstitution_char :
  forall matched str position captures c,
    GetSubstitution matched str position captures (String c EmptyString)
    = String c EmptyString.
Proof.
  intros. cbn [GetSubstitution]. destruct (Ascii.eqb c "$") eqn:E; [|reflexivity].
  apply Ascii.eqb_eq in E. subst. reflexivity.
Qed.

(** A separator that stands for itself as a replacement is put in as it
    is. *)
Lemma insert_separators_literal :
  forall separator,
    (forall str position captures,
        GetSubstitution EmptyString str position captures separator = separator) ->
    forall str s position after_word,
      insert_separators separator str position after_word s
      = insert_literal separator after_word s.
Proof.
  intros separator Hsep str. induction s as [|c s IH]; intros position after_word;
    [reflexivity|].
  cbn [insert_separators insert_literal]. rewrite Hsep, IH. reflexivity.
Qed.

Lemma insert_separators_char :
  forall c str s position after_word,
    insert_separators (String c EmptyString) str position after_word s
    = insert_literal (String c EmptyString) after_word s.
Proof.
  intros c. apply insert_separators_literal. intros. apply GetSubstitution_char.
Qed.

Lemma insert_separators_plain :
  forall separator str s position after_word,
    has_char is_dollar separator = false ->
    insert_separators separator str position after_word s
    = insert_literal separator after_word s.
Proof.
  intros separator str s position after_word H.
  apply insert_separators_literal. intros. apply GetSubstitution_plain. assumption.
Qed.

Lemma remove_inserted :
  forall c s after_word,
    remove_char c (insert_literal (String c EmptyString) after_word s)
    = remove_char c s.
Proof.
  intros c. induction s as [|a s IH]; intros after_word; [reflexivity|].
  cbn [insert_literal]. rewrite remove_char_append.
  match goal with
  | |- context [if ?b then _ else _] => destruct b
  end; rewrite ?remove_char_separator; cbn [append];
    unfold remove_char in *; cbn [filter_chars]; rewrite IH; reflexivity.
Qed.

(** X5.  Taking the separator out of what [addThousandsSeparator] returns
    gives the text back, for a separator of one character that is not in the
    text: nothing but separators is added, and no character is lost. *)
Theorem addThousandsSeparator_removable :
  forall (numberString : string) (c : ascii),
    count_char c numberString = 0 ->
    remove_char c (addThousandsSeparator numberString (String c EmptyString))
    = numberString.
Proof.
  intros numberString c Hc. unfold addThousandsSeparator.
  destruct numberString as [|a rest]; [reflexivity|].
  cbn [startsWith slice1 drop].
  destruct (Ascii.eqb a "-") eqn:Ea.
  - apply Ascii.eqb_eq in Ea. subst a.
    cbn [count_char] in Hc. pose proof (count_char_nonneg c rest) as Hnn.
    destruct (Ascii.eqb "-" c) eqn:E; [lia|].
    unfold remove_char at 1. cbn [filter_chars]. rewrite E. cbn [negb].
    rewrite insert_separators_char.
    fold (remove_char c (insert_literal (String c EmptyString) false rest)).
    rewrite remove_inserted, remove_char_absent by lia. reflexivity.
  - rewrite insert_separators_char, remove_inserted. apply remove_char_absent. assumption.
Qed.

Lemma addThousandsSeparator_removable_witness :
  remove_char " " (addThousandsSeparator "-1234567" " ") = "-1234567".
Proof.
  apply (addThousandsSeparator_removable "-1234567" " "). reflexivity.
Defined.

Lemma is_digit_word : forall c, is_digit c = true -> is_word c = true.
Proof. intros c H. unfold is_word. rewrite H. reflexivity. Qed.

Lemma digit_run_append :
  forall ds rest,
    all_chars is_digit ds = true -> digit_run (ds ++ rest) = len ds + digit_run rest.
Proof.
  induction ds as [|c ds IH]; intros rest H; [reflexivity|].
  cbn [all_chars] in H. apply andb_true_iff in H. destruct H as [Hc Hds].
  cbn [append digit_run]. rewrite Hc, IH, len_String by assumption. lia.
Qed.

Lemma digit_run_digits :
  forall ds, all_chars is_digit ds = true -> digit_run ds = len ds.
Proof.
  intros ds H. rewrite <- (append_empty_r ds) at 1.
  rewrite digit_run_append by assumption. cbn [digit_run]. lia.
Qed.

Lemma insert_literal_append_three :
  forall separator d1 d2 d3 ds after_word,
    is_digit d1 = true -> is_digit d2 = true -> is_digit d3 = true ->
    all_chars is_digit ds = true -> truthy ds = true ->
    insert_literal separator after_word
      (ds ++ String d1 (String d2 (String d3 EmptyString)))
    = insert_literal separator after_word ds
        ++ separator ++ String d1 (String d2 (String d3 EmptyString)).
Proof.
  intros separator d1 d2 d3 ds after_word H1 H2 H3.
  set (ddd := String d1 (String d2 (String d3 EmptyString))).
  assert (Hddd : all_chars is_digit ddd = true).
  { unfold ddd. cbn [all_chars]. rewrite H1, H2, H3. reflexivity. }
  assert (Hlast : insert_literal separator true ddd = separator ++ ddd).
  { unfold ddd. cbn [insert_literal digit_run].
    rewrite H1, H2, H3, (is_digit_word d1 H1), (is_digit_word d2 H2), (is_digit_word d3 H3).
    reflexivity. }
  revert after_word.
  induction ds as [|c ds IH]; intros after_word Hall Hsome; [discriminate Hsome|].
  pose proof (digit_run_digits _ Hall) as Hrun.
  assert (Hrun' : digit_run (String c ds ++ ddd) = len (String c ds) + 3).
  { rewrite digit_run_append by assumption.
    rewrite (digit_run_digits ddd Hddd). reflexivity. }
  cbn [all_chars] in Hall. apply andb_true_iff in Hall. destruct Hall as [Hc Hds].
  cbn [append insert_literal]. cbn [append] in Hrun'. rewrite Hrun, Hrun'.
  pose proof (len_nonneg (String c ds)) as Hnn. rewrite len_String in *.
  pose proof (len_nonneg ds) as Hnn'.
  replace (0 <? 1 + len ds + 3) with true by (symmetry; apply Z.ltb_lt; lia).
  replace (0 <? 1 + len ds) with true by (symmetry; apply Z.ltb_lt; lia).
  replace ((1 + len ds + 3) mod 3) with ((1 + len ds) mod 3)
    by (symmetry; apply (Z_mod_plus_full (1 + len ds) 1 3)).
  rewrite (is_digit_word c Hc).
  set (here := (Bool.eqb after_word true && true) && ((1 + len ds) mod 3 =? 0)).
  rewrite append_assoc. f_equal. cbn [append]. f_equal.
  destruct ds as [|c' ds'].
  - cbn [append insert_literal]. exact Hlast.
  - apply IH; [assumption|reflexivity].
Qed.

Lemma insert_separators_digits_short :
  forall separator str position ds,
    all_chars is_digit ds = true -> len ds <= 2 ->
    insert_separators separator str position true ds = ds.
Proof.
  intros separator str position ds. revert position.
  induction ds as [|c ds IH]; intros position H Hlen; [reflexivity|].
  pose proof (digit_run_digits _ H) as Hrun.
  cbn [all_chars] in H. apply andb_true_iff in H. destruct H as [Hc Hds].
  rewrite len_String in Hlen. pose proof (len_nonneg ds) as Hnn.
  cbn [insert_separators]. rewrite Hrun, len_String, (is_digit_word c Hc).
  replace ((1 + len ds) mod 3 =? 0) with false.
  - rewrite andb_false_r. cbn [append]. rewrite IH by (assumption || lia). reflexivity.
  - symmetry. apply Z.eqb_neq.
    assert (Hcases : len ds = 0 \/ len ds = 1) by lia.
    destruct Hcases as [->| ->]; discriminate.
Qed.

(** X6.  On a run of digits [addThousandsSeparator] groups in threes from
    the right.  Whatever the separator is, up to three digits are left as
    they are and a leading minus sign stays in front.  For a separator
    without a dollar sign, which stands for itself as a replacement, three
    more digits at the end add one separator in front of them and change
    nothing before. *)
Theorem addThousandsSeparator_groups_of_three :
  forall (digits separator : string) (d1 d2 d3 : ascii),
    all_chars is_digit digits = true ->
    is_digit d1 = true -> is_digit d2 = true -> is_digit d3 = true ->
    (len digits <= 3 -> addThousandsSeparator digits separator = digits)
    /\ (truthy digits = true ->
        has_char is_dollar separator = false ->
        addThousandsSeparator
          (digits ++ String d1 (String d2 (String d3 EmptyString))) separator
        = addThousandsSeparator digits separator
            ++ separator ++ String d1 (String d2 (String d3 EmptyString)))
    /\ addThousandsSeparator (String "-" digits) separator
       = String "-" (addThousandsSeparator digits separator).
Proof.
  intros digits separator d1 d2 d3 Hall H1 H2 H3.
  assert (Hstart : forall rest, startsWith (digits ++ rest) "-" = false
                                \/ digits = EmptyString).
  { intros rest. destruct digits as [|c ds]; [right; reflexivity|left].
    cbn [all_chars] in Hall. apply andb_true_iff in Hall. destruct Hall as [Hc _].
    cbn [append startsWith]. apply (digit_facts c Hc). }
  assert (Hpos : startsWith digits "-" = false).
  { destruct (Hstart EmptyString) as [H| ->]; [|reflexivity].
    rewrite append_empty_r in H. assumption. }
  repeat split.
  - intros Hlen. unfold addThousandsSeparator. rewrite Hpos.
    destruct digits as [|c ds]; [reflexivity|].
    cbn [all_chars] in Hall. apply andb_true_iff in Hall. destruct Hall as [Hc Hds].
    rewrite len_String in Hlen.
    cbn [insert_separators]. rewrite (is_digit_word c Hc). cbn [Bool.eqb andb append].
    rewrite insert_separators_digits_short by (assumption || lia). reflexivity.
  - intros Hsome Hplain. unfold addThousandsSeparator. rewrite Hpos.
    destruct (Hstart (String d1 (String d2 (String d3 EmptyString)))) as [-> | ->];
      [|discriminate Hsome].
    rewrite !insert_separators_plain by assumption.
    apply insert_literal_append_three; assumption.
  - unfold addThousandsSeparator at 1. cbn [startsWith slice1 drop].
    change (Ascii.eqb "-" "-") with true. cbv iota.
    unfold addThousandsSeparator. rewrite Hpos. reflexivity.
Qed.

Lemma addThousandsSeparator_groups_of_three_witness :
  addThousandsSeparator ("1234" ++ "567") " "
  = addThousandsSeparator "1234" " " ++ " " ++ "567".
Proof.
  refine (proj1 (proj2 (addThousandsSeparator_groups_of_three "1234" " " "5" "6" "7"
                          _ _ _ _)) _ _); reflexivity.
Defined.

Example seven_digits_grouped :
  addThousandsSeparator "1234567" " " = "1 234 567".
Proof. reflexivity. Qed.

(** A dollar sign in the separator is read as [replace] reads it: [$&] is
    the empty match, [$1] the last three digits of the run, [$`] and [$']
    the digits before and after the place, and [$$] one dollar sign. *)
Example dollar_separators :
  addThousandsSeparator "1234567" "$&" = "1234567"
  /\ addThousandsSeparator "1234567" "$1" = "1567234567567"
  /\ addThousandsSeparator "1234567" "$`" = "112341234567"
  /\ addThousandsSeparator "1234567" "$'" = "1234567234567567"
  /\ addThousandsSeparator "1234567" "$$" = "1$234$567"
  /\ addThousandsSeparator "1234567" "$2$0$<$" = "1$2$0$<$234$2$0$<$567"
  /\ addThousandsSeparator "1234567" "$01$10" = "156756702345675670567".
Proof. repeat split; reflexivity. Qed.

(** ** Texts without digits *)

Lemma separator_or_minus_cases :
  forall c, separator_or_minus c = true -> c = "."%char \/ c = ","%char \/ c = "-"%char.
Proof.
  intros c H. unfold separator_or_minus, is_dot, is_comma in H.
  destruct (Ascii.eqb_spec c "."); [auto|].
  destruct (Ascii.eqb_spec c ","); [auto|].
  destruct (Ascii.eqb_spec c "-"); [auto|discriminate H].
Qed.

Lemma span_digits_separators :
  forall s, all_chars separator_or_minus s = true -> span_digits s = (EmptyString, s).
Proof.
  intros [|c r] H; [reflexivity|].
  cbn [all_chars] in H. apply andb_true_iff in H. destruct H as [Hc _].
  destruct (separator_or_minus_cases c Hc) as [->|[->| ->]]; reflexivity.
Qed.

Lemma parse_unsigned_separators :
  forall sg s, all_chars separator_or_minus s = true -> parse_unsigned sg s = None.
Proof.
  intros sg s H. unfold parse_unsigned.
  rewrite (span_digits_separators s H).
  destruct s as [|c r]; [reflexivity|].
  cbn [all_chars] in H. apply andb_true_iff in H. destruct H as [Hc Hr].
  destruct (separator_or_minus_cases c Hc) as [->|[->| ->]]; try reflexivity.
  cbn [has_prefix Ascii.eqb Bool.eqb andb after_char]. change (Ascii.eqb "." ".") with true.
  cbv iota. rewrite (span_digits_separators r Hr). reflexivity.
Qed.

(** [parseFloat] finds no number in a text of separators and minus signs. *)
Lemma parseFloat_separators :
  forall s, all_chars separator_or_minus s = true -> parseFloat s = NaN.
Proof.
  intros s H. unfold parseFloat.
  assert (Ht : trim_start s = s).
  { destruct s as [|c r]; [reflexivity|].
    cbn [all_chars] in H. apply andb_true_iff in H. destruct H as [Hc _].
    destruct (separator_or_minus_cases c Hc) as [->|[->| ->]]; reflexivity. }
  rewrite Ht. unfold parse_StrDecimalLiteral.
  destruct s as [|c r]; [reflexivity|].
  pose proof H as Hall.
  cbn [all_chars] in H. apply andb_true_iff in H. destruct H as [Hc Hr].
  destruct (separator_or_minus_cases c Hc) as [->|[->| ->]]; cbn [strip_sign];
    [change (Ascii.eqb "." "-") with false; change (Ascii.eqb "." "+") with false
    |change (Ascii.eqb "," "-") with false; change (Ascii.eqb "," "+") with false
    |change (Ascii.eqb "-" "-") with true];
    cbv iota; rewrite parse_unsigned_separators by assumption; reflexivity.
Qed.

Lemma all_chars_filter :
  forall p keep s, all_chars p s = true -> all_chars p (filter_chars keep s) = true.
Proof.
  intros p keep. induction s as [|c s IH]; intros H; [reflexivity|].
  cbn [all_chars] in H. apply andb_true_iff in H. destruct H as [Hc Hs].
  cbn [filter_chars]. destruct (keep c); cbn [all_chars]; rewrite ?Hc, IH; auto.
Qed.

Lemma all_chars_split :
  forall p c s i,
    all_chars p s = true -> all_chars p (nth i (split c s) EmptyString) = true.
Proof.
  intros p c. induction s as [|a s IH]; intros i H.
  - destruct i as [|[|i]]; reflexivity.
  - cbn [all_chars] in H. apply andb_true_iff in H. destruct H as [Ha Hs].
    cbn [split]. destruct (Ascii.eqb a c).
    + destruct i as [|i]; [reflexivity|]. cbn [nth]. apply IH. assumption.
    + pose proof (IH 0%nat Hs) as H0. pose proof (fun j => IH (S j) Hs) as Hn.
      destruct (split c s) as [|q qs].
      * destruct i as [|[|i]]; cbn [nth all_chars]; rewrite ?Ha; reflexivity.
      * destruct i as [|i]; cbn [nth all_chars] in *; [rewrite Ha, H0; reflexivity|].
        apply Hn.
Qed.

Lemma all_chars_substring :
  forall p s a b, all_chars p s = true -> all_chars p (substring s a b) = true.
Proof.
  intros p s a b H. unfold substring.
  apply all_chars_take_drop. apply all_chars_take_drop. assumption.
Qed.

Lemma all_chars_separators_dot :
  forall a b,
    all_chars separator_or_minus a = true -> all_chars separator_or_minus b = true ->
    all_chars separator_or_minus (a ++ String "." b) = true.
Proof.
  intros a b Ha Hb. rewrite all_chars_append, Ha. cbn [all_chars andb]. assumption.
Qed.

Lemma parseWithCommaSeparator_separators :
  forall s, all_chars separator_or_minus s = true -> parseWithCommaSeparator s = NaN.
Proof.
  intros s H. unfold parseWithCommaSeparator.
  pose proof (all_chars_split _ "," s 0 H) as H0.
  pose proof (all_chars_split _ "," s 1 H) as H1.
  assert (Hdot := all_chars_separators_dot _ _ H0 H1).
  assert (Hcat : all_chars separator_or_minus
                   (nth 0 (split "," s) EmptyString ++ nth 1 (split "," s) EmptyString)
                 = true) by (rewrite all_chars_append, H0, H1; reflexivity).
  assert (Hrem : all_chars separator_or_minus (remove_char "," s) = true)
    by (apply all_chars_filter; assumption).
  destruct (count_char "," s =? 1); [|apply parseFloat_separators; assumption].
  repeat match goal with
         | |- context [if ?b then _ else _] => destruct b
         end; apply parseFloat_separators; assumption.
Qed.

Lemma parseWithDotSeparator_separators :
  forall s, all_chars separator_or_minus s = true -> parseWithDotSeparator s = NaN.
Proof.
  intros s H. unfold parseWithDotSeparator.
  pose proof (all_chars_split _ "." s 0 H) as H0.
  pose proof (all_chars_split _ "." s 1 H) as H1.
  assert (Hcat : all_chars separator_or_minus
                   (nth 0 (split "." s) EmptyString ++ nth 1 (split "." s) EmptyString)
                 = true) by (rewrite all_chars_append, H0, H1; reflexivity).
  assert (Hrem : all_chars separator_or_minus (remove_char "." s) = true)
    by (apply all_chars_filter; assumption).
  assert (Hlast : all_chars separator_or_minus
                    (remove_char "." (substring s 0 (lastIndexOf "." s))
                       ++ String "." (substring_from s (lastIndexOf "." s + 1))) = true).
  { apply all_chars_separators_dot.
    - apply all_chars_filter, all_chars_substring. assumption.
    - apply all_chars_substring. assumption. }
  repeat match goal with
         | |- context [if ?b then _ else _] => destruct b
         end; apply parseFloat_separators; assumption.
Qed.

Lemma parseWithMixedSeparators_separators :
  forall s, all_chars separator_or_minus s = true -> parseWithMixedSeparators s = NaN.
Proof.
  intros s H. unfold parseWithMixedSeparators.
  destruct (lastIndexOf "." s <? lastIndexOf "," s);
    apply parseFloat_separators, all_chars_separators_dot;
    try (apply all_chars_filter); apply all_chars_substring; assumption.
Qed.

Lemma strip_non_numeric_separators :
  forall text,
    has_char is_digit text = false ->
    all_chars separator_or_minus (strip_non_numeric text) = true.
Proof.
  unfold strip_non_numeric. induction text as [|c s IH]; intros H; [reflexivity|].
  cbn [has_char] in H. apply orb_false_iff in H. destruct H as [Hc Hs].
  cbn [filter_chars]. rewrite Hc. cbn [orb].
  destruct (is_dot c || is_comma c || Ascii.eqb c "-") eqn:E; [|apply IH; assumption].
  cbn [all_chars]. unfold separator_or_minus at 1. rewrite E. apply IH. assumption.
Qed.

Lemma has_char_strip_non_numeric :
  forall text,
    has_char (fun c => is_dot c || is_comma c) (strip_non_numeric text)
    = has_char (fun c => is_dot c || is_comma c) text.
Proof.
  unfold strip_non_numeric. induction text as [|c s IH]; [reflexivity|].
  cbn [filter_chars has_char].
  destruct (is_digit c || is_dot c || is_comma c || Ascii.eqb c "-") eqn:E.
  - cbn [has_char]. rewrite IH. reflexivity.
  - rewrite IH. apply orb_false_iff in E. destruct E as [E _].
    apply orb_false_iff in E. destruct E as [E Ec].
    apply orb_false_iff in E. destruct E as [_ Ed].
    rewrite Ed, Ec. reflexivity.
Qed.

Lemma separator_counts :
  forall s,
    has_char (fun c => is_dot c || is_comma c) s = true ->
    0 < count_char "," s \/ 0 < count_char "." s.
Proof.
  induction s as [|c s IH]; intros H; [discriminate H|].
  cbn [has_char] in H. cbn [count_char].
  pose proof (count_char_nonneg "," s). pose proof (count_char_nonneg "." s).
  unfold is_dot, is_comma in H.
  destruct (Ascii.eqb c "."); [right; lia|].
  destruct (Ascii.eqb c ","); [left; lia|].
  cbn [orb] in H. destruct (IH H); [left|right]; lia.
Qed.

Lemma smartNumberDetection_digitless :
  forall text,
    has_char is_digit text = false ->
    smartNumberDetection text
    = if has_char (fun c => is_dot c || is_comma c) text then NaN else S754_zero false.
Proof.
  intros text H. pose proof (strip_non_numeric_separators text H) as Hsep.
  destruct (has_char (fun c => is_dot c || is_comma c) text) eqn:E.
  - rewrite <- has_char_strip_non_numeric in E.
    pose proof (count_char_nonneg "," (strip_non_numeric text)) as Hc.
    pose proof (count_char_nonneg "." (strip_non_numeric text)) as Hd.
    destruct (Z.eq_dec (count_char "," (strip_non_numeric text)) 0) as [Hc0|Hc0];
      destruct (Z.eq_dec (count_char "." (strip_non_numeric text)) 0) as [Hd0|Hd0].
    + destruct (separator_counts _ E); lia.
    + rewrite detection_dispatch_dot by lia.
      apply parseWithDotSeparator_separators. assumption.
    + rewrite detection_dispatch_comma by lia.
      apply parseWithCommaSeparator_separators. assumption.
    + rewrite detection_dispatch_mixed by lia.
      apply parseWithMixedSeparators_separators. assumption.
  - unfold smartNumberDetection. cbv zeta.
    rewrite has_char_strip_non_numeric, E. cbn [negb].
    rewrite parseFloat_separators by assumption. reflexivity.
Qed.

Lemma has_char_trim_start :
  forall p s, has_char p s = false -> has_char p (trim_start s) = false.
Proof.
  intros p. induction s as [|c s IH]; intros H; [reflexivity|].
  cbn [trim_start]. destruct (is_space c); [|assumption].
  apply IH. cbn [has_char] in H. apply orb_false_iff in H. apply H.
Qed.

Lemma has_char_trim_end :
  forall p s, has_char p s = false -> has_char p (trim_end s) = false.
Proof.
  intros p. induction s as [|c s IH]; intros H; [reflexivity|].
  cbn [has_char] in H. apply orb_false_iff in H. destruct H as [Hc Hs].
  specialize (IH Hs). cbn [trim_end].
  destruct (trim_end s) as [|a t].
  - destruct (is_space c); [reflexivity|]. cbn [has_char]. rewrite Hc. reflexivity.
  - cbn [has_char] in *. rewrite Hc, IH. reflexivity.
Qed.

Lemma has_char_trim :
  forall p s, has_char p s = false -> has_char p (trim s) = false.
Proof. intros p s H. apply has_char_trim_end, has_char_trim_start, H. Qed.

Lemma has_char_after_trim_start :
  forall p s,
    (forall c, is_space c = true -> p c = false) ->
    has_char p (trim_start s) = has_char p s.
Proof.
  intros p s Hp. induction s as [|c s IH]; [reflexivity|].
  cbn [trim_start has_char]. destruct (is_space c) eqn:E; [|reflexivity].
  rewrite (Hp c E), IH. reflexivity.
Qed.

Lemma has_char_after_trim_end :
  forall p s,
    (forall c, is_space c = true -> p c = false) ->
    has_char p (trim_end s) = has_char p s.
Proof.
  intros p s Hp. induction s as [|c s IH]; [reflexivity|].
  cbn [trim_end has_char]. rewrite <- IH.
  destruct (trim_end s) as [|a t].
  - destruct (is_space c) eqn:E; cbn [has_char]; [rewrite (Hp c E)|]; reflexivity.
  - reflexivity.
Qed.

(** X7.  Under the automatic detection a text without a digit is read as 0
    only when it has no comma and no period; with one, as in
    ["Hello, world"], it is read as [NaN], which the fallback [|| 0] of the
    first branch of [smartNumberDetection] does not cover. *)
Theorem digitless_text_detection :
  forall (format : NumberFormat) (text : string),
    inputDecimalSeparator format = Some "auto" ->
    smartDetection format = true ->
    has_char is_digit text = false ->
    extractNumber format text
    = if has_char (fun c => is_dot c || is_comma c) text then NaN else S754_zero false.
Proof.
  intros format text Hauto Hsmart Hd. unfold extractNumber. rewrite Hauto, Hsmart.
  change (String.eqb "auto" "auto") with true. cbn [negb].
  rewrite smartNumberDetection_digitless by (apply has_char_trim; assumption).
  unfold trim. rewrite has_char_after_trim_end, has_char_after_trim_start; [reflexivity| |];
    intros c Hc; unfold is_dot, is_comma;
    destruct (Ascii.eqb_spec c "."); try (subst; discriminate Hc);
    destruct (Ascii.eqb_spec c ","); try (subst; discriminate Hc); reflexivity.
Qed.

Lemma digitless_text_detection_witness :
  extractNumber (numberFormat defaults) "Hello, world"
  = if has_char (fun c => is_dot c || is_comma c) "Hello, world"
    then NaN else S754_zero false.
Proof.
  apply (digitless_text_detection (numberFormat defaults) "Hello, world"); reflexivity.
Defined.

Example hello_world_is_not_a_number :
  extractNumber (numberFormat defaults) "Hello, world" = NaN
  /\ extractNumber (numberFormat defaults) "Hello world" = S754_zero false.
Proof. split; vm_compute; reflexivity. Qed.

(** ** Parsing under a declared or a missing decimal separator *)

Lemma count_char_has_char :
  forall c s, count_char c s = 0 <-> has_char (fun a => Ascii.eqb a c) s = false.
Proof.
  intros c. induction s as [|a s IH]; [split; reflexivity|].
  cbn [count_char has_char]. pose proof (count_char_nonneg c s).
  destruct (Ascii.eqb a c); cbn [orb]; [split; [lia|discriminate]|].
  rewrite <- IH. split; lia.
Qed.

Lemma lastIndexOf_string_from_absent :
  forall c needle s i found,
    count_char c s = 0 ->
    lastIndexOf_string_from (String c needle) s i found = found.
Proof.
  intros c needle. induction s as [|a s IH]; intros i found H; [reflexivity|].
  cbn [count_char] in H. pose proof (count_char_nonneg c s).
  cbn [lastIndexOf_string_from has_prefix].
  destruct (Ascii.eqb_spec a c) as [->|Hne]; [lia|].
  replace (Ascii.eqb c a) with false
    by (symmetry; apply Ascii.eqb_neq; congruence).
  cbn [andb]. apply IH. lia.
Qed.

(** X8.  A number format without [inputDecimalSeparator], such as every
    preset, is taken for a declared one: the text is searched for the word
    [undefined], and when that is absent every comma is dropped and the
    period is the decimal point, whatever separators the format has. *)
Theorem extractNumber_missing_inputDecimalSeparator :
  forall (format : NumberFormat) (text : string),
    inputDecimalSeparator format = None ->
    count_char "u" text = 0 ->
    extractNumber format text = parseFloat (remove_char "," (trim text)).
Proof.
  intros format text Hnone Hu. unfold extractNumber. rewrite Hnone. cbn [negb].
  unfold parseNumberWithKnownFormat. cbn [or_default].
  rewrite lastIndexOf_string_from_absent; [reflexivity|].
  apply count_char_has_char, has_char_trim, count_char_has_char. assumption.
Qed.

Lemma extractNumber_missing_inputDecimalSeparator_witness :
  extractNumber (preset "." "," 2 true false) "1.234,56"
  = parseFloat (remove_char "," (trim "1.234,56")).
Proof.
  apply (extractNumber_missing_inputDecimalSeparator (preset "." "," 2 true false)
           "1.234,56"); reflexivity.
Defined.

Example brazilian_preset_misreads :
  lookup "currency-br" getPresetFormats = Some (preset "." "," 2 true false)
  /\ extractNumber (preset "." "," 2 true false) "1.234,56" = dec false 123456 (-5).
Proof. split; vm_compute; reflexivity. Qed.

(** ** The pattern of the fallback *)

Lemma of_ratio_not_NaN : forall sg p q, of_ratio sg p q <> NaN.
Proof.
  intros sg p q. unfold of_ratio, finite_or_inf, NaN.
  destruct (p <=? 0); [discriminate|]. cbv zeta.
  destruct (round_half_even _ _ =? 2 ^ 53).
  - destruct (971 <? _); [discriminate|]. destruct (2 ^ 52); discriminate.
  - destruct (971 <? _); [discriminate|].
    destruct (round_half_even _ _); discriminate.
Qed.

Lemma dec_not_NaN : forall sg m e, dec sg m e <> NaN.
Proof. intros sg m e. unfold dec. destruct (0 <=? e); apply of_ratio_not_NaN. Qed.

Lemma span_digits_digits :
  forall s, all_chars is_digit (fst (span_digits s)) = true.
Proof.
  induction s as [|c s IH]; [reflexivity|].
  cbn [span_digits]. destruct (is_digit c) eqn:E; [|reflexivity].
  destruct (span_digits s) as [d r]. cbn [fst all_chars] in *. rewrite E, IH. reflexivity.
Qed.

(** [parseFloat] on a signed printed number. *)
Lemma parseFloat_numeral :
  forall sg d1 f x,
    all_chars is_digit d1 = true -> truthy d1 = true ->
    all_chars is_digit (or_default f EmptyString) = true ->
    parseFloat (sign_text sg ++ d1 ++ frac_text f ++ expo_text x)
    = dec sg (digits_value (d1 ++ or_default f EmptyString) 0)
          (or_default (option_map (fun n => n - 1) x) 0 - len (or_default f EmptyString)).
Proof.
  intros sg d1 f x Hd1 Hsome Hd2.
  destruct (numeral_parse sg d1 f x Hd1 Hsome Hd2) as [_ Hparse].
  destruct d1 as [|c d1]; [discriminate Hsome|].
  assert (Hc : is_digit c = true).
  { cbn [all_chars] in Hd1. apply andb_true_iff in Hd1. apply Hd1. }
  unfold parseFloat.
  assert (Ht : trim_start (sign_text sg ++ String c d1 ++ frac_text f ++ expo_text x)
               = sign_text sg ++ String c d1 ++ frac_text f ++ expo_text x).
  { destruct sg; cbn [sign_text append trim_start]; [reflexivity|].
    pose proof (is_digit_not_space c Hc) as Hns. unfold not_space in Hns.
    apply negb_true_iff in Hns. rewrite Hns. reflexivity. }
  rewrite Ht. cbn [append]. cbn [append] in Hparse.
  rewrite (parse_signed sg c _ Hc), Hparse. reflexivity.
Qed.

Lemma replace_first_comma_append :
  forall a b, count_char "," a = 0 ->
              replace_first_comma (a ++ b) = a ++ replace_first_comma b.
Proof.
  induction a as [|c a IH]; intros b H; [reflexivity|].
  cbn [count_char] in H. pose proof (count_char_nonneg "," a).
  cbn [append replace_first_comma]. unfold is_comma.
  destruct (Ascii.eqb c ","); [lia|]. rewrite IH by lia. reflexivity.
Qed.

Lemma digits_no_comma :
  forall s, all_chars is_digit s = true -> count_char "," s = 0.
Proof.
  induction s as [|c s IH]; intros H; [reflexivity|].
  cbn [all_chars] in H. apply andb_true_iff in H. destruct H as [Hc Hs].
  cbn [count_char]. rewrite IH by assumption.
  destruct (Ascii.eqb_spec c ","); [subst; discriminate Hc|reflexivity].
Qed.

(** What the pattern of the fallback matches: a sign, digits, and a period
    or comma with digits, if any. *)
Lemma match_number_here_shape :
  forall s m,
    match_number_here s = Some m ->
    exists sg d1 f,
      replace_first_comma m = sign_text sg ++ d1 ++ frac_text f
      /\ all_chars is_digit d1 = true /\ truthy d1 = true
      /\ all_chars is_digit (or_default f EmptyString) = true.
Proof.
  intros s m H. unfold match_number_here in H.
  set (sg := match after_char "-" s with Some _ => true | None => false end).
  assert (Hsg : (match after_char "-" s with
                 | Some r => ("-", r)
                 | None => (EmptyString, s)
                 end)
                = (sign_text sg, match after_char "-" s with Some r => r | None => s end)).
  { unfold sg. destruct (after_char "-" s); reflexivity. }
  rewrite Hsg in H. clear Hsg.
  set (s1 := match after_char "-" s with Some r => r | None => s end) in *.
  pose proof (span_digits_digits s1) as Hd1.
  destruct (span_digits s1) as [d1 r1]. cbn [fst] in Hd1.
  destruct (truthy d1) eqn:Hsome; [|discriminate H].
  assert (Hplain : replace_first_comma (sign_text sg ++ d1) = sign_text sg ++ d1 ++ frac_text None).
  { cbn [frac_text]. rewrite append_empty_r.
    rewrite <- (append_empty_r (sign_text sg ++ d1)) at 1.
    rewrite replace_first_comma_append; [rewrite append_empty_r; reflexivity|].
    rewrite count_char_append, (digits_no_comma d1 Hd1). destruct sg; reflexivity. }
  destruct r1 as [|c r].
  - injection H as <-. exists sg, d1, None. repeat split; assumption.
  - pose proof (span_digits_digits r) as Hd2.
    destruct ((is_dot c || is_comma c) && truthy (fst (span_digits r))) eqn:E.
    + injection H as <-. apply andb_true_iff in E. destruct E as [Ec Et].
      exists sg, d1, (Some (fst (span_digits r))). cbn [frac_text or_default].
      repeat split; try assumption.
      replace (sign_text sg ++ d1 ++ String c (fst (span_digits r)))
        with ((sign_text sg ++ d1) ++ String c (fst (span_digits r)))
        by (rewrite append_assoc; reflexivity).
      rewrite replace_first_comma_append.
      * rewrite append_assoc. f_equal. f_equal.
        cbn [replace_first_comma]. unfold is_dot, is_comma in *.
        destruct (Ascii.eqb_spec c ","); [reflexivity|].
        cbn [orb] in Ec. rewrite orb_false_r in Ec. apply Ascii.eqb_eq in Ec. subst c.
        f_equal. rewrite <- (append_empty_r (fst (span_digits r))) at 1.
        rewrite replace_first_comma_append by (apply digits_no_comma; assumption).
        apply append_empty_r.
      * rewrite count_char_append, (digits_no_comma d1 Hd1). destruct sg; reflexivity.
    + injection H as <-. exists sg, d1, None. repeat split; assumption.
Qed.

Lemma match_number_shape :
  forall s m,
    match_number s = Some m ->
    exists sg d1 f,
      replace_first_comma m = sign_text sg ++ d1 ++ frac_text f
      /\ all_chars is_digit d1 = true /\ truthy d1 = true
      /\ all_chars is_digit (or_default f EmptyString) = true.
Proof.
  induction s as [|c s IH]; intros m H.
  - cbn [match_number] in H.
    destruct (match_number_here EmptyString) eqn:E; [|discriminate H].
    injection H as <-. apply (match_number_here_shape _ _ E).
  - cbn [match_number] in H.
    destruct (match_number_here (String c s)) eqn:E.
    + injection H as <-. apply (match_number_here_shape _ _ E).
    + apply IH. assumption.
Qed.

Lemma match_number_here_digitless :
  forall s, has_char is_digit s = false -> match_number_here s = None.
Proof.
  intros s H. unfold match_number_here.
  assert (Hspan : forall t, has_char is_digit t = false -> span_digits t = (EmptyString, t)).
  { intros [|c t] Ht; [reflexivity|]. cbn [has_char] in Ht.
    apply orb_false_iff in Ht. destruct Ht as [Hc _].
    cbn [span_digits]. rewrite Hc. reflexivity. }
  destruct s as [|c r]; [reflexivity|].
  cbn [after_char]. destruct (Ascii.eqb c "-").
  - rewrite Hspan; [reflexivity|]. cbn [has_char] in H.
    apply orb_false_iff in H. apply H.
  - rewrite Hspan by assumption. reflexivity.
Qed.

Lemma match_number_digitless :
  forall s, has_char is_digit s = false -> match_number s = None.
Proof.
  induction s as [|c s IH]; intros H.
  - reflexivity.
  - cbn [match_number]. rewrite match_number_here_digitless by assumption.
    apply IH. cbn [has_char] in H. apply orb_false_iff in H. apply H.
Qed.

(** X9.  With the automatic separator and [smartDetection] off,
    [extractNumber] reads the first run of digits that its pattern finds, so
    it never returns [NaN]; a text without a digit gives 0. *)
Theorem extractNumber_fallback_never_NaN :
  forall (format : NumberFormat) (text : string),
    inputDecimalSeparator format = Some "auto" ->
    smartDetection format = false ->
    extractNumber format text <> NaN
    /\ (has_char is_digit text = false -> extractNumber format text = S754_zero false).
Proof.
  intros format text Hauto Hsmart. unfold extractNumber.
  rewrite Hauto, Hsmart. change (String.eqb "auto" "auto") with true. cbn [negb].
  split.
  - destruct (match_number (trim text)) as [m|] eqn:E; [|discriminate].
    destruct (match_number_shape _ _ E) as [sg [d1 [f [-> [Hd1 [Hsome Hd2]]]]]].
    pose proof (parseFloat_numeral sg d1 f None Hd1 Hsome Hd2) as Hp.
    cbn [expo_text] in Hp. rewrite append_empty_r in Hp. rewrite Hp.
    apply dec_not_NaN.
  - intros Hd. rewrite match_number_digitless; [reflexivity|].
    apply has_char_trim. assumption.
Qed.

Lemma extractNumber_fallback_never_NaN_witness :
  extractNumber fallback_format "abc 12,5 kg" <> NaN.
Proof.
  refine (proj1 (extractNumber_fallback_never_NaN fallback_format "abc 12,5 kg" _ _));
    reflexivity.
Defined.

Example fallback_reads_the_first_number :
  extractNumber fallback_format "abc 12,5 kg" = dec false 125 (-1)
  /\ extractNumber fallback_format "1,234,567" = dec false 1234 (-3).
Proof. split; vm_compute; reflexivity. Qed.

(** ** A declared separator and the detection *)

Lemma lastIndexOf_string_char :
  forall c s i found,
    lastIndexOf_string_from (String c EmptyString) s i found
    = lastIndexOf_from c s i found.
Proof.
  intros c. induction s as [|a s IH]; intros i found; [reflexivity|].
  cbn [lastIndexOf_string_from lastIndexOf_from has_prefix].
  rewrite IH, andb_true_r.
  replace (Ascii.eqb c a) with (Ascii.eqb a c); [reflexivity|].
  destruct (Ascii.eqb_spec a c), (Ascii.eqb_spec c a); congruence.
Qed.

Lemma strip_non_numeric_numeric :
  forall s, all_chars numeric_char s = true -> strip_non_numeric s = s.
Proof.
  unfold strip_non_numeric. induction s as [|c s IH]; intros H; [reflexivity|].
  cbn [all_chars] in H. apply andb_true_iff in H. destruct H as [Hc Hs].
  cbn [filter_chars]. unfold numeric_char in Hc. rewrite Hc, IH by assumption.
  reflexivity.
Qed.

Lemma numeric_char_not_space :
  forall c, numeric_char c = true -> not_space c = true.
Proof.
  intros c H. unfold numeric_char in H.
  destruct (is_digit c) eqn:Hd; [apply is_digit_not_space; assumption|].
  unfold is_dot, is_comma in H. cbn [orb] in H.
  destruct (Ascii.eqb_spec c "."); [subst; reflexivity|].
  destruct (Ascii.eqb_spec c ","); [subst; reflexivity|].
  cbn [orb] in H. apply Ascii.eqb_eq in H. subst. reflexivity.
Qed.

Lemma lastIndexOf_present :
  forall c s, 0 < count_char c s -> 0 <= lastIndexOf c s.
Proof.
  intros c s H. unfold lastIndexOf.
  assert (G : forall t i found,
             0 <= i -> (0 < count_char c t \/ 0 <= found) ->
             0 <= lastIndexOf_from c t i found).
  { induction t as [|a t IH]; intros i found Hi Hor.
    - cbn [count_char lastIndexOf_from] in *. lia.
    - cbn [count_char lastIndexOf_from] in *. pose proof (count_char_nonneg c t).
      apply IH; [lia|]. destruct (Ascii.eqb a c); lia. }
  apply G; [lia|left; assumption].
Qed.

(** X10.  On a text of digits, separators and minus signs that has both a
    comma and a period, declaring the separator that comes last as
    [inputDecimalSeparator] gives the number that the automatic detection
    finds. *)
Theorem declared_separator_agrees_with_detection :
  forall (declared automatic : NumberFormat) (text : string) (c : ascii),
    inputDecimalSeparator declared = Some (String c EmptyString) ->
    inputDecimalSeparator automatic = Some "auto" ->
    smartDetection automatic = true ->
    all_chars numeric_char text = true ->
    0 < count_char "," text -> 0 < count_char "." text ->
    (c = ","%char /\ lastIndexOf "." text < lastIndexOf "," text)
    \/ (c = "."%char /\ lastIndexOf "," text < lastIndexOf "." text) ->
    extractNumber declared text = extractNumber automatic text.
Proof.
  intros declared automatic text c Hdecl Hauto Hsmart Hnum Hcomma Hdot Hlast.
  assert (Htrim : trim text = text).
  { apply trim_no_space. apply (all_chars_impl numeric_char); [|assumption].
    apply numeric_char_not_space. }
  pose proof (lastIndexOf_present "," text Hcomma) as Hic.
  pose proof (lastIndexOf_present "." text Hdot) as Hid.
  unfold extractNumber. rewrite Hdecl, Hauto, Hsmart, Htrim.
  change (String.eqb "auto" "auto") with true. cbn [negb].
  assert (Hdetect : smartNumberDetection text = parseWithMixedSeparators text).
  { rewrite <- (strip_non_numeric_numeric text Hnum) at 2.
    apply detection_dispatch_mixed; rewrite strip_non_numeric_numeric; assumption. }
  rewrite Hdetect. unfold parseWithMixedSeparators, parseNumberWithKnownFormat.
  cbn [or_default]. rewrite lastIndexOf_string_char. fold (lastIndexOf c text).
  destruct Hlast as [[-> Hlt]|[-> Hlt]].
  - change (String.eqb "," "auto") with false. change (String.eqb "," ",") with true.
    cbn [negb]. cbv iota.
    replace (lastIndexOf "," text =? -1) with false by (symmetry; apply Z.eqb_neq; lia).
    replace (lastIndexOf "." text <? lastIndexOf "," text) with true
      by (symmetry; apply Z.ltb_lt; assumption).
    reflexivity.
  - change (String.eqb "." "auto") with false. change (String.eqb "." ",") with false.
    cbn [negb]. cbv iota.
    replace (lastIndexOf "." text =? -1) with false by (symmetry; apply Z.eqb_neq; lia).
    replace (lastIndexOf "." text <? lastIndexOf "," text) with false
      by (symmetry; apply Z.ltb_ge; lia).
    reflexivity.
Qed.

Lemma declared_separator_agrees_with_detection_witness :
  extractNumber (declared_format ",") "1.234,56"
  = extractNumber (numberFormat defaults) "1.234,56".
Proof.
  apply (declared_separator_agrees_with_detection
           (declared_format ",") (numberFormat defaults) "1.234,56" ",");
    try reflexivity.
  left. split; reflexivity.
Defined.

Example declared_separator_differs_on_one_separator :
  extractNumber (declared_format ",") "1,234" = dec false 1234 (-3)
  /\ extractNumber (numberFormat defaults) "1,234" = of_Z 1234.
Proof. split; vm_compute; reflexivity. Qed.

(** ** Prefix and suffix *)

Lemma extractSuffix_digitless :
  forall s, has_char is_digit s = false -> extractSuffix s = s.
Proof.
  intros [|c s] H; [reflexivity|]. cbn [extractSuffix]. rewrite H. reflexivity.
Qed.

Lemma extractPrefix_plain :
  forall s,
    has_char (fun c => is_digit c || Ascii.eqb c "-") s = false -> extractPrefix s = s.
Proof.
  unfold extractPrefix. induction s as [|c s IH]; intros H; [reflexivity|].
  cbn [has_char] in H. apply orb_false_iff in H. destruct H as [Hc Hs].
  cbn [span]. rewrite Hc. cbn [negb]. specialize (IH Hs).
  destruct (span _ s) as [a r]. cbn [fst] in *. rewrite IH. reflexivity.
Qed.

Lemma extractPrefix_stops :
  forall before c rest,
    has_char (fun a => is_digit a || Ascii.eqb a "-") before = false ->
    is_digit c || Ascii.eqb c "-" = true ->
    extractPrefix (before ++ String c rest) = before.
Proof.
  unfold extractPrefix. induction before as [|a s IH]; intros c rest H Hc.
  - cbn [append span]. rewrite Hc. reflexivity.
  - cbn [has_char] in H. apply orb_false_iff in H. destruct H as [Ha Hs].
    cbn [append span]. rewrite Ha. cbn [negb]. specialize (IH c rest Hs Hc).
    destruct (span _ (s ++ String c rest)) as [x r]. cbn [fst] in *.
    rewrite IH. reflexivity.
Qed.

Lemma has_char_append :
  forall p a b, has_char p (a ++ b) = has_char p a || has_char p b.
Proof.
  intros p. induction a as [|c a IH]; intros b; [reflexivity|].
  cbn [append has_char]. rewrite IH. apply orb_assoc.
Qed.

Lemma extractSuffix_after_last_digit :
  forall front d after,
    is_digit d = true -> has_char is_digit after = false ->
    extractSuffix (front ++ String d after) = after.
Proof.
  induction front as [|a s IH]; intros d after Hd Hafter.
  - cbn [append extractSuffix has_char]. rewrite Hd. cbn [orb].
    apply extractSuffix_digitless. assumption.
  - cbn [append extractSuffix].
    replace (has_char is_digit (String a (s ++ String d after))) with true.
    + apply IH; assumption.
    + symmetry. cbn [has_char]. rewrite has_char_append. cbn [has_char].
      rewrite Hd. rewrite !orb_true_r. reflexivity.
Qed.

(** X11.  What stands in front of the first digit or minus sign of a text is
    its prefix, and what follows its last digit is its suffix. *)
Theorem prefix_and_suffix_around_the_number :
  forall (before after rest front : string) (c d : ascii),
    has_char (fun a => is_digit a || Ascii.eqb a "-") before = false ->
    is_digit c || Ascii.eqb c "-" = true ->
    is_digit d = true ->
    has_char is_digit after = false ->
    extractPrefix (before ++ String c rest) = before
    /\ extractSuffix (front ++ String d after) = after.
Proof.
  intros before after rest front c d Hb Hc Hd Ha. split.
  - apply extractPrefix_stops; assumption.
  - apply extractSuffix_after_last_digit; assumption.
Qed.

Lemma prefix_and_suffix_around_the_number_witness :
  extractPrefix ("Kz " ++ String "1" "5 000 +") = "Kz "
  /\ extractSuffix ("Kz 15 00" ++ String "0" " +") = " +".
Proof.
  apply (prefix_and_suffix_around_the_number "Kz " " +" "5 000 +" "Kz 15 00" "1" "0");
    reflexivity.
Defined.

(** ** Numbers are valid *)

Lemma of_ratio_valid :
  forall sg p q, 0 < q -> valid (of_ratio sg p q).
Proof.
  intros sg p q Hq. unfold valid, of_ratio.
  destruct (Z.leb_spec p 0) as [Hp|Hp]; [reflexivity|]. cbv zeta.
  assert (H1074 : 0 < 2 ^ 1074) by (apply Z.pow_pos_nonneg; lia).
  set (units := p * 2 ^ 1074).
  assert (Hu : 0 < units) by (unfold units; nia).
  destruct (ratio_exponent_spec units q Hu Hq) as [Hk [Hhi Hlo]].
  set (k := ratio_exponent units q) in *.
  assert (Hpk : 0 < 2 ^ k) by (apply Z.pow_pos_nonneg; lia).
  assert (Hqk : 0 < q * 2 ^ k) by nia.
  assert (Hm : 0 <= round_half_even units (q * 2 ^ k) <= 2 ^ 53).
  { apply round_half_even_bounds; lia. }
  assert (Hm' : k = 0 \/ 2 ^ 52 <= round_half_even units (q * 2 ^ k)).
  { destruct Hlo as [Hlo|Hlo]; [left; assumption|right].
    apply (round_half_even_bounds units (q * 2 ^ k) (2 ^ 52) (2 ^ 53)); lia. }
  set (m := round_half_even units (q * 2 ^ k)) in *.
  unfold finite_or_inf.
  destruct (Z.eqb_spec m (2 ^ 53)) as [E|E].
  - destruct (Z.ltb_spec 971 (k + 1 - 1074)); [reflexivity|].
    change (2 ^ 52) with (Zpos (Z.to_pos (2 ^ 52))).
    cbn [valid_binary]. apply bounded_spec.
    change (Zpos (Z.to_pos (2 ^ 52))) with (2 ^ 52). lia.
  - destruct (Z.ltb_spec 971 (k - 1074)); [reflexivity|].
    destruct m as [|m'|m'] eqn:Em; [reflexivity| |lia].
    cbn [valid_binary]. apply bounded_spec. lia.
Qed.

Lemma dec_valid : forall sg m e, valid (dec sg m e).
Proof.
  intros sg m e. unfold dec.
  destruct (Z.leb_spec 0 e); apply of_ratio_valid; [lia|].
  apply Z.pow_pos_nonneg; lia.
Qed.

Lemma parseFloat_valid : forall s, valid (parseFloat s).
Proof.
  intros s. unfold parseFloat, parse_StrDecimalLiteral.
  destruct (strip_sign (trim_start s)) as [sg s1]. unfold parse_unsigned.
  destruct (has_prefix "Infinity" s1); [reflexivity|].
  destruct (span_digits s1) as [d1 r1].
  destruct (match after_char "." r1 with
            | Some r => let '(d2, r2) := span_digits r in
                        if truthy (d1 ++ d2) then (d2, r2) else (EmptyString, r1)
            | None => (EmptyString, r1)
            end) as [d2 r2].
  destruct (truthy (d1 ++ d2)); [|reflexivity].
  destruct (parse_exponent r2) as [ex r3]. apply dec_valid.
Qed.

Lemma extractNumber_valid : forall format text, valid (extractNumber format text).
Proof.
  intros format text. unfold extractNumber.
  destruct (negb _).
  - unfold parseNumberWithKnownFormat. destruct (_ =? -1); apply parseFloat_valid.
  - destruct (smartDetection format).
    + unfold smartNumberDetection. cbv zeta. destruct (negb _).
      * pose proof (parseFloat_valid (strip_non_numeric (trim text))) as H.
        destruct (parseFloat _); try reflexivity; exact H.
      * unfold parseWithCommaSeparator, parseWithDotSeparator, parseWithMixedSeparators.
        repeat match goal with
               | |- context [if ?b then _ else _] => destruct b
               end; try apply parseFloat_valid; reflexivity.
    + destruct (match_number (trim text)); [apply parseFloat_valid|reflexivity].
Qed.

(** ** A number stored as text and read back *)

(** Every layout of a decimal is a printed number. *)
Lemma layout_numeral :
  forall s t,
    1 <= s ->
    exists d1 f x,
      layout s t = d1 ++ frac_text f ++ expo_text x
      /\ all_chars is_digit d1 = true /\ truthy d1 = true
      /\ all_chars is_digit (or_default f EmptyString) = true.
Proof.
  intros s t Hs. unfold layout.
  destruct (decimal_digits_spec s ltac:(lia)) as [Hall Hsome _ _ _].
  set (ds := decimal_digits s) in *.
  pose proof (truthy_len ds Hsome) as Hk.
  destruct ((len ds <=? len ds + t) && (len ds + t <=? 21)) eqn:E1;
    [|destruct ((0 <? len ds + t) && (len ds + t <=? 21)) eqn:E2;
      [|destruct ((-6 <? len ds + t) && (len ds + t <=? 0)) eqn:E3;
        [|destruct (len ds =? 1)]]].
  - exists (ds ++ repeat_char "0" (Z.to_nat (len ds + t - len ds))), None, None.
    cbn [frac_text expo_text or_default]. rewrite !append_empty_r.
    repeat split.
    + rewrite all_chars_append, Hall, zeros_digits. reflexivity.
    + apply truthy_append. assumption.
  - apply andb_true_iff in E2. destruct E2 as [Ea _]. apply Z.ltb_lt in Ea.
    destruct (all_chars_take_drop is_digit (Z.to_nat (len ds + t)) ds Hall) as [Hta Hdr].
    exists (take (Z.to_nat (len ds + t)) ds), (Some (drop (Z.to_nat (len ds + t)) ds)), None.
    cbn [frac_text expo_text or_default]. rewrite append_empty_r.
    repeat split; try assumption.
    replace (Z.to_nat (len ds + t)) with (S (Z.to_nat (len ds + t - 1))) by lia.
    apply truthy_take. assumption.
  - exists "0", (Some (repeat_char "0" (Z.to_nat (- (len ds + t))) ++ ds)), None.
    cbn [frac_text expo_text or_default]. rewrite append_empty_r.
    repeat split. rewrite all_chars_append, zeros_digits, Hall. reflexivity.
  - exists ds, None, (Some (len ds + t)).
    cbn [frac_text expo_text or_default]. repeat split; assumption.
  - destruct (all_chars_take_drop is_digit 1 ds Hall) as [Hta Hdr].
    exists (take 1 ds), (Some (drop 1 ds)), (Some (len ds + t)).
    cbn [frac_text expo_text or_default append]. repeat split; try assumption.
    apply (truthy_take 0). assumption.
Qed.

Lemma parseFloat_layout :
  forall sg s t, 1 <= s -> parseFloat (sign_text sg ++ layout s t) = dec sg s t.
Proof.
  intros sg s t Hs. rewrite <- (Number_layout sg s t Hs).
  destruct (layout_numeral s t Hs) as [d1 [f [x [-> [Hd1 [Hsome Hd2]]]]]].
  rewrite parseFloat_numeral, Number_numeral by assumption. reflexivity.
Qed.

(** [parseFloat(x.toString())] is [x], but for the sign of a zero. *)
Lemma parseFloat_toString :
  forall x, valid x -> parseFloat (toString x) = unsigned_zero x.
Proof.
  intros x Hx. destruct x as [s|s| |sg m e]; try (destruct s; reflexivity); [reflexivity|].
  assert (Hb : bounded prec emax m e = true) by exact Hx.
  cbn [unsigned_zero]. unfold toString.
  destruct (shortest_decimal_denotes m e Hb) as [Hd Hs].
  destruct (shortest_decimal m e) as [s t]. cbn [fst snd] in *.
  change (if sg then "-" else EmptyString) with (sign_text sg).
  rewrite (parseFloat_layout sg s t Hs), dec_with_sign, Hd. reflexivity.
Qed.

(** ** Setting up, animating, resetting *)

(** X12.  The number that [setupElements] reads from the text and stores in
    the data attribute is the target that [animateElement] reads back: it
    survives being written as text, but for the sign of a zero.  The element
    is accepted, marked as animated, and the first frame is requested. *)
Theorem setup_then_animate_keeps_the_number :
  forall (Math_pow : number -> number -> number) (Math_sin : number -> number)
         (this_config : Config) (counter : Counter) (now : number),
  exists a element events,
    animateElement Math_pow Math_sin this_config
      (node (setupElement this_config counter)) no_options now
    = Some (a, element, events)
    /\ targetValue a
       = unsigned_zero
           (extractNumber (numberFormat this_config)
              (trim (textContent (node counter))))
    /\ dataset_animated element = "true"
    /\ In RequestAnimationFrame events.
Proof.
  intros Math_pow Math_sin this_config counter now.
  unfold animateElement, setupElement.
  cbn [node dataset_animated dataset_targetValue dataset_prefix dataset_suffix
       set_animated textContent].
  change (String.eqb "false" "true") with false. cbn [andb].
  eexists. eexists. eexists. split; [reflexivity|]. cbn [targetValue].
  split; [|split; [reflexivity|]].
  - apply parseFloat_toString, extractNumber_valid.
  - apply in_or_app. right. left. reflexivity.
Qed.

Example negative_zero_loses_its_sign :
  extractNumber (numberFormat defaults) "-0,0" = S754_zero true
  /\ parseFloat (toString (extractNumber (numberFormat defaults) "-0,0")) = S754_zero false.
Proof. split; vm_compute; reflexivity. Qed.

Lemma has_char_or :
  forall p q s,
    has_char (fun c => p c || q c) s = has_char p s || has_char q s.
Proof.
  intros p q. induction s as [|c s IH]; [reflexivity|].
  cbn [has_char]. rewrite IH.
  destruct (p c), (q c), (has_char p s), (has_char q s); reflexivity.
Qed.

Lemma extractNumber_digitless :
  forall format text,
    inputDecimalSeparator format = Some "auto" ->
    has_char is_digit text = false ->
    has_char (fun c => is_dot c || is_comma c) text = false ->
    extractNumber format text = S754_zero false.
Proof.
  intros format text Hauto Hd Hs. unfold extractNumber. rewrite Hauto.
  change (String.eqb "auto" "auto") with true. cbn [negb].
  destruct (smartDetection format).
  - rewrite smartNumberDetection_digitless by (apply has_char_trim; assumption).
    rewrite has_char_trim by assumption. reflexivity.
  - rewrite match_number_digitless by (apply has_char_trim; assumption). reflexivity.
Qed.

(** X13.  An element whose text has no digit, separator or minus sign is set
    up with the number 0 and with its whole text as the prefix and again as
    the suffix (unless the configuration gives them): the animation of
    ["N/A"] writes the text on both sides of the rendered number. *)
Theorem digitless_text_is_prefix_and_suffix :
  forall (Math_pow : number -> number -> number) (Math_sin : number -> number)
         (this_config : Config) (counter : Counter) (now : number),
    let text := trim (textContent (node counter)) in
    has_char is_digit text = false ->
    has_char separator_or_minus text = false ->
    inputDecimalSeparator (numberFormat this_config) = Some "auto" ->
    prefix this_config = EmptyString -> suffix this_config = EmptyString ->
    exists a element events,
      animateElement Math_pow Math_sin this_config
        (node (setupElement this_config counter)) no_options now
      = Some (a, element, events)
      /\ targetValue a = S754_zero false
      /\ prefix_ a = text /\ suffix_ a = text.
Proof.
  intros Math_pow Math_sin this_config counter now text Hd Hs Hauto Hp Hsuf.
  unfold separator_or_minus in Hs.
  assert (Hsep : has_char (fun c => is_dot c || is_comma c) text = false
                 /\ has_char (fun c => Ascii.eqb c "-") text = false).
  { rewrite (has_char_or (fun c => is_dot c || is_comma c) (fun c => Ascii.eqb c "-"))
      in Hs.
    apply orb_false_iff in Hs. exact Hs. }
  destruct Hsep as [Hsep Hminus].
  unfold animateElement, setupElement. fold text.
  cbn [node dataset_animated dataset_targetValue dataset_prefix dataset_suffix
       set_animated textContent].
  change (String.eqb "false" "true") with false. cbn [andb].
  eexists. eexists. eexists. split; [reflexivity|].
  cbn [targetValue prefix_ suffix_]. rewrite Hp, Hsuf. cbn [truthy].
  rewrite (extractNumber_digitless _ text Hauto Hd Hsep).
  split; [reflexivity|]. split.
  - apply extractPrefix_plain.
    rewrite (has_char_or is_digit (fun c => Ascii.eqb c "-")), Hd, Hminus. reflexivity.
  - apply extractSuffix_digitless. assumption.
Qed.

Lemma digitless_text_is_prefix_and_suffix_witness :
  exists a element events,
    animateElement unused_pow unused_sin linear_config
      (node (setupElement linear_config (element_with_text " N/A "))) no_options (of_Z 0)
    = Some (a, element, events)
    /\ targetValue a = S754_zero false
    /\ prefix_ a = "N/A" /\ suffix_ a = "N/A".
Proof.
  apply (digitless_text_is_prefix_and_suffix unused_pow unused_sin linear_config
           (element_with_text " N/A ") (of_Z 0)); reflexivity.
Defined.

Example not_available_is_shown_twice :
  forall (Math_pow : number -> number -> number) (Math_sin : number -> number),
    match animateElement Math_pow Math_sin linear_config
            (node (setupElement linear_config (element_with_text " N/A ")))
            no_options (of_Z 0) with
    | Some (a, element, _) =>
        textContent (fst (fst (animate a element (of_Z 2000)))) = "N/A0N/A"
    | None => False
    end.
Proof. intros Math_pow Math_sin. vm_compute. reflexivity. Qed.

(** X14.  [reset] writes the trimmed text that [setupElements] stored, or
    ["0"] when the element was blank, whatever the animation has written,
    and clears the mark: [animateElement] then starts again, with the same
    target, also when [triggerOnce] is set. *)
Theorem reset_restores_and_reopens :
  forall (Math_pow : number -> number -> number) (Math_sin : number -> number)
         (this_config : Config) (counter : Counter) (shown mark : string)
         (now : number),
    let text := trim (textContent (node counter)) in
    let restored :=
      fst (resetElement (after_frames (setupElement this_config counter) shown mark)) in
    textContent (node restored) = (if truthy text then text else "0")
    /\ dataset_originalText restored = Some text
    /\ exists a element events,
        animateElement Math_pow Math_sin this_config (node restored) no_options now
        = Some (a, element, events)
        /\ targetValue a
           = unsigned_zero (extractNumber (numberFormat this_config) text).
Proof.
  intros Math_pow Math_sin this_config counter shown mark now text restored.
  split; [reflexivity|]. split; [reflexivity|].
  unfold animateElement, restored, resetElement, after_frames, setupElement.
  cbn [fst node dataset_animated dataset_targetValue dataset_prefix dataset_suffix
       set_animated set_textContent textContent dataset_originalText].
  change (String.eqb "false" "true") with false. cbn [andb].
  eexists. eexists. eexists. split; [reflexivity|]. cbn [targetValue].
  apply parseFloat_toString, extractNumber_valid.
Qed.

Example reset_of_a_blank_element :
  textContent (node (fst (resetElement
                            (after_frames (setupElement linear_config (element_with_text "  "))
                               "0" "true")))) = "0"
  /\ textContent (node (fst (resetElement
                               (after_frames
                                  (setupElement linear_config (element_with_text " 1 500 Kz "))
                                  "1 500 Kz" "true")))) = "1 500 Kz".
Proof. split; reflexivity. Qed.

(** ** Animating once *)

Lemma animateElement_marks :
  forall Math_pow Math_sin this_config element custom now a element' events,
    animateElement Math_pow Math_sin this_config element custom now
    = Some (a, element', events) ->
    dataset_animated element' = "true".
Proof.
  intros Math_pow Math_sin this_config element custom now a element' events H.
  unfold animateElement in H.
  destruct (String.eqb (dataset_animated element) "true" && triggerOnce this_config);
    [discriminate H|].
  injection H as _ <- _. reflexivity.
Qed.

(** X15.  The guard of [animateElement] reads [triggerOnce] from the
    configuration of the instance only: once an element has been animated, a
    second call is refused when that flag is set, even if the custom
    configuration of the call clears it, and accepted when it is clear, even
    if the custom configuration sets it. *)
Theorem animateElement_guard_ignores_custom_config :
  forall (Math_pow : number -> number -> number) (Math_sin : number -> number)
         (this_config : Config) (element : Element) (custom again : Options)
         (now later : number) (a : Animation) (element' : Element)
         (events : list Event),
    animateElement Math_pow Math_sin this_config element custom now
    = Some (a, element', events) ->
    (triggerOnce this_config = true ->
     animateElement Math_pow Math_sin this_config element' again later = None)
    /\ (triggerOnce this_config = false ->
        exists a' element'' events',
          animateElement Math_pow Math_sin this_config element' again later
          = Some (a', element'', events')).
Proof.
  intros Math_pow Math_sin this_config element custom again now later a element' events H.
  pose proof (animateElement_marks _ _ _ _ _ _ _ _ _ H) as Hmark.
  unfold animateElement. rewrite Hmark. change (String.eqb "true" "true") with true.
  cbn [andb]. split; intros ->.
  - reflexivity.
  - eexists. eexists. eexists. reflexivity.
Qed.

Lemma animateElement_guard_ignores_custom_config_witness :
  animateElement unused_pow unused_sin linear_config
    (set_animated (node (setupElement linear_config (element_with_text "15 000"))) "true")
    (with_triggerOnce false) (of_Z 5000) = None.
Proof.
  refine (proj1 (animateElement_guard_ignores_custom_config unused_pow unused_sin
                   linear_config
                   (node (setupElement linear_config (element_with_text "15 000")))
                   no_options (with_triggerOnce false) (of_Z 0) (of_Z 5000) _ _ _ _) _);
    reflexivity.
Defined.

(** X16.  The observer animates an element only while its mark is
    ["false"], and [animateElement] sets the mark to ["true"]: an element
    that has been animated is never animated again by the observer, whether
    [triggerOnce] is set or not, until [reset] clears the mark. *)
Theorem observer_animates_only_once :
  forall (Math_pow : number -> number -> number) (Math_sin : number -> number)
         (this_config other_config : Config) (element : Element) (custom : Options)
         (now later : number) (a : Animation) (element' : Element)
         (events : list Event) (isIntersecting : bool),
    animateElement Math_pow Math_sin this_config element custom now
    = Some (a, element', events) ->
    observe_entry Math_pow Math_sin other_config isIntersecting element' later
    = (None, element', [], false).
Proof.
  intros Math_pow Math_sin this_config other_config element custom now later
         a element' events isIntersecting H.
  pose proof (animateElement_marks _ _ _ _ _ _ _ _ _ H) as Hmark.
  unfold observe_entry. rewrite Hmark. change (String.eqb "true" "false") with false.
  rewrite andb_false_r. reflexivity.
Qed.

Lemma observer_animates_only_once_witness :
  observe_entry unused_pow unused_sin (merge linear_config (with_triggerOnce false)) true
    (set_animated (node (setupElement linear_config (element_with_text "15 000"))) "true")
    (of_Z 5000)
  = (None,
     set_animated (node (setupElement linear_config (element_with_text "15 000"))) "true",
     [], false).
Proof.
  eapply (observer_animates_only_once unused_pow unused_sin linear_config
            (merge linear_config (with_triggerOnce false))
            (node (setupElement linear_config (element_with_text "15 000")))
            no_options (of_Z 0) (of_Z 5000)).
  reflexivity.
Defined.

(** ** A duration of zero *)





Example zero_duration_first_frame :
  textContent (fst (fst (animate instant_session blank_element (of_Z 0)))) = "100".
Proof. vm_compute. reflexivity. Qed.

(** ** The digits of a number are unique *)

Lemma digit_value_inj :
  forall a b, digit_value a = digit_value b -> a = b.
Proof.
  intros a b H. unfold digit_value in H.
  assert (HN : N_of_ascii a = N_of_ascii b) by lia.
  rewrite <- (ascii_N_embedding a), <- (ascii_N_embedding b), HN. reflexivity.
Qed.

Lemma digit_value_range :
  forall c, is_digit c = true -> 0 <= digit_value c <= 9.
Proof.
  intros c H. unfold is_digit in H. unfold digit_value.
  apply andb_true_iff in H. destruct H as [H1 H2].
  apply Z.leb_le in H1. apply Z.leb_le in H2. lia.
Qed.

Lemma digits_value_acc :
  forall s acc, digits_value s acc = acc * 10 ^ len s + digits_value s 0.
Proof.
  induction s as [|c s IH]; intros acc.
  - cbn [digits_value]. change (len EmptyString) with 0. lia.
  - cbn [digits_value]. rewrite (IH (10 * acc + digit_value c)), (IH (10 * 0 + digit_value c)).
    rewrite len_String, Z.pow_add_r by (pose proof (len_nonneg s); lia).
    change (10 ^ 1) with 10. ring.
Qed.

Lemma digits_value_bound :
  forall s, all_chars is_digit s = true -> 0 <= digits_value s 0 < 10 ^ len s.
Proof.
  induction s as [|c s IH]; intros H.
  - cbn. lia.
  - cbn [all_chars] in H. apply andb_true_iff in H. destruct H as [Hc Hs].
    specialize (IH Hs). pose proof (digit_value_range c Hc) as Hr.
    cbn [digits_value]. rewrite digits_value_acc, len_String.
    rewrite Z.pow_add_r by (pose proof (len_nonneg s); lia). change (10 ^ 1) with 10.
    assert (0 < 10 ^ len s) by (apply Z.pow_pos_nonneg; [lia|apply len_nonneg]).
    nia.
Qed.

Lemma digits_value_inj :
  forall a b,
    all_chars is_digit a = true -> all_chars is_digit b = true ->
    len a = len b -> digits_value a 0 = digits_value b 0 -> a = b.
Proof.
  induction a as [|c a IH]; intros b Ha Hb Hlen Hval.
  - destruct b as [|d b]; [reflexivity|].
    rewrite len_String in Hlen. pose proof (len_nonneg b).
    change (len EmptyString) with 0 in Hlen. lia.
  - destruct b as [|d b].
    + rewrite len_String in Hlen. pose proof (len_nonneg a).
      change (len EmptyString) with 0 in Hlen. lia.
    + cbn [all_chars] in Ha, Hb.
      apply andb_true_iff in Ha. destruct Ha as [Hc Ha].
      apply andb_true_iff in Hb. destruct Hb as [Hd Hb].
      rewrite !len_String in Hlen.
      cbn [digits_value] in Hval.
      rewrite (digits_value_acc a), (digits_value_acc b) in Hval.
      pose proof (digits_value_bound a Ha) as Hba.
      pose proof (digits_value_bound b Hb) as Hbb.
      pose proof (digit_value_range c Hc). pose proof (digit_value_range d Hd).
      assert (Hlen' : len a = len b) by lia.
      rewrite <- Hlen' in Hval, Hbb.
      assert (Hp : 0 < 10 ^ len a) by (apply Z.pow_pos_nonneg; [lia|apply len_nonneg]).
      assert (Hcd : digit_value c = digit_value d) by nia.
      assert (Hab : digits_value a 0 = digits_value b 0) by nia.
      rewrite (digit_value_inj c d Hcd). f_equal. apply IH; assumption || lia.
Qed.

Lemma digits_of_unique :
  forall n a b, 1 <= n -> digits_of n a -> digits_of n b -> a = b.
Proof.
  intros n a b Hn [Ha _ Hva Hla Hha] [Hb _ Hvb Hlb Hhb].
  specialize (Hla Hn). specialize (Hlb Hn).
  pose proof (len_nonneg a). pose proof (len_nonneg b).
  assert (Hlen : len a = len b).
  { assert (H1 : 10 ^ (len a - 1) < 10 ^ len b) by lia.
    assert (H2 : 10 ^ (len b - 1) < 10 ^ len a) by lia.
    apply Z.pow_lt_mono_r_iff in H1; [|lia|lia].
    apply Z.pow_lt_mono_r_iff in H2; [|lia|lia]. lia. }
  apply digits_value_inj; try assumption.
  specialize (Hva 0). specialize (Hvb 0). lia.
Qed.

(** The digits of [s * 10^t] are the digits of [s] and [t] zeros. *)
Lemma decimal_digits_shift :
  forall s t,
    1 <= s -> 0 <= t ->
    decimal_digits (s * 10 ^ t) = decimal_digits s ++ repeat_char "0" (Z.to_nat t).
Proof.
  intros s t Hs Ht.
  assert (Hp : 0 < 10 ^ t) by (apply Z.pow_pos_nonneg; lia).
  destruct (decimal_digits_spec s ltac:(lia)) as [Hall Hsome Hval Hlow Hhigh].
  specialize (Hlow Hs).
  pose proof (truthy_len _ Hsome) as Hk.
  apply (digits_of_unique (s * 10 ^ t)); [nia|apply decimal_digits_spec; nia|].
  assert (Hlen : len (decimal_digits s ++ repeat_char "0" (Z.to_nat t))
                 = len (decimal_digits s) + t).
  { rewrite len_append, len_repeat_char. lia. }
  constructor.
  - rewrite all_chars_append, Hall, zeros_digits. reflexivity.
  - apply truthy_append. assumption.
  - intros acc. rewrite digits_value_trailing_zeros, Hval, Hlen, Z2Nat.id by lia.
    rewrite Z.pow_add_r by lia. ring.
  - intros _. rewrite Hlen.
    replace (len (decimal_digits s) + t - 1) with (len (decimal_digits s) - 1 + t) by lia.
    rewrite Z.pow_add_r by lia. apply Z.mul_le_mono_nonneg_r; lia.
  - rewrite Hlen, Z.pow_add_r by lia. apply Z.mul_lt_mono_pos_r; lia.
Qed.

(** ** Whole numbers print as their digits *)

Lemma two_pow_53_value :
  bounded prec emax (Z.to_pos (2 ^ 52)) 1 = true
  /\ ulps (Z.to_pos (2 ^ 52)) 1 = 2 ^ 53 * 2 ^ 1074.
Proof. split; vm_compute; reflexivity. Qed.

(** A whole number below [2^53] is denoted by no other whole number. *)
Lemma of_ratio_integer_inj :
  forall sg n V,
    1 <= n < 2 ^ 53 -> 1 <= V < 10 ^ 21 ->
    of_ratio sg V 1 = of_ratio sg n 1 -> V = n.
Proof.
  intros sg n V Hn HV Heq.
  destruct (of_ratio_integer sg n ltac:(lia)) as [m [e [Hr [Hb Hu]]]].
  assert (H1074 : 0 < 2 ^ 1074) by (apply Z.pow_pos_nonneg; lia).
  destruct (Z_le_gt_dec V (2 ^ 53)) as [Hle|Hgt].
  - destruct (of_ratio_integer sg V ltac:(lia)) as [m' [e' [Hr' [Hb' Hu']]]].
    rewrite Heq, Hr in Hr'. injection Hr' as <- <-.
    rewrite Hu in Hu'. nia.
  - exfalso.
    assert (H21 : 10 ^ 21 <= 2 ^ 1000) by (apply Z.leb_le; vm_compute; reflexivity).
    assert (Hlow : 1 <= V * 2 ^ 1074) by nia.
    destruct (of_ratio_nearest sg V 1 ltac:(lia) ltac:(lia) Hlow ltac:(lia))
      as [m' [e' [Hr' [Hb' Hnear]]]].
    rewrite Heq, Hr in Hr'. injection Hr' as <- <-.
    destruct two_pow_53_value as [Hb53 Hu53].
    specialize (Hnear _ _ Hb53). rewrite Hu, Hu53, !Z.mul_1_r in Hnear.
    assert (Hn' : n * 2 ^ 1074 < 2 ^ 53 * 2 ^ 1074) by (apply Z.mul_lt_mono_pos_r; lia).
    assert (HV' : 2 ^ 53 * 2 ^ 1074 < V * 2 ^ 1074) by (apply Z.mul_lt_mono_pos_r; lia).
    lia.
Qed.

Lemma toString_whole :
  forall sg n,
    1 <= n < 2 ^ 53 ->
    toString (of_ratio sg n 1) = sign_text sg ++ decimal_digits n.
Proof.
  intros sg n Hn.
  destruct (of_ratio_integer sg n ltac:(lia)) as [m [e [Hr [Hb Hu]]]].
  assert (H21 : 2 ^ 53 < 10 ^ 21) by (apply Z.ltb_lt; vm_compute; reflexivity).
  rewrite Hr. unfold toString.
  pose proof (shortest_decimal_integer m e n Hb Hu ltac:(lia)) as Hshape.
  destruct (shortest_decimal_denotes m e Hb) as [Hden _].
  destruct (shortest_decimal m e) as [s t]. cbn [fst snd] in Hden.
  destruct Hshape as [Hs [Ht Hlt]].
  change (if sg then "-" else EmptyString) with (sign_text sg). f_equal.
  assert (Hp : 0 < 10 ^ t) by (apply Z.pow_pos_nonneg; lia).
  assert (HV : s * 10 ^ t = n).
  { apply (of_ratio_integer_inj false); [lia|nia|].
    rewrite <- (dec_integer false s t Ht) in Hden. unfold dec in Hden.
    change (0 <=? 0) with true in Hden. cbv iota in Hden.
    change (10 ^ 0) with 1 in Hden. rewrite Z.mul_1_r in Hden.
    rewrite Hden. symmetry.
    destruct (of_ratio_integer false n ltac:(lia)) as [m0 [e0 [Hr0 [Hb0 Hu0]]]].
    rewrite Hr0. f_equal.
    - rewrite (of_ratio_with_sign sg), Hr0 in Hr. cbn [with_sign] in Hr. congruence.
    - rewrite (of_ratio_with_sign sg), Hr0 in Hr. cbn [with_sign] in Hr. congruence. }
  rewrite <- HV, decimal_digits_shift by assumption.
  unfold layout.
  destruct (decimal_digits_spec s ltac:(lia)) as [_ Hsome _ Hlow _].
  specialize (Hlow Hs). pose proof (truthy_len _ Hsome) as Hk.
  set (ds := decimal_digits s) in *.
  assert (Hn21 : len ds + t <= 21).
  { assert (Hpow : 10 ^ (len ds - 1 + t) < 10 ^ 21).
    { rewrite Z.pow_add_r by lia. nia. }
    apply Z.pow_lt_mono_r_iff in Hpow; lia. }
  replace ((len ds <=? len ds + t) && (len ds + t <=? 21)) with true
    by (symmetry; apply andb_true_iff; split; apply Z.leb_le; lia).
  f_equal. f_equal. f_equal. lia.
Qed.

(** ** Comparing canonical numbers *)

Lemma ulps_exponent_lt :
  forall m1 e1 m2 e2,
    bounded prec emax m1 e1 = true -> bounded prec emax m2 e2 = true ->
    e1 < e2 -> ulps m1 e1 < ulps m2 e2.
Proof.
  intros m1 e1 m2 e2 H1 H2 Hlt.
  apply bounded_spec in H1. apply bounded_spec in H2.
  destruct H1 as [He1 [Hm1 _]]. destruct H2 as [He2 [_ Hn2]].
  unfold ulps.
  assert (Hp1 : 0 < 2 ^ (e1 + 1074)) by (apply Z.pow_pos_nonneg; lia).
  assert (Hsplit : 2 ^ (e2 + 1074) = 2 ^ (e1 + 1074) * 2 ^ (e2 - e1)).
  { rewrite <- Z.pow_add_r by lia. f_equal. lia. }
  assert (Hk : 2 <= 2 ^ (e2 - e1)).
  { change 2 with (2 ^ 1) at 1. apply Z.pow_le_mono_r; lia. }
  assert (H53 : 2 ^ 53 = 2 ^ 52 * 2) by reflexivity.
  destruct Hn2 as [Hn2|Hn2]; [lia|].
  rewrite Hsplit.
  apply Z.lt_le_trans with (2 ^ 53 * 2 ^ (e1 + 1074)).
  - apply Z.mul_lt_mono_pos_r; assumption.
  - rewrite H53.
    apply Z.le_trans with (2 ^ 52 * (2 ^ (e1 + 1074) * 2 ^ (e2 - e1))).
    + rewrite <- Z.mul_assoc. apply Z.mul_le_mono_nonneg_l; [lia|].
      rewrite Z.mul_comm. apply Z.mul_le_mono_nonneg_l; lia.
    + apply Z.mul_le_mono_nonneg_r; [|assumption].
      apply Z.mul_nonneg_nonneg; lia.
Qed.

(** Canonical positive numbers compare as their values do. *)
Lemma SFcompare_canonical :
  forall m1 e1 m2 e2,
    bounded prec emax m1 e1 = true -> bounded prec emax m2 e2 = true ->
    SFcompare (S754_finite false m1 e1) (S754_finite false m2 e2)
    = Some (ulps m1 e1 ?= ulps m2 e2).
Proof.
  intros m1 e1 m2 e2 H1 H2. cbn [SFcompare]. f_equal.
  destruct (Z.compare_spec e1 e2) as [Heq|Hlt|Hgt].
  - subst e2. unfold ulps.
    assert (Hp : 0 < 2 ^ (e1 + 1074)).
    { apply Z.pow_pos_nonneg; [lia|]. apply bounded_spec in H1. lia. }
    rewrite <- Zmult_compare_compat_r by lia. reflexivity.
  - symmetry. apply Z.compare_lt_iff. apply ulps_exponent_lt; assumption.
  - symmetry. apply Z.compare_gt_iff. apply ulps_exponent_lt; assumption.
Qed.

Lemma of_Z_positive :
  forall c, 1 <= c -> of_Z c = of_ratio false c 1.
Proof.
  intros c Hc. unfold of_Z.
  replace (c <? 0) with false by (symmetry; apply Z.ltb_ge; lia).
  replace (Z.abs c) with c by lia. reflexivity.
Qed.

(** [Math.abs(value) >= c] for a whole [c], in exact arithmetic. *)
Lemma ge_abs_of_Z :
  forall value c,
    valid value -> 1 <= c <= 2 ^ 53 ->
    ge (Math_abs value) (of_Z c)
    = match value with
      | S754_finite _ m e => c * 2 ^ 1074 <=? ulps m e
      | S754_infinity _ => true
      | _ => false
      end.
Proof.
  intros value c Hv Hc. rewrite of_Z_positive by lia.
  destruct (of_ratio_integer false c Hc) as [mc [ec [-> [Hb Hu]]]].
  unfold ge, Math_abs, SFleb.
  destruct value as [s|s| |s m e]; try reflexivity.
  cbn [SFabs]. rewrite (SFcompare_canonical mc ec m e Hb Hv), Hu.
  unfold Z.leb. destruct (c * 2 ^ 1074 ?= ulps m e); reflexivity.
Qed.

Lemma ge_abs_monotone :
  forall value a b,
    valid value -> 1 <= a <= b -> b <= 2 ^ 53 ->
    ge (Math_abs value) (of_Z a) = false -> ge (Math_abs value) (of_Z b) = false.
Proof.
  intros value a b Hv Hab Hb. rewrite !ge_abs_of_Z by (assumption || lia).
  destruct value as [s|s| |s m e]; try (intros; assumption || reflexivity).
  intros H. apply Z.leb_gt in H. apply Z.leb_gt.
  assert (H1074 : 0 < 2 ^ 1074) by (apply Z.pow_pos_nonneg; lia).
  assert (a * 2 ^ 1074 <= b * 2 ^ 1074) by (apply Z.mul_le_mono_nonneg_r; lia). lia.
Qed.

(** ** Rendering whole numbers *)

Lemma assemble_whole :
  forall rounded format,
    count_char "." (toString rounded) = 0 ->
    0 <= decimals format ->
    assemble rounded format
    = Ok ((if ge (Math_abs rounded) (of_Z 1000) && truthy (thousandsSeparator format)
           then addThousandsSeparator (toString rounded) (thousandsSeparator format)
           else toString rounded) ++ zero_fraction format).
Proof.
  intros rounded format Hdot Hd. unfold assemble, zero_fraction, repeat0.
  rewrite (split_absent _ _ Hdot).
  cbn [nth nth_error or_default truthy andb]. rewrite andb_false_r, orb_false_r.
  replace (decimals format <? 0) with false by (symmetry; apply Z.ltb_ge; assumption).
  destruct (showDecimals format); cbn [bind].
  - rewrite padEnd0_zeros by assumption. reflexivity.
  - rewrite append_empty_r. reflexivity.
Qed.

Lemma round_to_format_whole :
  forall sg n format,
    1 <= n < 2 ^ 53 -> 0 <= decimals format <= 100 ->
    round_to_format (of_ratio sg n 1) format = Ok (of_ratio sg n 1).
Proof.
  intros sg n format Hn Hd.
  destruct (of_ratio_integer sg n ltac:(lia)) as [m [e [Hr [Hb Hu]]]].
  pose proof (proj1 (bounded_spec m e) Hb) as [He _].
  unfold round_to_format.
  destruct ((0 <? decimals format) || showDecimals format).
  - rewrite Hr, toFixed_finite by assumption.
    destruct (exact_integer m e n ltac:(lia) Hu) as [Hnum Hden].
    set (num := fst (exact m e)) in *. set (den := snd (exact m e)) in *.
    assert (H21 : 2 ^ 53 < 10 ^ 21) by (apply Z.ltb_lt; vm_compute; reflexivity).
    replace (10 ^ 21 * den <=? num) with false.
    2: { symmetry. apply Z.leb_gt. rewrite Hnum.
         apply Z.mul_lt_mono_pos_r; lia. }
    set (q := 10 ^ decimals format).
    assert (Hq : 0 < q) by (apply Z.pow_pos_nonneg; lia).
    assert (Hfix : (2 * num * q + den) / (2 * den) = n * q).
    { apply div_bounds; [lia|]. rewrite Hnum. split.
      - replace (2 * den * (n * q)) with (2 * (n * den) * q) by ring. lia.
      - replace (2 * den * (n * q + 1)) with (2 * (n * den) * q + 2 * den) by ring. lia. }
    rewrite Hfix. cbn [bind].
    rewrite Number_fixed by (try apply Z.mul_nonneg_nonneg; lia).
    rewrite dec_neg_exponent by lia. fold q.
    rewrite <- Hr. rewrite (Z.mul_comm n q).
    rewrite <- (Z.mul_1_r q) at 2. rewrite of_ratio_scale by lia. reflexivity.
  - rewrite Hr. unfold Math_round.
    destruct (Z.leb_spec 0 e) as [Hpos|Hneg]; [reflexivity|]. cbv zeta.
    unfold ulps in Hu.
    assert (Hs : 2 ^ 1074 = 2 ^ (- e) * 2 ^ (e + 1074)).
    { rewrite <- Z.pow_add_r by lia. f_equal. lia. }
    rewrite Hs in Hu.
    assert (Hp : 0 < 2 ^ (e + 1074)) by (apply Z.pow_pos_nonneg; lia).
    assert (Hm : Zpos m = n * 2 ^ (- e)).
    { apply (Z.mul_cancel_r _ _ (2 ^ (e + 1074))); [lia|]. rewrite Hu. ring. }
    assert (HK : 2 ^ (1 - e) = 2 * 2 ^ (- e)).
    { replace (1 - e) with (1 + - e) by lia. rewrite Z.pow_add_r by lia. reflexivity. }
    assert (Hk : 0 < 2 ^ (- e)) by (apply Z.pow_pos_nonneg; lia).
    assert (Hround : (2 * (if sg then - Zpos m else Zpos m) + 2 ^ (- e)) / 2 ^ (1 - e)
                     = if sg then - n else n).
    { apply div_bounds; [lia|]. rewrite HK, Hm. set (K := 2 ^ (- e)) in *.
      destruct sg; lia. }
    rewrite Hround.
    replace ((if sg then - n else n) =? 0) with false
      by (symmetry; apply Z.eqb_neq; destruct sg; lia).
    unfold of_Z. rewrite <- Hr. destruct sg.
    + replace (- n <? 0) with true by (symmetry; apply Z.ltb_lt; lia).
      replace (Z.abs (- n)) with n by lia. reflexivity.
    + replace (n <? 0) with false by (symmetry; apply Z.ltb_ge; lia).
      replace (Z.abs n) with n by lia. reflexivity.
Qed.

Lemma sign_digits_no_dot :
  forall sg n, 0 <= n -> count_char "." (sign_text sg ++ decimal_digits n) = 0.
Proof.
  intros sg n Hn. rewrite count_char_append.
  destruct (decimal_digits_spec n Hn) as [Hall _ _ _ _].
  rewrite (digits_no_dot _ Hall). destruct sg; reflexivity.
Qed.

Lemma formatCustomNumber_whole :
  forall sg n format,
    1 <= n < 2 ^ 53 -> 0 <= decimals format <= 100 ->
    formatCustomNumber (of_ratio sg n 1) format
    = Ok ((if (1000 <=? n) && truthy (thousandsSeparator format)
           then addThousandsSeparator (sign_text sg ++ decimal_digits n)
                  (thousandsSeparator format)
           else sign_text sg ++ decimal_digits n) ++ zero_fraction format).
Proof.
  intros sg n format Hn Hd. unfold formatCustomNumber.
  rewrite round_to_format_whole by assumption. cbn [bind].
  rewrite assemble_whole; rewrite ?toString_whole by assumption;
    [|apply sign_digits_no_dot; lia|lia].
  destruct (of_ratio_integer sg n ltac:(lia)) as [m [e [Hr [Hb Hu]]]].
  assert (Hge : ge (Math_abs (of_ratio sg n 1)) (of_Z 1000) = (1000 <=? n)).
  { rewrite ge_abs_of_Z; [|rewrite Hr; exact Hb|split; [lia|apply Z.leb_le; reflexivity]].
    rewrite Hr, Hu.
    assert (H1074 : 0 < 2 ^ 1074) by (apply Z.pow_pos_nonneg; lia).
    destruct (Z.leb_spec 1000 n).
    - apply Z.leb_le. apply Z.mul_le_mono_nonneg_r; lia.
    - apply Z.leb_gt. apply Z.mul_lt_mono_pos_r; lia. }
  rewrite Hge. reflexivity.
Qed.

(** X18.  A whole number of magnitude below [2^53] is rendered as its
    decimal digits, with the minus sign of a negative one in front, grouped
    by the thousands separator from 1000 on if there is one, and followed,
    when [showDecimals] is set, by the decimal separator and [decimals]
    zeros. *)
Theorem whole_numbers_render_as_their_digits :
  forall (z : Z) (format : NumberFormat),
    Z.abs z < 2 ^ 53 -> 0 <= decimals format <= 100 ->
    formatCustomNumber (of_Z z) format
    = Ok ((if (1000 <=? Z.abs z) && truthy (thousandsSeparator format)
           then addThousandsSeparator (sign_text (z <? 0) ++ decimal_digits (Z.abs z))
                  (thousandsSeparator format)
           else sign_text (z <? 0) ++ decimal_digits (Z.abs z))
            ++ zero_fraction format).
Proof.
  intros z format Hz Hd.
  destruct (Z.eq_dec z 0) as [->|Hnz].
  - change (of_Z 0) with (S754_zero false). cbn [Z.abs Z.ltb Z.compare sign_text].
    change (1000 <=? 0) with false. cbn [andb].
    unfold formatCustomNumber, round_to_format.
    destruct ((0 <? decimals format) || showDecimals format).
    + rewrite toFixed_zero by assumption. cbn [bind].
      rewrite Number_fixed_zero by lia.
      rewrite assemble_whole by (reflexivity || lia). reflexivity.
    + cbn [bind Math_round].
      rewrite assemble_whole by (reflexivity || lia). reflexivity.
  - unfold of_Z. apply formatCustomNumber_whole; [lia|assumption].
Qed.

Lemma whole_numbers_render_as_their_digits_witness :
  formatCustomNumber (of_Z (-1234567)) (preset " " "," 2 true false)
  = Ok ((if (1000 <=? Z.abs (-1234567)) && truthy (thousandsSeparator (preset " " "," 2 true false))
         then addThousandsSeparator
                (sign_text (-1234567 <? 0) ++ decimal_digits (Z.abs (-1234567)))
                (thousandsSeparator (preset " " "," 2 true false))
         else sign_text (-1234567 <? 0) ++ decimal_digits (Z.abs (-1234567)))
          ++ zero_fraction (preset " " "," 2 true false)).
Proof.
  apply (whole_numbers_render_as_their_digits (-1234567) (preset " " "," 2 true false)).
  - vm_compute. reflexivity.
  - cbn. lia.
Defined.

Example minus_1234567_in_kwanza :
  formatCustomNumber (of_Z (-1234567)) (preset " " "," 2 true false)
  = Ok "-1 234 567,00".
Proof. vm_compute. reflexivity. Qed.

(** ** The tiers of the abbreviation *)

Lemma abbreviate_by_present :
  forall value format abbr sign magnitude tier,
    abbreviations format = Some abbr ->
    exists body,
      formatCustomNumber (div value (of_Z magnitude)) (abbreviated_format format) = Ok body
      /\ abbreviate_by value format sign magnitude tier
         = Ok (sign ++ body ++ or_default (tier abbr) "undefined").
Proof.
  intros value format abbr sign magnitude tier Habbr. unfold abbreviate_by.
  destruct (formatCustomNumber_in_range (div value (of_Z magnitude))
              (abbreviated_format format)) as [body Hbody].
  { cbn [abbreviated_format decimals showDecimals]. lia. }
  exists body. split; [assumption|]. rewrite Hbody. cbn [bind].
  unfold abbreviation. rewrite Habbr. reflexivity.
Qed.

(** X19.  The tier of an abbreviated value is decided by the two thresholds
    around it: from 10^12 the trillion suffix, from 10^9 below 10^12 the
    billion one, from 10^6 the million one, from 1000 the thousand one, each
    after the value divided by the threshold and formatted with one decimal
    place; below 1000 the value is formatted as it is.  A suffix that the
    format leaves out is printed as [undefined]. *)
Theorem abbreviateNumber_tiers :
  forall (value : number) (format : NumberFormat) (abbr : Abbreviations),
    valid value ->
    abbreviations format = Some abbr ->
    (ge (Math_abs value) (of_Z 1000000000000) = true ->
     abbreviated_with value format 1000000000000 (or_default (trillion abbr) "undefined"))
    /\ (ge (Math_abs value) (of_Z 1000000000) = true ->
        ge (Math_abs value) (of_Z 1000000000000) = false ->
        abbreviated_with value format 1000000000 (or_default (billion abbr) "undefined"))
    /\ (ge (Math_abs value) (of_Z 1000000) = true ->
        ge (Math_abs value) (of_Z 1000000000) = false ->
        abbreviated_with value format 1000000 (or_default (million abbr) "undefined"))
    /\ (ge (Math_abs value) (of_Z 1000) = true ->
        ge (Math_abs value) (of_Z 1000000) = false ->
        abbreviated_with value format 1000 (or_default (thousand abbr) "undefined"))
    /\ (ge (Math_abs value) (of_Z 1000) = false ->
        abbreviateNumber value format = formatCustomNumber value format).
Proof.
  intros value format abbr Hv Habbr.
  assert (H53 : 1000000000000 <= 2 ^ 53) by (apply Z.leb_le; reflexivity).
  assert (Hmono : forall a b, 1 <= a <= b -> b <= 1000000000000 ->
                              ge (Math_abs value) (of_Z a) = false ->
                              ge (Math_abs value) (of_Z b) = false).
  { intros a b Hab Hb. apply ge_abs_monotone; try assumption.
    exact (Z.le_trans _ _ _ Hb H53). }
  assert (Hup : forall a b, 1 <= a <= b -> b <= 1000000000000 ->
                            ge (Math_abs value) (of_Z a) = false ->
                            ge (Math_abs value) (of_Z b) = false) by exact Hmono.
  unfold abbreviated_with, abbreviateNumber.
  repeat split.
  - intros H1. rewrite H1. apply abbreviate_by_present. assumption.
  - intros H2 H1. rewrite H1, H2. apply abbreviate_by_present. assumption.
  - intros H3 H2.
    rewrite (Hup 1000000000 1000000000000 ltac:(lia) ltac:(lia) H2), H2, H3.
    apply abbreviate_by_present. assumption.
  - intros H4 H3.
    rewrite (Hup 1000000 1000000000000 ltac:(lia) ltac:(lia) H3),
      (Hup 1000000 1000000000 ltac:(lia) ltac:(lia) H3), H3, H4.
    apply abbreviate_by_present. assumption.
  - intros H4.
    rewrite (Hup 1000 1000000000000 ltac:(lia) ltac:(lia) H4),
      (Hup 1000 1000000000 ltac:(lia) ltac:(lia) H4),
      (Hup 1000 1000000 ltac:(lia) ltac:(lia) H4), H4.
    reflexivity.
Qed.

Lemma abbreviateNumber_tiers_witness :
  abbreviated_with (of_Z 2500000) abbreviating_format 1000000
    (or_default (million default_abbreviations) "undefined").
Proof.
  refine (proj1 (proj2 (proj2 (abbreviateNumber_tiers (of_Z 2500000) abbreviating_format
                                 default_abbreviations _ _))) _ _).
  - vm_compute. reflexivity.
  - reflexivity.
  - vm_compute. reflexivity.
  - vm_compute. reflexivity.
Defined.

Example two_and_a_half_million :
  abbreviateNumber (of_Z 2500000) abbreviating_format = Ok "2,5M"
  /\ abbreviateNumber (of_Z 999999) abbreviating_format = Ok "1 000,0K".
Proof. split; vm_compute; reflexivity. Qed.

(** ** A target that cannot be rendered *)

(** X20.  When the target cannot be rendered, no frame completes the
    animation: a frame either throws or requests another one, the completion
    callback is never called and the visual effect is never removed.  This
    is what the abbreviating preset does to every target of magnitude 1000
    or more. *)
Theorem animation_never_completes_without_abbreviations :
  forall (a : Animation) (element : Element) (currentTime : number),
    formatNumber (config a) = true ->
    abbreviate (numberFormat (config a)) = true ->
    abbreviations (numberFormat (config a)) = None ->
    ge (Math_abs (targetValue a)) (of_Z 1000) = true ->
    let '(_, events, thrown) := animate a element currentTime in
    ~ In (CallOnComplete (targetValue a)) events
    /\ ~ In RemoveVisualEffect events
    /\ (thrown = None -> In RequestAnimationFrame events).
Proof.
  intros a element currentTime Hf Ha Hnone Hge.
  assert (Htarget : formatValue (targetValue a) (config a) = Throw TypeError).
  { unfold formatValue. rewrite Hf, Ha. cbn [negb]. unfold abbreviateNumber.
    rewrite Hge, !abbreviate_by_missing by assumption.
    destruct (ge (Math_abs (targetValue a)) (of_Z 1000000000000)); [reflexivity|].
    destruct (ge (Math_abs (targetValue a)) (of_Z 1000000000)); [reflexivity|].
    destruct (ge (Math_abs (targetValue a)) (of_Z 1000000)); reflexivity. }
  unfold animate. destruct (easing a) as [easingFunction|].
  2: { repeat split; intros H; inversion H. }
  cbv zeta.
  match goal with
  | |- context [formatValue ?v (config a)] =>
      lazymatch v with
      | targetValue a => fail
      | _ => destruct (formatValue v (config a)) as [formattedValue|e]
      end
  end.
  2: { repeat split; intros H; inversion H. }
  destruct (lt _ (of_Z 1)).
  - repeat split.
    + intros H. repeat (apply in_app_or in H; destruct H as [H|H]);
        destruct (onUpdate (config a)); simpl in H; intuition discriminate.
    + intros H. repeat (apply in_app_or in H; destruct H as [H|H]);
        destruct (onUpdate (config a)); simpl in H; intuition discriminate.
    + intros _. apply in_or_app. right. left. reflexivity.
  - rewrite Htarget. repeat split.
    + intros H. repeat (apply in_app_or in H; destruct H as [H|H]);
        destruct (onUpdate (config a)); simpl in H; intuition discriminate.
    + intros H. repeat (apply in_app_or in H; destruct H as [H|H]);
        destruct (onUpdate (config a)); simpl in H; intuition discriminate.
    + intros H. discriminate H.
Qed.

Lemma animation_never_completes_without_abbreviations_witness :
  let '(_, events, thrown) := animate preset_session blank_element (of_Z 2000) in
  ~ In (CallOnComplete (targetValue preset_session)) events
  /\ ~ In RemoveVisualEffect events
  /\ (thrown = None -> In RequestAnimationFrame events).
Proof.
  apply (animation_never_completes_without_abbreviations preset_session blank_element
           (of_Z 2000)).
  - reflexivity.
  - reflexivity.
  - reflexivity.
  - vm_compute. reflexivity.
Defined.

Example abbreviated_preset_last_frame :
  snd (animate preset_session blank_element (of_Z 2000)) = Some TypeError
  /\ snd (animate preset_session blank_element (of_Z 1000)) = None.
Proof. split; vm_compute; reflexivity. Qed.

(** ** Reading back what was rendered *)

Lemma filter_inserted :
  forall keep c s after_word,
    keep c = false ->
    filter_chars keep (insert_literal (String c EmptyString) after_word s)
    = filter_chars keep s.
Proof.
  intros keep c s. induction s as [|a s IH]; intros after_word Hc; [reflexivity|].
  cbn [insert_literal].
  match goal with
  | |- context [if ?b then _ else _] => destruct b
  end; cbn [append filter_chars]; rewrite ?Hc, IH by assumption; reflexivity.
Qed.

Lemma all_chars_inserted :
  forall p c s after_word,
    p c = true -> all_chars p s = true ->
    all_chars p (insert_literal (String c EmptyString) after_word s) = true.
Proof.
  intros p c s. induction s as [|a s IH]; intros after_word Hc Hs; [reflexivity|].
  cbn [all_chars] in Hs. apply andb_true_iff in Hs. destruct Hs as [Ha Hs].
  cbn [insert_literal].
  match goal with
  | |- context [if ?b then _ else _] => destruct b
  end; cbn [append all_chars]; rewrite ?Hc, Ha, IH by assumption; reflexivity.
Qed.

Lemma addThousandsSeparator_signed :
  forall sg ds separator,
    all_chars is_digit ds = true ->
    addThousandsSeparator (sign_text sg ++ ds) (String separator EmptyString)
    = sign_text sg ++ insert_literal (String separator EmptyString) false ds.
Proof.
  intros sg ds separator Hall. unfold addThousandsSeparator.
  destruct sg; cbn [sign_text append startsWith slice1 drop].
  - change (Ascii.eqb "-" "-") with true. cbv iota.
    rewrite insert_separators_char. reflexivity.
  - destruct ds as [|c ds]; [reflexivity|].
    cbn [all_chars] in Hall. apply andb_true_iff in Hall. destruct Hall as [Hc _].
    cbn [startsWith]. destruct (digit_facts c Hc) as [-> _].
    rewrite insert_separators_char. reflexivity.
Qed.

Lemma three_characters :
  forall s, len s = 3 ->
            exists a b c, s = String a (String b (String c EmptyString)).
Proof.
  intros s H. destruct s as [|a [|b [|c [|d s]]]];
    rewrite ?len_String in H; try (change (len EmptyString) with 0 in H; lia).
  - exists a, b, c. reflexivity.
  - pose proof (len_nonneg s). lia.
Qed.

(** Digits of a number from 1000 on: some digits, then three more. *)
Lemma digits_last_three :
  forall ds,
    all_chars is_digit ds = true -> 4 <= len ds ->
    exists hd d1 d2 d3,
      ds = hd ++ String d1 (String d2 (String d3 EmptyString))
      /\ all_chars is_digit hd = true /\ truthy hd = true
      /\ is_digit d1 = true /\ is_digit d2 = true /\ is_digit d3 = true.
Proof.
  intros ds Hall Hlen.
  set (k := Z.to_nat (len ds - 3)).
  destruct (all_chars_take_drop is_digit k ds Hall) as [Hta Hdr].
  assert (Hk : Z.of_nat k <= len ds) by (unfold k; lia).
  destruct (three_characters (drop k ds)) as [d1 [d2 [d3 Hd]]].
  { rewrite len_drop by assumption. unfold k. lia. }
  exists (take k ds), d1, d2, d3. rewrite <- Hd, take_drop.
  rewrite Hd in Hdr. cbn [all_chars] in Hdr.
  apply andb_true_iff in Hdr. destruct Hdr as [H1 Hdr].
  apply andb_true_iff in Hdr. destruct Hdr as [H2 Hdr].
  apply andb_true_iff in Hdr. destruct Hdr as [H3 _].
  repeat split; try assumption.
  replace k with (S (Z.to_nat (len ds - 4))) by (unfold k; lia).
  apply truthy_take. destruct ds; [|reflexivity].
  change (len EmptyString) with 0 in Hlen. lia.
Qed.

Lemma decimal_digits_length :
  forall n, 1000 <= n -> 4 <= len (decimal_digits n).
Proof.
  intros n Hn. destruct (decimal_digits_spec n ltac:(lia)) as [_ _ _ _ Hhigh].
  pose proof (len_nonneg (decimal_digits n)).
  destruct (Z_lt_le_dec (len (decimal_digits n)) 4) as [Hlt|]; [exfalso|assumption].
  assert (10 ^ len (decimal_digits n) <= 10 ^ 3) by (apply Z.pow_le_mono_r; lia).
  change (10 ^ 3) with 1000 in *. lia.
Qed.

Lemma parseFloat_signed_digits :
  forall sg n,
    0 <= n -> parseFloat (sign_text sg ++ decimal_digits n) = of_ratio sg n 1.
Proof.
  intros sg n Hn. destruct (decimal_digits_spec n Hn) as [Hall Hsome _ _ _].
  pose proof (parseFloat_numeral sg (decimal_digits n) None None Hall Hsome eq_refl) as H.
  cbn [frac_text expo_text or_default option_map] in H.
  rewrite !append_empty_r in H. rewrite H, decimal_digits_value by assumption.
  unfold dec. change (0 - len EmptyString) with 0. change (0 <=? 0) with true.
  cbv iota. change (10 ^ 0) with 1. rewrite Z.mul_1_r. reflexivity.
Qed.

Lemma signed_digits_numeric :
  forall sg ds,
    all_chars is_digit ds = true -> all_chars numeric_char (sign_text sg ++ ds) = true.
Proof.
  intros sg ds Hall. rewrite all_chars_append. apply andb_true_iff. split.
  - destruct sg; reflexivity.
  - apply (all_chars_impl is_digit); [|assumption].
    intros c Hc. unfold numeric_char. rewrite Hc. reflexivity.
Qed.

Lemma signed_digits_no_separator :
  forall sg ds,
    all_chars is_digit ds = true ->
    has_char (fun c => is_dot c || is_comma c) (sign_text sg ++ ds) = false.
Proof.
  intros sg ds Hall. rewrite has_char_append.
  replace (has_char (fun c => is_dot c || is_comma c) (sign_text sg)) with false
    by (destruct sg; reflexivity).
  cbn [orb]. induction ds as [|c ds IH]; [reflexivity|].
  cbn [all_chars] in Hall. apply andb_true_iff in Hall. destruct Hall as [Hc Hds].
  cbn [has_char]. rewrite IH by assumption.
  unfold is_dot, is_comma.
  destruct (digit_facts c Hc) as [_ [_ [_ [_ [_ [_ [_ [_ [_ ->]]]]]]]]].
  destruct (Ascii.eqb_spec c ","); [subst; discriminate Hc|reflexivity].
Qed.

(** The detection on a signed run of digits. *)
Lemma smartNumberDetection_signed_digits :
  forall text sg n,
    1 <= n <= 2 ^ 53 ->
    strip_non_numeric text = sign_text sg ++ decimal_digits n ->
    smartNumberDetection text = of_ratio sg n 1.
Proof.
  intros text sg n Hn Hclean. unfold smartNumberDetection. cbv zeta. rewrite Hclean.
  destruct (decimal_digits_spec n ltac:(lia)) as [Hall _ _ _ _].
  rewrite signed_digits_no_separator by assumption. cbn [negb].
  rewrite parseFloat_signed_digits by lia.
  destruct (of_ratio_integer sg n Hn) as [m [e [-> _]]]. reflexivity.
Qed.

Lemma count_char_digits :
  forall c ds, is_digit c = false -> all_chars is_digit ds = true -> count_char c ds = 0.
Proof.
  intros c ds Hc. induction ds as [|a ds IH]; intros Hall; [reflexivity|].
  cbn [all_chars] in Hall. apply andb_true_iff in Hall. destruct Hall as [Ha Hds].
  cbn [count_char]. rewrite IH by assumption.
  destruct (Ascii.eqb_spec a c); [subst; congruence|reflexivity].
Qed.

Lemma count_char_signed_digits :
  forall c sg ds,
    is_digit c = false -> Ascii.eqb c "-" = false ->
    all_chars is_digit ds = true -> count_char c (sign_text sg ++ ds) = 0.
Proof.
  intros c sg ds Hc Hm Hall. rewrite count_char_append, (count_char_digits c ds Hc Hall).
  destruct sg; [|reflexivity]. unfold sign_text. cbn [count_char].
  destruct (Ascii.eqb_spec "-" c) as [E|E]; [|reflexivity].
  subst c. discriminate Hm.
Qed.

(** A grouped number from 1000 on: its last separator is followed by three
    digits, and without the separators it is the digits. *)
Lemma grouped_shape :
  forall c sg n,
    is_digit c = false -> Ascii.eqb c "-" = false -> 1000 <= n ->
    exists front after,
      addThousandsSeparator (sign_text sg ++ decimal_digits n) (String c EmptyString)
      = front ++ String c after
      /\ len after = 3 /\ count_char c after = 0
      /\ remove_char c (front ++ String c after) = sign_text sg ++ decimal_digits n
      /\ (forall p, p c = true -> p "-"%char = true ->
                    (forall a, is_digit a = true -> p a = true) ->
                    all_chars p (front ++ String c after) = true).
Proof.
  intros c sg n Hc Hm Hn.
  destruct (decimal_digits_spec n ltac:(lia)) as [Hall _ _ _ _].
  destruct (digits_last_three _ Hall (decimal_digits_length n Hn))
    as [hd [d1 [d2 [d3 [Hds [Hhd [Hsome [H1 [H2 H3]]]]]]]]].
  set (ddd := String d1 (String d2 (String d3 EmptyString))) in *.
  assert (Hddd : all_chars is_digit ddd = true).
  { unfold ddd. cbn [all_chars]. rewrite H1, H2, H3. reflexivity. }
  exists (sign_text sg ++ insert_literal (String c EmptyString) false hd), ddd.
  assert (Hshape : addThousandsSeparator (sign_text sg ++ decimal_digits n)
                     (String c EmptyString)
                   = (sign_text sg ++ insert_literal (String c EmptyString) false hd)
                       ++ String c ddd).
  { rewrite addThousandsSeparator_signed by assumption. rewrite Hds.
    unfold ddd. rewrite insert_literal_append_three by assumption.
    rewrite append_assoc. reflexivity. }
  split; [exact Hshape|]. split; [reflexivity|].
  split; [apply count_char_digits; assumption|]. split.
  - rewrite <- Hshape, addThousandsSeparator_signed by assumption.
    rewrite remove_char_append. unfold remove_char at 2. rewrite filter_inserted.
    + fold (remove_char c (decimal_digits n)). rewrite <- remove_char_append.
      apply remove_char_absent. apply count_char_signed_digits; assumption.
    + rewrite Ascii.eqb_refl. reflexivity.
  - intros p Hpc Hpm Hpd. rewrite <- Hshape, addThousandsSeparator_signed by assumption.
    rewrite all_chars_append. apply andb_true_iff. split.
    + destruct sg; cbn [sign_text all_chars]; rewrite ?Hpm; reflexivity.
    + apply all_chars_inserted; [assumption|].
      apply (all_chars_impl is_digit); assumption.
Qed.

Lemma parseWithCommaSeparator_grouped :
  forall front after,
    len after = 3 -> count_char "," after = 0 ->
    parseWithCommaSeparator (front ++ String "," after)
    = parseFloat (remove_char "," (front ++ String "," after)).
Proof.
  intros front after Hlen Hafter.
  pose proof (count_char_nonneg "," front) as Hnn.
  destruct (Z.eq_dec (count_char "," front) 0) as [H0|H0].
  - rewrite parseWithCommaSeparator_one by assumption. rewrite Hlen.
    change (3 <=? 2) with false. change (3 =? 3) with true. cbv iota.
    rewrite remove_char_append, remove_char_here, !remove_char_absent by assumption.
    reflexivity.
  - unfold parseWithCommaSeparator. rewrite count_char_around, Hafter.
    replace (count_char "," front + 1 + 0 =? 1) with false
      by (symmetry; apply Z.eqb_neq; lia).
    reflexivity.
Qed.

Lemma parseWithDotSeparator_grouped :
  forall front after,
    len after = 3 -> count_char "." after = 0 ->
    parseWithDotSeparator (front ++ String "." after)
    = parseFloat (remove_char "." (front ++ String "." after)).
Proof.
  intros front after Hlen Hafter.
  pose proof (count_char_nonneg "." front) as Hnn.
  destruct (Z.eq_dec (count_char "." front) 0) as [H0|H0].
  - rewrite parseWithDotSeparator_one by assumption. rewrite Hlen.
    change (3 =? 3) with true. cbv iota.
    rewrite remove_char_append, remove_char_here, !remove_char_absent by assumption.
    reflexivity.
  - rewrite parseWithDotSeparator_many by (assumption || lia). rewrite Hlen.
    change (3 <=? 2) with false. reflexivity.
Qed.

(** The detection on a grouped whole number. *)
Lemma smartNumberDetection_grouped :
  forall c sg n,
    c = " "%char \/ c = ","%char \/ c = "."%char ->
    1000 <= n <= 2 ^ 53 ->
    smartNumberDetection
      (addThousandsSeparator (sign_text sg ++ decimal_digits n) (String c EmptyString))
    = of_ratio sg n 1.
Proof.
  intros c sg n Hc Hn.
  destruct (decimal_digits_spec n ltac:(lia)) as [Hall _ _ _ _].
  assert (Hcd : is_digit c = false /\ Ascii.eqb c "-" = false).
  { destruct Hc as [->|[->| ->]]; split; reflexivity. }
  destruct Hcd as [Hcd Hcm].
  destruct (grouped_shape c sg n Hcd Hcm ltac:(lia))
    as [front [after [Hshape [Hlen [Hafter [Hrem Hchars]]]]]].
  rewrite Hshape.
  destruct Hc as [->|[->| ->]].
  - apply smartNumberDetection_signed_digits; [lia|].
    rewrite <- Hshape, addThousandsSeparator_signed by assumption.
    unfold strip_non_numeric. rewrite <- (strip_non_numeric_numeric _ (signed_digits_numeric sg _ Hall)).
    unfold strip_non_numeric.
    assert (Hf : forall a b keep, filter_chars keep (a ++ b)
                                  = filter_chars keep a ++ filter_chars keep b).
    { intros a b keep. induction a as [|x a IH]; [reflexivity|].
      cbn [append filter_chars]. destruct (keep x); cbn [append]; rewrite IH; reflexivity. }
    rewrite !Hf, filter_inserted by reflexivity. reflexivity.
  - assert (Hnum : all_chars numeric_char (front ++ String "," after) = true).
    { apply Hchars; try reflexivity. intros a Ha. unfold numeric_char. rewrite Ha. reflexivity. }
    assert (Hdots : count_char "." (front ++ String "," after) = 0).
    { apply count_char_has_char.
      assert (Hno : all_chars (fun a => negb (Ascii.eqb a ".")) (front ++ String "," after)
                    = true).
      { apply Hchars; try reflexivity. intros a Ha.
        destruct (digit_facts a Ha) as [_ [_ [_ [_ [_ [_ [_ [_ [_ ->]]]]]]]]]. reflexivity. }
      revert Hno. generalize (front ++ String "," after).
      induction s as [|x s IH]; intros Hno; [reflexivity|].
      cbn [all_chars] in Hno. apply andb_true_iff in Hno. destruct Hno as [Hx Hs].
      cbn [has_char]. apply negb_true_iff in Hx. rewrite Hx, IH by assumption. reflexivity. }
    rewrite detection_dispatch_comma; rewrite ?strip_non_numeric_numeric by assumption.
    + rewrite parseWithCommaSeparator_grouped, Hrem by assumption.
      apply parseFloat_signed_digits. lia.
    + assumption.
    + rewrite count_char_around. pose proof (count_char_nonneg "," front).
      pose proof (count_char_nonneg "," after). lia.
  - assert (Hnum : all_chars numeric_char (front ++ String "." after) = true).
    { apply Hchars; try reflexivity. intros a Ha. unfold numeric_char. rewrite Ha. reflexivity. }
    assert (Hcommas : count_char "," (front ++ String "." after) = 0).
    { apply count_char_has_char.
      assert (Hno : all_chars (fun a => negb (Ascii.eqb a ",")) (front ++ String "." after)
                    = true).
      { apply Hchars; try reflexivity. intros a Ha.
        destruct (Ascii.eqb_spec a ","); [subst; discriminate Ha|reflexivity]. }
      revert Hno. generalize (front ++ String "." after).
      induction s as [|x s IH]; intros Hno; [reflexivity|].
      cbn [all_chars] in Hno. apply andb_true_iff in Hno. destruct Hno as [Hx Hs].
      cbn [has_char]. apply negb_true_iff in Hx. rewrite Hx, IH by assumption. reflexivity. }
    rewrite detection_dispatch_dot; rewrite ?strip_non_numeric_numeric by assumption.
    + rewrite parseWithDotSeparator_grouped, Hrem by assumption.
      apply parseFloat_signed_digits. lia.
    + assumption.
    + rewrite count_char_around. pose proof (count_char_nonneg "." front).
      pose proof (count_char_nonneg "." after). lia.
Qed.

(** X21.  A whole number of magnitude below [2^53], rendered without decimal
    places and grouped by a space, a comma or a period, is read back by the
    automatic detection as the same number. *)
Theorem detection_reads_back_whole_numbers :
  forall (z : Z) (format : NumberFormat) (c : ascii),
    Z.abs z < 2 ^ 53 ->
    decimals format = 0 -> showDecimals format = false ->
    thousandsSeparator format = String c EmptyString ->
    c = " "%char \/ c = ","%char \/ c = "."%char ->
    exists text,
      formatCustomNumber (of_Z z) format = Ok text
      /\ smartNumberDetection text = of_Z z.
Proof.
  intros z format c Hz Hd Hs Hsep Hc.
  destruct (Z.eq_dec z 0) as [->|Hnz].
  - exists "0". split; [|reflexivity].
    change (of_Z 0) with (S754_zero false).
    unfold formatCustomNumber, round_to_format. rewrite Hd, Hs.
    change ((0 <? 0) || false) with false. cbv iota. cbn [bind Math_round].
    rewrite assemble_whole by (reflexivity || lia).
    unfold zero_fraction. rewrite Hs. reflexivity.
  - eexists. split.
    + unfold of_Z. apply formatCustomNumber_whole; lia.
    + unfold zero_fraction. rewrite Hs, append_empty_r, Hsep. cbn [truthy].
      rewrite andb_true_r. unfold of_Z.
      destruct (Z.leb_spec 1000 (Z.abs z)).
      * apply smartNumberDetection_grouped; [assumption|lia].
      * apply smartNumberDetection_signed_digits; [lia|].
        apply strip_non_numeric_numeric, signed_digits_numeric.
        apply (decimal_digits_spec (Z.abs z)). lia.
Qed.

Lemma detection_reads_back_whole_numbers_witness :
  exists text,
    formatCustomNumber (of_Z (-1234567)) (preset "." "," 0 false false) = Ok text
    /\ smartNumberDetection text = of_Z (-1234567).
Proof.
  apply (detection_reads_back_whole_numbers (-1234567) (preset "." "," 0 false false) ".");
    try reflexivity.
  right. right. reflexivity.
Defined.

Example decimals_are_not_read_back :
  formatCustomNumber (dec false 1234 (-3)) (preset " " "," 3 true false) = Ok "1,234"
  /\ smartNumberDetection "1,234" = of_Z 1234.
Proof. split; vm_compute; reflexivity. Qed.

(** ** Colours *)

Lemma hex_digit_facts :
  forall c,
    is_hex_digit c = true ->
    is_space c = false
    /\ Ascii.eqb c "-" = false /\ Ascii.eqb c "+" = false
    /\ Ascii.eqb "x" c = false /\ Ascii.eqb "X" c = false
    /\ radix_digit 16 c = Some (hex_value c) /\ 0 <= hex_value c <= 15.
Proof.
  intros c H.
  assert (Hne : forall d, is_hex_digit d = false -> Ascii.eqb c d = false).
  { intros d Hd. destruct (Ascii.eqb_spec c d); [subst; congruence|reflexivity]. }
  assert (Hne' : forall d, is_hex_digit d = false -> Ascii.eqb d c = false).
  { intros d Hd. destruct (Ascii.eqb_spec d c); [subst; congruence|reflexivity]. }
  split.
  { unfold is_hex_digit, radix_digit in H. unfold is_space.
    set (n := Z.of_N (N_of_ascii c)) in *.
    destruct (Z.leb_spec 9 n), (Z.leb_spec n 13), (Z.eqb_spec n 32), (Z.eqb_spec n 160);
      cbn [andb orb]; try reflexivity; exfalso;
      destruct (Z.leb_spec 48 n), (Z.leb_spec n 57), (Z.leb_spec 97 n),
        (Z.leb_spec n 102), (Z.leb_spec 65 n), (Z.leb_spec n 70);
      cbn [andb] in H; try lia; discriminate H. }
  split; [apply Hne; reflexivity|]. split; [apply Hne; reflexivity|].
  split; [apply Hne'; reflexivity|]. split; [apply Hne'; reflexivity|].
  unfold hex_value. unfold is_hex_digit in H.
  destruct (radix_digit 16 c) as [v|] eqn:E; [|discriminate H].
  split; [reflexivity|]. cbn [or_default].
  unfold radix_digit in E. set (n := Z.of_N (N_of_ascii c)) in *.
  destruct (Z.leb_spec 48 n), (Z.leb_spec n 57), (Z.leb_spec 97 n),
    (Z.leb_spec n 102), (Z.leb_spec 65 n), (Z.leb_spec n 70);
    cbn [andb] in E;
    match type of E with
    | (if ?d <? 16 then _ else _) = _ =>
        destruct (Z.ltb_spec d 16); [injection E as <-; lia|discriminate E]
    end.
Qed.

Lemma parseInt16_pair :
  forall high low,
    is_hex_digit high = true -> is_hex_digit low = true ->
    parseInt16 (String high (String low EmptyString)) = of_Z (hex_pair high low)
    /\ 0 <= hex_pair high low <= 255.
Proof.
  intros high low Hh Hl.
  destruct (hex_digit_facts high Hh) as [Hs [Hm [Hp [_ [_ [Hrh Hbh]]]]]].
  destruct (hex_digit_facts low Hl) as [_ [_ [_ [Hx [HX [Hrl Hbl]]]]]].
  split; [|unfold hex_pair; lia].
  unfold parseInt16. cbn [trim_start]. rewrite Hs. cbn [strip_sign]. rewrite Hm, Hp.
  cbn [has_prefix]. rewrite Hx, HX, !andb_false_r. cbn [orb].
  cbn [span]. rewrite Hh, Hl. cbn [fst truthy radix_value]. rewrite Hrh, Hrl.
  fold (hex_pair high low).
  destruct (Z.eqb_spec (hex_pair high low) 0) as [->|Hne]; [reflexivity|].
  symmetry. apply of_Z_positive. unfold hex_pair in *. lia.
Qed.

(** Between any two bytes, the sum that [channel] rounds is the first byte
    with progress 0 and the second with progress 1: every pair is computed. *)
Lemma channel_sums :
  let zero := of_Z 0 in
  let one := of_Z 1 in
  let numbers := map of_Z bytes in
  forallb
    (fun from =>
       forallb
         (fun to =>
            same (add from (mul (sub to from) zero)) from
            && same (add from (mul (sub to from) one)) to)
         numbers)
    numbers
  = true.
Proof. vm_compute. reflexivity. Qed.

Lemma Math_round_byte :
  forall a, 0 <= a <= 255 -> Math_round (of_Z a) = of_Z a.
Proof.
  intros a Ha. destruct (Z.eq_dec a 0) as [->|Hne]; [reflexivity|].
  rewrite of_Z_positive by lia.
  assert (H53 : 255 < 2 ^ 53) by (apply Z.ltb_lt; reflexivity).
  pose proof (round_to_format_whole false a (preset " " "," 0 false false)
                ltac:(lia) ltac:(cbn; lia)) as H.
  unfold round_to_format in H. cbn [preset decimals showDecimals] in H.
  change ((0 <? 0) || false) with false in H. cbv iota in H.
  injection H as H. exact H.
Qed.

Lemma channel_between_bytes :
  forall a b,
    0 <= a <= 255 -> 0 <= b <= 255 ->
    channel (of_Z a) (of_Z b) (of_Z 0) = of_Z a
    /\ channel (of_Z a) (of_Z b) (of_Z 1) = of_Z b.
Proof.
  intros a b Ha Hb. pose proof channel_sums as H. cbv zeta in H.
  rewrite forallb_forall in H.
  assert (Hin : forall x, 0 <= x <= 255 -> In (of_Z x) (map of_Z bytes)).
  { intros x Hx. apply in_map. unfold bytes. apply in_map_iff. exists (Z.to_nat x).
    split; [lia|]. apply in_seq. lia. }
  specialize (H (of_Z a) (Hin a Ha)).
  rewrite forallb_forall in H. specialize (H (of_Z b) (Hin b Hb)).
  apply andb_true_iff in H. destruct H as [H0 H1].
  apply same_eq in H0. apply same_eq in H1.
  unfold channel. rewrite H0, H1. split; apply Math_round_byte; assumption.
Qed.

Lemma toString_byte :
  forall a, 0 <= a <= 255 -> toString (of_Z a) = decimal_digits a.
Proof.
  intros a Ha. destruct (Z.eq_dec a 0) as [->|Hne]; [reflexivity|].
  rewrite of_Z_positive by lia.
  assert (H53 : 255 < 2 ^ 53) by (apply Z.ltb_lt; reflexivity).
  rewrite toString_whole by lia. reflexivity.
Qed.

(** X22.  Between two colours written as [#] and six hexadecimal digits,
    [interpolateColor] gives the first colour at progress 0 and the second
    at progress 1, each as the [rgb] text of its three bytes. *)
Theorem interpolateColor_ends :
  forall (r1 r2 g1 g2 b1 b2 r1' r2' g1' g2' b1' b2' : ascii),
    forallb is_hex_digit [r1; r2; g1; g2; b1; b2] = true ->
    forallb is_hex_digit [r1'; r2'; g1'; g2'; b1'; b2'] = true ->
    interpolateColor (hex_color r1 r2 g1 g2 b1 b2) (hex_color r1' r2' g1' g2' b1' b2')
      (of_Z 0)
    = rgb_text (hex_pair r1 r2) (hex_pair g1 g2) (hex_pair b1 b2)
    /\ interpolateColor (hex_color r1 r2 g1 g2 b1 b2)
         (hex_color r1' r2' g1' g2' b1' b2') (of_Z 1)
       = rgb_text (hex_pair r1' r2') (hex_pair g1' g2') (hex_pair b1' b2').
Proof.
  intros r1 r2 g1 g2 b1 b2 r1' r2' g1' g2' b1' b2' H H'.
  cbn [forallb] in H, H'.
  repeat match goal with
         | X : _ && _ = true |- _ => apply andb_true_iff in X; destruct X
         end.
  destruct (parseInt16_pair r1 r2) as [Er Hr]; try assumption.
  destruct (parseInt16_pair g1 g2) as [Eg Hg]; try assumption.
  destruct (parseInt16_pair b1 b2) as [Eb Hb]; try assumption.
  destruct (parseInt16_pair r1' r2') as [Er' Hr']; try assumption.
  destruct (parseInt16_pair g1' g2') as [Eg' Hg']; try assumption.
  destruct (parseInt16_pair b1' b2') as [Eb' Hb']; try assumption.
  destruct (channel_between_bytes _ _ Hr Hr') as [Cr0 Cr1].
  destruct (channel_between_bytes _ _ Hg Hg') as [Cg0 Cg1].
  destruct (channel_between_bytes _ _ Hb Hb') as [Cb0 Cb1].
  unfold interpolateColor, hex_color, rgb_text.
  change (remove_first "#" (String "#" ?s)) with s.
  cbn [remove_first]. change (Ascii.eqb "#" "#") with true. cbv iota.
  change (substr (String r1 (String r2 (String g1 (String g2 (String b1
            (String b2 EmptyString)))))) 0 2) with (String r1 (String r2 EmptyString)).
  change (substr (String r1 (String r2 (String g1 (String g2 (String b1
            (String b2 EmptyString)))))) 2 2) with (String g1 (String g2 EmptyString)).
  change (substr (String r1 (String r2 (String g1 (String g2 (String b1
            (String b2 EmptyString)))))) 4 2) with (String b1 (String b2 EmptyString)).
  change (substr (String r1' (String r2' (String g1' (String g2' (String b1'
            (String b2' EmptyString)))))) 0 2) with (String r1' (String r2' EmptyString)).
  change (substr (String r1' (String r2' (String g1' (String g2' (String b1'
            (String b2' EmptyString)))))) 2 2) with (String g1' (String g2' EmptyString)).
  change (substr (String r1' (String r2' (String g1' (String g2' (String b1'
            (String b2' EmptyString)))))) 4 2) with (String b1' (String b2' EmptyString)).
  rewrite Er, Eg, Eb, Er', Eg', Eb'.
  fold (channel (of_Z (hex_pair r1 r2)) (of_Z (hex_pair r1' r2')) (of_Z 0)).
  fold (channel (of_Z (hex_pair g1 g2)) (of_Z (hex_pair g1' g2')) (of_Z 0)).
  fold (channel (of_Z (hex_pair b1 b2)) (of_Z (hex_pair b1' b2')) (of_Z 0)).
  fold (channel (of_Z (hex_pair r1 r2)) (of_Z (hex_pair r1' r2')) (of_Z 1)).
  fold (channel (of_Z (hex_pair g1 g2)) (of_Z (hex_pair g1' g2')) (of_Z 1)).
  fold (channel (of_Z (hex_pair b1 b2)) (of_Z (hex_pair b1' b2')) (of_Z 1)).
  rewrite Cr0, Cg0, Cb0, Cr1, Cg1, Cb1, !toString_byte by assumption.
  split; reflexivity.
Qed.

Lemma interpolateColor_ends_witness :
  interpolateColor (hex_color "2" "d" "5" "0" "1" "6") (hex_color "6" "b" "8" "e" "2" "3")
    (of_Z 0)
  = rgb_text (hex_pair "2" "d") (hex_pair "5" "0") (hex_pair "1" "6")
  /\ interpolateColor (hex_color "2" "d" "5" "0" "1" "6")
       (hex_color "6" "b" "8" "e" "2" "3") (of_Z 1)
     = rgb_text (hex_pair "6" "b") (hex_pair "8" "e") (hex_pair "2" "3").
Proof.
  apply (interpolateColor_ends "2" "d" "5" "0" "1" "6" "6" "b" "8" "e" "2" "3");
    reflexivity.
Defined.

Example colours_of_the_visual_effect :
  interpolateColor "#2d5016" "#6b8e23" (of_Z 0) = "rgb(45, 80, 22)"
  /\ interpolateColor "#2d5016" "#6b8e23" (dec false 5 (-1)) = "rgb(76, 111, 29)"
  /\ interpolateColor "#2d5016" "#6b8e23" (of_Z 1) = "rgb(107, 142, 35)"
  /\ interpolateColor "#fff" "#000" (of_Z 0) = "rgb(255, 15, NaN)".
Proof. repeat split; vm_compute; reflexivity. Qed.

(** ** Animating without setting up *)

Lemma merge_as_options :
  forall base config, merge base (as_options config) = config.
Proof. intros base [] . reflexivity. Qed.

(** X23.  [animateCounters] never calls [setupElements]: an element whose
    markup carries no [data-target-value] is animated towards [NaN],
    whatever its text, between the prefix and the suffix of the markup or
    none; the animation runs under the defaults overridden by the
    options. *)
Theorem animateCounters_skips_the_setup :
  forall (Math_pow : number -> number -> number) (Math_sin : number -> number)
         (options : Options) (page : list Markup) (i : nat) (m : Markup)
         (now : number),
    nth_error page i = Some m ->
    data_target_value m = None ->
    data_animated m <> Some "true" ->
    exists call a element events,
      nth_error (animateCounters Math_pow Math_sin options (map as_read page)) i
      = Some call
      /\ call now = Some (a, element, events)
      /\ targetValue a = NaN
      /\ prefix_ a = or_default (data_prefix m) EmptyString
      /\ suffix_ a = or_default (data_suffix m) EmptyString
      /\ config a = merge defaults options.
Proof.
  intros Math_pow Math_sin options page i m now Hnth Htarget Hmark.
  unfold animateCounters, animateAll. cbv zeta.
  rewrite map_map.
  eexists. eexists. eexists. eexists.
  split; [apply map_nth_error; exact Hnth|].
  unfold animateElement, as_read.
  cbn [dataset_animated dataset_targetValue dataset_prefix dataset_suffix set_animated
       textContent].
  assert (Hnot : String.eqb (or_default (data_animated m) "undefined") "true" = false).
  { destruct (data_animated m) as [t|]; [|reflexivity]. cbn [or_default].
    destruct (String.eqb_spec t "true"); [subst; congruence|reflexivity]. }
  rewrite Hnot, Htarget. cbn [andb or_default].
  split; [reflexivity|]. cbn [targetValue prefix_ suffix_ config].
  split; [reflexivity|]. split; [reflexivity|]. split; [reflexivity|].
  rewrite merge_as_options. destruct options. reflexivity.
Qed.

Lemma animateCounters_skips_the_setup_witness :
  exists call a element events,
    nth_error
      (animateCounters unused_pow unused_sin no_options
         (map as_read
            [ {| markup_text := "15,000"; data_target_value := None;
                 data_prefix := None; data_suffix := None;
                 data_animated := None |} ]))
      0
    = Some call
    /\ call (of_Z 0) = Some (a, element, events)
    /\ targetValue a = NaN
    /\ prefix_ a = or_default None EmptyString
    /\ suffix_ a = or_default None EmptyString
    /\ config a = merge defaults no_options.
Proof.
  apply (animateCounters_skips_the_setup unused_pow unused_sin no_options
           [ {| markup_text := "15,000"; data_target_value := None;
                data_prefix := None; data_suffix := None;
                data_animated := None |} ]
           0
           {| markup_text := "15,000"; data_target_value := None;
              data_prefix := None; data_suffix := None; data_animated := None |}
           (of_Z 0));
    [reflexivity | reflexivity | discriminate].
Defined.
